(** * The batched Snake environment of [game_env_parallel.py]

    A shallow embedding of the class [Snake] and the properties of its
    [reset] / [step] interface.

    Conventions of the embedding.
    - A numpy array of shape (N,S,S) is a [batch]: a list of N lanes, each a
      [grid] of S rows of S cells.  Cells are integers; the float arrays of
      the source only ever hold small integral values, [uint8] arithmetic is
      written with [wrap8].
    - A Python exception is a [Raise] result; the three exception classes
      that the interpreter can raise in this file are in [exn].
    - The attributes assigned by [__init__] are fields of [Snake]; those
      assigned by [reset] sit in [_attrs], absent before the first reset.
      No method of the class ever assigns [self._snake] or
      [self._snake_head].
    - Sizes and counts (board side, frames, lanes, start length) are
      naturals; an action vector is a signed integer array, one code per
      lane.
    - The shuffled [np.arange] of [_get_food] is an explicit argument. *)

From Stdlib Require Import String List ZArith Lia Bool Arith Permutation.
Import ListNotations.
Open Scope Z_scope.

(** ** Exceptions *)

Inductive exn : Type := AttributeError | IndexError | ValueError.

Inductive result (A : Type) : Type :=
| Ok (a : A)
| Raise (e : exn).
Arguments Ok {A} a.
Arguments Raise {A} e.

Definition bind {A B : Type} (m : result A) (k : A -> result B) : result B :=
  match m with
  | Ok a => k a
  | Raise e => Raise e
  end.

Notation "x <- m ;; k" := (bind m (fun x => k))
  (at level 61, m at next level, right associativity).
Notation "' p <- m ;; k" := (bind m (fun x => match x with p => k end))
  (at level 61, p pattern, m at next level, right associativity).

(** ** Arrays *)

Definition grid : Type := list (list Z).
Definition batch : Type := list grid.

Definition tab {A : Type} (n : nat) (f : nat -> A) : list A := map f (seq 0 n).

Definition get1 (l : list Z) (i : nat) : Z := nth i l 0.
Definition get2 (g : grid) (r c : nat) : Z := nth c (nth r g []) 0.
Definition get3 (b : batch) (g r c : nat) : Z := get2 (nth g b []) r c.

Definition zsum (l : list Z) : Z := fold_right Z.add 0 l.
Definition zmax (l : list Z) : Z := fold_right Z.max 0 l.

(** [uint8] wrap-around. *)
Definition wrap8 (z : Z) : Z := z mod 256.

Definition b2z (b : bool) : Z := if b then 1 else 0.

(** [(b == v).sum()] over a whole (N,S,S) array. *)
Definition count_eq (v : Z) (b : batch) : Z :=
  zsum (map (fun lane => zsum (map (fun r => zsum (map (fun x => b2z (x =? v)) r)) lane)) b).

(** ** The object *)

(** [self._value] *)
Definition value_snake : Z := 1.
Definition value_board : Z := 0.
Definition value_food : Z := 3.
Definition value_head : Z := 2.
Definition value_border : Z := 4.

(** [self._n_actions] *)
Definition _n_actions : nat := 4.

(** [self._rewards] *)
Record Rewards : Type := mkRewards {
  r_out : Z; r_food : Z; r_time : Z; r_no_food : Z
}.

Definition default_rewards : Rewards :=
  {| r_out := -1; r_food := 1; r_time := 0; r_no_food := 0 |}.

(** Attributes assigned by [reset]. *)
Record Attrs : Type := mkAttrs {
  _body : batch;
  _food : batch;
  _head : batch;
  _snake_length : nat;
  _count_food : Z;
  _snake_direction : list Z;   (* uint8, shape (N,) *)
  _time : list Z               (* shape (N,1) *)
}.

Record Snake : Type := mkSnake {
  _board_size : nat;
  _n_frames : nat;
  _n_games : nat;
  _rewards : Rewards;
  _start_length : nat;
  _max_time_limit : Z;
  _border : batch;
  _board : list batch;         (* deque(maxlen = _n_frames), index 0 leftmost *)
  _attrs : option Attrs
}.

Definition attrs (s : Snake) : result Attrs :=
  match _attrs s with
  | Some a => Ok a
  | None => Raise AttributeError
  end.

Definition set_board (s : Snake) (q : list batch) : Snake :=
  {| _board_size := _board_size s;
     _n_frames := _n_frames s; _n_games := _n_games s;
     _rewards := _rewards s; _start_length := _start_length s;
     _max_time_limit := _max_time_limit s; _border := _border s;
     _board := q; _attrs := _attrs s |}.

Definition set_attrs (s : Snake) (a : Attrs) : Snake :=
  {| _board_size := _board_size s;
     _n_frames := _n_frames s; _n_games := _n_games s;
     _rewards := _rewards s; _start_length := _start_length s;
     _max_time_limit := _max_time_limit s; _border := _border s;
     _board := _board s; _attrs := Some a |}.

(** [np.pad(x, 1, constant_values = v)] of an n x n array given by [inner]. *)
Definition pad1 (n : nat) (v : Z) (inner : nat -> nat -> Z) : grid :=
  tab (n + 2) (fun r => tab (n + 2) (fun c =>
    if ((1 <=? r) && (r <=? n) && (1 <=? c) && (c <=? n))%nat
    then inner (r - 1)%nat (c - 1)%nat else v)).

(** [__init__]: [np.ones((board_size-2, board_size-2))] refuses a negative
    dimension, every other argument is accepted as it is. *)
Definition __init__ (board_size frames games start_length : nat)
    (max_time_limit : Z) : result Snake :=
  if (board_size <? 2)%nat then Raise ValueError
  else
    let border := pad1 (board_size - 2) value_border (fun _ _ => value_board) in
    Ok {| _board_size := board_size;
          _n_frames := frames;
          _n_games := games;
          _rewards := default_rewards;
          _start_length := Nat.min start_length ((board_size - 2) / 2);
          _max_time_limit := max_time_limit;
          _border := tab games (fun _ => border);
          _board := [];
          _attrs := None |}.

(** ** The frame deque *)

(** [deque.append] with [maxlen = n]: push right, evict left. *)
Definition deque_append {A : Type} (n : nat) (q : list A) (x : A) : list A :=
  let q' := q ++ [x] in skipn (length q' - n) q'.

(** [self._board[0]] *)
Definition deque_first {A : Type} (q : list A) : result A :=
  match q with
  | x :: _ => Ok x
  | [] => Raise IndexError
  end.

(** [self._board[0] = x] *)
Definition deque_set_first {A : Type} (q : list A) (x : A) : result (list A) :=
  match q with
  | _ :: tl => Ok (x :: tl)
  | [] => Raise IndexError
  end.

(** [_queue_to_board]: [np.stack(frames, axis=3)]. *)
Definition stack3 (frames : list batch) : result (list (list (list (list Z)))) :=
  match frames with
  | [] => Raise ValueError
  | fr0 :: _ =>
      Ok (map (fun g => map (fun r => map (fun c =>
                map (fun fr => get3 fr g r c) frames)
              (seq 0 (length (nth r (nth g fr0 []) []))))
            (seq 0 (length (nth g fr0 []))))
          (seq 0 (length fr0)))
  end.

Definition _queue_to_board (s : Snake) : result (list (list (list (list Z)))) :=
  stack3 (_board s).

(** [_calculate_board]: the sum of the four layers.  [_head] and [_food]
    are uint8 arrays, so their products with the codes 2 and 3 are taken in
    uint8; the sum is taken in the floats of [_border]. *)
Definition board_of (s : Snake) (a : Attrs) : batch :=
  tab (_n_games s) (fun g => tab (_board_size s) (fun r => tab (_board_size s) (fun c =>
    get3 (_border s) g r c
    + b2z (get3 (_body a) g r c >? 0) * value_snake
    + wrap8 (get3 (_head a) g r c * value_head)
    + wrap8 (get3 (_food a) g r c * value_food)))).

Definition _calculate_board (s : Snake) : result batch :=
  a <- attrs s ;;
  Ok (board_of s a).

(** [_set_first_frame] *)
Definition _set_first_frame (s : Snake) : result Snake :=
  b <- _calculate_board s ;;
  q <- deque_set_first (_board s) b ;;
  Ok (set_board s q).

(** ** Food placement *)

(** [np.max] over the cells of one lane (S >= 1). *)
Definition lane_max (S : nat) (f : nat -> nat -> Z) : Z :=
  match concat (tab S (fun r => tab S (fun c => f r c))) with
  | [] => 0
  | x :: tl => fold_left Z.max tl x
  end.

Definition set_food (a : Attrs) (f : batch) : Attrs :=
  {| _body := _body a; _food := f; _head := _head a;
     _snake_length := _snake_length a; _count_food := _count_food a;
     _snake_direction := _snake_direction a; _time := _time a |}.

Definition set_direction (a : Attrs) (d : list Z) : Attrs :=
  {| _body := _body a; _food := _food a; _head := _head a;
     _snake_length := _snake_length a; _count_food := _count_food a;
     _snake_direction := d; _time := _time a |}.

Definition set_time (a : Attrs) (t : list Z) : Attrs :=
  {| _body := _body a; _food := _food a; _head := _head a;
     _snake_length := _snake_length a; _count_food := _count_food a;
     _snake_direction := _snake_direction a; _time := t |}.

(** [seq.reshape(N,S,S)] read at (g,r,c). *)
Definition reshape3 (S : nat) (shuffled : list Z) (g r c : nat) : Z :=
  nth (g * S * S + r * S + c)%nat shuffled 0.

(** [(board == 0) * seq.reshape(...)] *)
Definition food_pos0 (S : nat) (board : batch) (shuffled : list Z) (g r c : nat) : Z :=
  b2z (get3 board g r c =? value_board) * reshape3 S shuffled g r c.

(** [(food_pos == m) & (food_pos > 0)] with [m] the lane's maximum. *)
Definition food_pos1 (S : nat) (board : batch) (shuffled : list Z) (g r c : nat) : Z :=
  let m := lane_max S (food_pos0 S board shuffled g) in
  b2z ((food_pos0 S board shuffled g r c =? m)
       && (food_pos0 S board shuffled g r c >? value_board)).

(** [(food_pos * (1-m) + self._food * m).astype(np.uint8)] with [m] the
    lane's maximum of [self._food]. *)
Definition new_food (s : Snake) (a : Attrs) (board : batch) (shuffled : list Z) : batch :=
  let S := _board_size s in
  tab (_n_games s) (fun g =>
    let m := lane_max S (get3 (_food a) g) in
    tab S (fun r => tab S (fun c =>
      wrap8 (wrap8 (food_pos1 S board shuffled g r c * wrap8 (1 - m))
             + wrap8 (get3 (_food a) g r c * m))))).

(** [_get_food]; [shuffled] is [seq] after [np.random.shuffle], a
    rearrangement of 0 .. N*S*S-1.  The newest frame is read first, then
    the lane maximum of [food_pos] is taken (a zero-size lane has none), and
    only then [self._food] is read. *)
Definition _get_food (s : Snake) (shuffled : list Z) : result Snake :=
  board <- deque_first (_board s) ;;
  if ((_board_size s =? 0) && negb (_n_games s =? 0))%nat then Raise ValueError
  else
    a <- attrs s ;;
    _set_first_frame (set_attrs s (set_food a (new_food s a board shuffled))).

(** ** Reset *)

Definition observation : Type := list (list (list (list Z))).

(** The attributes as [reset] assigns them (lines 126-134 and 143;
    [_get_food] in between does not read [_time]). *)
Definition reset_attrs (s : Snake) : Attrs :=
  let N := _n_games s in
  let S := _board_size s in
  let L := _start_length s in
  {| _body := tab N (fun _ => tab S (fun r => tab S (fun c =>
       if ((r =? S / 2) && (1 <=? c) && (c <? L))%nat
       then Z.of_nat (L - c) else 0)));
     _food := tab N (fun _ => tab S (fun _ => tab S (fun _ => 0)));
     _head := tab N (fun _ => tab S (fun r => tab S (fun c =>
       if ((r =? S / 2) && (c =? L))%nat then 1 else 0)));
     _snake_length := L;
     _count_food := 0;
     _snake_direction := repeat 0 N;
     _time := repeat 0 N |}.

(** [reset].  The head is written at column [_start_length], which must
    be a column of the board; [__init__] keeps it below half the interior.
    A start length beyond the board side already fails in the assignment of
    the body (the slice [1:L] is cut at the board side and no longer takes
    the L-1 values), with ValueError; row [S//2] of an empty board, a start
    length equal to the board side, and the pair L = 2, S = 1 (an empty
    slice takes the single value) fail on an index, with IndexError. *)
Definition reset (s : Snake) (shuffled : list Z) : result (Snake * observation) :=
  if (_board_size s <=? _start_length s)%nat
  then Raise (if ((_board_size s =? 0) || (_start_length s =? _board_size s)
                  || ((_start_length s =? 2) && (_board_size s =? 1)))%nat
              then IndexError else ValueError)
  else
    let s1 := set_attrs s (reset_attrs s) in
    board <- _calculate_board s1 ;;
    let s2 := set_board s1
      (Nat.iter (_n_frames s) (fun q => deque_append (_n_frames s) q board) (_board s1)) in
    s3 <- _get_food s2 shuffled ;;
    obs <- _queue_to_board s3 ;;
    Ok (s3, obs).

(** ** Movement *)

(** [_get_new_direction].  [action] is a signed integer array of shape
    (N,), [current_direction] the uint8 array [_snake_direction]; the
    difference is taken in the integers, the assignment
    [new_dir[f] = action[f]] casts to uint8.  For arrays of different
    lengths the flag array [f] is the broadcast of the two: with lengths 0
    and 1 it is empty, an empty boolean index is accepted by either array
    and nothing is assigned; with one length 1 and the other at least 2 the
    boolean index does not fit the shorter array (IndexError); otherwise the
    subtraction cannot broadcast (ValueError). *)
Definition new_direction1 (a c : Z) : Z :=
  if negb (Z.abs (a - c) =? 2) && negb (a =? -1) then wrap8 a else c.

Definition _get_new_direction (action current_direction : list Z) : result (list Z) :=
  if (length action =? length current_direction)%nat
  then Ok (map (fun ac => new_direction1 (fst ac) (snd ac)) (combine action current_direction))
  else if (length action + length current_direction =? 1)%nat
       then Ok current_direction
       else if ((length action =? 1) || (length current_direction =? 1))%nat
            then Raise IndexError
            else Raise ValueError.

(** [self._action_conv], a (3,3,4) kernel with four ones. *)
Definition _action_conv (p q a : nat) : Z :=
  match p, q, a with
  | 1%nat, 0%nat, 0%nat => 1
  | 2%nat, 1%nat, 1%nat => 1
  | 1%nat, 2%nat, 2%nat => 1
  | 0%nat, 1%nat, 3%nat => 1
  | _, _, _ => 0
  end.

(** The strided view: window (i,j) of lane g at offset (p,q). *)
Definition as_strided (head : batch) (g i j p q : nat) : Z :=
  get3 head g (i + p) (j + q).

(** [np.tensordot(view, _action_conv)]: contraction over the 3x3 window. *)
Definition tensordot (head : batch) (g i j a : nat) : Z :=
  wrap8 (zsum (tab 3 (fun p => zsum (tab 3 (fun q =>
    as_strided head g i j p q * _action_conv p q a))))).

(** The cells (lane, code) that the index [np.arange(N), :, :, action] of
    line 198 addresses: the two index arrays are broadcast against each
    other, so a single direction serves every lane and a single lane takes
    every direction; other lengths that differ do not broadcast. *)
Definition one_hot_index (N : nat) (dirs : list Z) : result (list (nat * Z)) :=
  if (length dirs =? N)%nat then Ok (combine (seq 0 N) dirs)
  else if (length dirs =? 1)%nat then Ok (map (fun g => (g, get1 dirs 0)) (seq 0 N))
  else if (N =? 1)%nat then Ok (map (fun d => (0%nat, d)) dirs)
  else Raise IndexError.

(** [one_hot_action] after [one_hot_action[np.arange(N), :, :, action] = 1]. *)
Definition one_hot_action (idx : list (nat * Z)) (g a : nat) : Z :=
  b2z (existsb (fun p => (fst p =? g)%nat && (snd p =? Z.of_nat a)) idx).

(** The one-hot array when there is one direction per lane. *)
Definition lane_one_hot (dirs : list Z) (g a : nat) : Z :=
  b2z (get1 dirs g =? Z.of_nat a).

(** [_get_new_head]: the candidate-head mask of every lane.  The resolved
    directions index the last axis of [one_hot_action] (size 4) next to
    [np.arange(N)]; they are uint8, hence never negative, and they are
    checked against the axis unless the broadcast index is empty.
    [self._head] is read after that assignment, and the strided view
    refuses a negative window count. *)
Definition _get_new_head (s : Snake) (action current_direction : list Z) : result batch :=
  dirs <- _get_new_direction action current_direction ;;
  let N := _n_games s in
  let S := _board_size s in
  idx <- one_hot_index N dirs ;;
  if negb (length idx =? 0)%nat && negb (forallb (fun d => d <? Z.of_nat _n_actions) dirs)
  then Raise IndexError
  else
    a <- attrs s ;;
    if (S <? 2)%nat then Raise ValueError
    else
      Ok (tab N (fun g => pad1 (S - 2) 0 (fun i j =>
            zsum (tab _n_actions (fun k =>
              tensordot (_head a) g i j k * one_hot_action idx g k))))).

(** ** Termination check *)

(** A value that is either a numpy array of shape (N,1) or a Python int. *)
Inductive ndval : Type :=
| NdArr (l : list Z)
| PyInt (z : Z).

(** [termination_reason]: the initial list of N empty strings, or one string. *)
Inductive reasons : Type :=
| ReasonList (l : list string)
| ReasonStr (r : string).

Definition nd_add (v : ndval) (z : Z) : ndval :=
  match v with
  | NdArr l => NdArr (map (fun x => x + z) l)
  | PyInt x => PyInt (x + z)
  end.

(** [v == 0] *)
Definition nd_eq0 (v : ndval) : ndval :=
  match v with
  | NdArr l => NdArr (map (fun x => b2z (x =? 0)) l)
  | PyInt x => PyInt (b2z (x =? 0))
  end.

(** Truth value in an [if]: an array of more (or fewer) than one element has
    none. *)
Definition truth (v : ndval) : result bool :=
  match v with
  | PyInt x => Ok (negb (x =? 0))
  | NdArr [x] => Ok (negb (x =? 0))
  | NdArr _ => Raise ValueError
  end.

Definition _get_food_reward (s : Snake) : Z := r_food (_rewards s).
Definition _get_death_reward (s : Snake) : Z := r_out (_rewards s).

(** Attribute lookup on the ndarray returned by [_get_new_head]: numpy arrays
    have neither [row] nor [col]. *)
Definition ndarray_getattr {A : Type} (arr : batch) (name : string) : result A :=
  Raise AttributeError.

(** [_check_if_done].  The board-full test sums over the whole (N,S,S)
    frame.  When it does not fire, the condition of the wall test reads
    [new_head.row] on an ndarray and the call ends there: the self-collision,
    food and time-limit tests below it are never reached. *)
Definition _check_if_done (s : Snake) (action : list Z)
    : result (ndval * ndval * ndval * reasons) :=
  a <- attrs s ;;
  let N := _n_games s in
  let reward := NdArr (repeat (r_time (_rewards s) * 1) N) in
  let done := NdArr (repeat 0 N) in
  let can_eat_food := NdArr (repeat 0 N) in
  let termination_reason := ReasonList (repeat EmptyString N) in
  new_head <- _get_new_head s action (_snake_direction a) ;;
  board0 <- deque_first (_board s) ;;
  if (count_eq value_board board0 =? 0) && (count_eq value_food board0 =? 0)
  then Ok (nd_add reward (_get_food_reward s), PyInt 1, can_eat_food,
           ReasonStr "game_end"%string)
  else
    row <- ndarray_getattr (A := list nat) new_head "row"%string ;;
    col <- ndarray_getattr (A := list nat) new_head "col"%string ;;
    Raise AttributeError.

(** [_move_snake]: [self._snake_head] is read on its third statement. *)
Definition _move_snake (s : Snake) (action : list Z) (can_eat_food : ndval)
    : result Snake :=
  a <- attrs s ;;
  new_head <- _get_new_head s action (_snake_direction a) ;;
  new_board <- deque_first (_board s) ;;
  Raise AttributeError.

(** ** Step *)

Record StepOut : Type := mkStepOut {
  out_board : observation;
  out_reward : ndval;
  out_done : ndval;
  info_time : list Z;
  info_food : Z;
  info_termination_reason : reasons
}.

Definition step (s : Snake) (action : list Z) (shuffled : list Z)
    : result (Snake * StepOut) :=
  '(reward, done, can_eat_food, termination_reason) <- _check_if_done s action ;;
  t <- truth (nd_eq0 done) ;;
  s1 <- (if t then
           s' <- _move_snake s action can_eat_food ;;
           a' <- attrs s' ;;
           d <- _get_new_direction action (_snake_direction a') ;;
           let s'' := set_attrs s' (set_direction a' d) in
           c <- truth can_eat_food ;;
           if c then _get_food s'' shuffled else Ok s''
         else Ok s) ;;
  a1 <- attrs s1 ;;
  let s2 := set_attrs s1 (set_time a1 (map (fun x => x + 1) (_time a1))) in
  a2 <- attrs s2 ;;
  obs <- _queue_to_board s2 ;;
  Ok (s2, {| out_board := obs; out_reward := reward; out_done := done;
             info_time := _time a2; info_food := _count_food a2;
             info_termination_reason := termination_reason |}).

(** * Notions used in the statements *)

(** ** Moves on the grid *)

(** Position of the single 1 in the kernel of direction [d]. *)
Definition kernel_pos (d : Z) : nat * nat :=
  match d with
  | 0 => (1%nat, 0%nat)
  | 1 => (2%nat, 1%nat)
  | 2 => (1%nat, 2%nat)
  | _ => (0%nat, 1%nat)
  end.

(** The cell onto which the kernel of direction [d] carries a head at
    (hr,hc): right +col, up -row, left -col, down +row. *)
Definition target (d : Z) (hr hc : nat) : nat * nat :=
  ((hr + 1 - fst (kernel_pos d))%nat, (hc + 1 - snd (kernel_pos d))%nat).

Definition interior (S r c : nat) : bool :=
  ((1 <=? r) && (r <=? S - 2) && (1 <=? c) && (c <=? S - 2))%nat.

Definition on_border (S : nat) (rc : nat * nat) : Prop :=
  (fst rc = 0 \/ fst rc = S - 1 \/ snd rc = 0 \/ snd rc = S - 1)%nat.

(** ** Outcomes of a step *)

(** The board-full test of [_check_if_done], on the newest frame of the
    whole batch. *)
Definition board_full (b : batch) : bool :=
  (count_eq value_board b =? 0) && (count_eq value_food b =? 0).

(** The only tuple [_check_if_done] ever returns. *)
Definition game_end_outcome (s : Snake) : ndval * ndval * ndval * reasons :=
  (NdArr (map (fun x => x + r_food (_rewards s))
              (repeat (r_time (_rewards s) * 1) (_n_games s))),
   PyInt 1,
   NdArr (repeat 0 (_n_games s)),
   ReasonStr "game_end"%string).

(** The state after a step that returned: only the clocks moved. *)
Definition tick (s : Snake) (a : Attrs) : Snake :=
  set_attrs s (set_time a (map (fun x => x + 1) (_time a))).

(** ** The result of [reset] *)

(** The state and the frames that [reset] leaves behind. *)
Definition fresh_board (s : Snake) : batch := board_of s (reset_attrs s).

Definition reset_food (s : Snake) (shuffled : list Z) : Attrs :=
  set_food (reset_attrs s) (new_food s (reset_attrs s) (fresh_board s) shuffled).

Definition reset_frames (s : Snake) (shuffled : list Z) : list batch :=
  board_of s (reset_food s shuffled) :: repeat (fresh_board s) (_n_frames s - 1).

Definition reset_state (s : Snake) (shuffled : list Z) : Snake :=
  set_board (set_attrs s (reset_food s shuffled)) (reset_frames s shuffled).

(** ** Observations *)

(** Shape (N,S,S,F) of an observation tensor. *)
Definition has_shape (obs : observation) (N S F : nat) : Prop :=
  length obs = N /\
  Forall (fun lane => length lane = S /\
    Forall (fun row => length row = S /\
      Forall (fun cell => length cell = F) row) lane) obs.

(** The frame axis of the observation at lane g, row r, column c. *)
Definition obs_cell (obs : observation) (g r c : nat) : list Z :=
  nth c (nth r (nth g obs []) []) [].

(** ** Valid configurations and actions *)

Record valid_config (s : Snake) : Prop := mkValid {
  vc_size : (3 <= _board_size s)%nat;
  vc_frames : (1 <= _n_frames s)%nat;
  vc_games : (1 <= _n_games s)%nat;
  vc_length : (_start_length s <= (_board_size s - 2) / 2)%nat;
  vc_border : _border s
              = tab (_n_games s) (fun _ =>
                  pad1 (_board_size s - 2) value_border (fun _ _ => value_board))
}.

(** One code per lane, each a direction 0..3 or the sentinel -1. *)
Definition valid_action (N : nat) (action : list Z) : Prop :=
  length action = N /\ Forall (fun a => -1 <= a <= 3) action.

(** ** Per-lane views *)

(** What [step] reports for lane [i]. *)
Definition nd_lane (v : ndval) (i : nat) : Z :=
  match v with
  | NdArr l => nth i l 0
  | PyInt z => z
  end.

Definition reason_lane (r : reasons) (i : nat) : string :=
  match r with
  | ReasonList l => nth i l EmptyString
  | ReasonStr x => x
  end.

Definition lane_report (res : result (Snake * StepOut)) (i : nat)
    : result (Z * Z * string) :=
  '(_, o) <- res ;;
  Ok (nd_lane (out_reward o) i, nd_lane (out_done o) i,
      reason_lane (info_termination_reason o) i).

(** Everything the object holds about lane [i]. *)
Definition lane_state (s : Snake) (i : nat)
    : option (grid * grid * grid * Z * Z) * list grid :=
  (option_map (fun a => (nth i (_body a) [], nth i (_food a) [], nth i (_head a) [],
                         get1 (_snake_direction a) i, get1 (_time a) i))
              (_attrs s),
   map (fun fr => nth i fr []) (_board s)).

(** The constructor arguments of two objects agree. *)
Definition same_config (s1 s2 : Snake) : Prop :=
  _board_size s1 = _board_size s2 /\ _n_frames s1 = _n_frames s2 /\
  _n_games s1 = _n_games s2 /\ _rewards s1 = _rewards s2 /\
  _start_length s1 = _start_length s2 /\
  _max_time_limit s1 = _max_time_limit s2 /\ _border s1 = _border s2.

(** Lane independence of [step]: what is reported for lane [i] depends on
    the state and the action of lane [i] only. *)
Definition lane_independent : Prop :=
  forall (s1 s2 : Snake) (action1 action2 shuffled : list Z) (i : nat),
    same_config s1 s2 ->
    lane_state s1 i = lane_state s2 i ->
    get1 action1 i = get1 action2 i ->
    lane_report (step s1 action1 shuffled) i
    = lane_report (step s2 action2 shuffled) i.

(** ** Concrete objects *)

Definition get_ok {A : Type} (d : A) (r : result A) : A :=
  match r with
  | Ok a => a
  | Raise _ => d
  end.

Definition no_attrs : Attrs :=
  {| _body := []; _food := []; _head := []; _snake_length := 0;
     _count_food := 0; _snake_direction := []; _time := [] |}.

Definition no_snake : Snake :=
  {| _board_size := 0; _n_frames := 0; _n_games := 0;
     _rewards := default_rewards; _start_length := 0; _max_time_limit := 0;
     _border := []; _board := []; _attrs := None |}.

(** [Snake(board_size, frames, games, start_length, max_time_limit)] *)
Definition new_snake (board_size frames games start_length : nat) (T : Z) : Snake :=
  get_ok no_snake (__init__ board_size frames games start_length T).

(** [np.arange(n)] left in order by the shuffle. *)
Definition arange (n : nat) : list Z := map Z.of_nat (seq 0 n).

(** The object [e] holding the attributes [a], its newest frame rendered
    from them by [_calculate_board], in front of the [older] frames. *)
Definition holding (e : Snake) (a : Attrs) (older : list batch) : Snake :=
  set_board (set_attrs e a) (board_of e a :: older).

(** A lane of board side 4 whose snake of length 4 fills the 2x2 interior:
    head at (1,1), then (1,2), (2,2) and the tail at (2,1). *)
Definition full_body : grid := [[0;0;0;0]; [0;0;1;0]; [0;3;2;0]; [0;0;0;0]].
Definition full_head : grid := [[0;0;0;0]; [0;1;0;0]; [0;0;0;0]; [0;0;0;0]].
Definition no_food4 : grid := [[0;0;0;0]; [0;0;0;0]; [0;0;0;0]; [0;0;0;0]].

(** A lane of board side 4 as [reset] leaves it: head alone at (2,1), food
    at (2,2). *)
Definition young_body : grid := no_food4.
Definition young_head : grid := [[0;0;0;0]; [0;0;0;0]; [0;1;0;0]; [0;0;0;0]].
Definition young_food : grid := [[0;0;0;0]; [0;0;0;0]; [0;0;1;0]; [0;0;0;0]].

(** Two lanes, both full. *)
Definition both_full : Snake :=
  holding (new_snake 4 1 2 5 298)
    {| _body := [full_body; full_body]; _food := [no_food4; no_food4];
       _head := [full_head; full_head]; _snake_length := 4; _count_food := 3;
       _snake_direction := [2; 2]; _time := [5; 5] |} [].

(** Two lanes, lane 0 full as above, lane 1 still running. *)
Definition one_full : Snake :=
  holding (new_snake 4 1 2 5 298)
    {| _body := [full_body; young_body]; _food := [no_food4; young_food];
       _head := [full_head; young_head]; _snake_length := 4; _count_food := 3;
       _snake_direction := [2; 0]; _time := [5; 5] |} [].

(** One full lane with two frames of history; the older frame shows the
    snake of length 3 before it ate the food at (1,1). *)
Definition full_with_history : Snake :=
  holding (new_snake 4 2 1 5 298)
    {| _body := [full_body]; _food := [no_food4]; _head := [full_head];
       _snake_length := 4; _count_food := 3;
       _snake_direction := [2]; _time := [5] |}
    [ [ [[4;4;4;4]; [4;3;2;4]; [4;1;1;4]; [4;4;4;4]] ] ].

(** A lane of board side 5 chasing its own tail: head at (1,1) heading
    Left, body (1,2), (2,2) and tail (2,1), food at (3,3). *)
Definition chasing_tail : Snake :=
  holding (new_snake 5 1 1 5 298)
    {| _body := [[[0;0;0;0;0]; [0;0;1;0;0]; [0;3;2;0;0]; [0;0;0;0;0]; [0;0;0;0;0]]];
       _food := [[[0;0;0;0;0]; [0;0;0;0;0]; [0;0;0;0;0]; [0;0;0;1;0]; [0;0;0;0;0]]];
       _head := [[[0;0;0;0;0]; [0;1;0;0;0]; [0;0;0;0;0]; [0;0;0;0;0]; [0;0;0;0;0]]];
       _snake_length := 4; _count_food := 3;
       _snake_direction := [2]; _time := [7] |} [].

(** Board side 6, one lane, start length 2 and time limit 1, one time unit
    after [reset]. *)
Definition timed_out : Snake :=
  let s := reset_state (new_snake 6 2 1 2 1) (arange 36) in
  set_attrs s (set_time (reset_food (new_snake 6 2 1 2 1) (arange 36)) [1]).

(** A lane of board side 4 whose snake of length 3 leaves one empty cell,
    (2,1), and which holds no food. *)
Definition one_cell_left : Snake :=
  holding (new_snake 4 1 1 5 298)
    {| _body := [[[0;0;0;0]; [0;0;1;0]; [0;0;2;0]; [0;0;0;0]]];
       _food := [no_food4];
       _head := [full_head];
       _snake_length := 3; _count_food := 2;
       _snake_direction := [2]; _time := [4] |} [].

(** A board of side 2 has no interior: [reset] leaves the head on the wall
    and a frame without Empty or Food cell, so the first [step] already ends
    the episode on the full board. *)
Definition side_two : Snake := new_snake 2 1 1 5 298.
Definition side_two_reset : Snake := reset_state side_two (arange 4).

(** [np.arange(16)] with 0 and 9 exchanged. *)
Definition shuffle_0_9 : list Z := [9;1;2;3;4;5;6;7;8;0;10;11;12;13;14;15].

(** ** Calls of the interface *)

(** A call of the public interface. *)
Inductive call : Type :=
| Reset (shuffled : list Z)
| Step (action shuffled : list Z).

Definition run (s : Snake) (c : call) : result (Snake * option StepOut) :=
  match c with
  | Reset shuffled => '(s', _) <- reset s shuffled ;; Ok (s', None)
  | Step action shuffled => '(s', o) <- step s action shuffled ;; Ok (s', Some o)
  end.

(** * The rest of the class *)

(** ** The action table and the accessors *)

(** [self._actions] *)
Definition _actions : list (Z * Z) :=
  [(-1, -1); (0, 0); (1, 1); (2, 2); (3, 3); (4, -1)].

(** Lookup in a dict given by its items; [None] stands for KeyError. *)
Fixpoint dict_get (d : list (Z * Z)) (k : Z) : option Z :=
  match d with
  | [] => None
  | (k', v) :: tl => if k =? k' then Some v else dict_get tl k
  end.

(** [_action_map] *)
Definition _action_map (action : Z) : option Z := dict_get _actions action.

(** [get_board_size], [get_n_frames], [get_num_actions], [get_head_value] *)
Definition get_board_size (s : Snake) : nat := _board_size s.
Definition get_n_frames (s : Snake) : nat := _n_frames s.
Definition get_num_actions (s : Snake) : nat := _n_actions.
Definition get_head_value (s : Snake) : Z := value_head.

(** ** Notions for the further statements *)

(** A lane whose food mask is all zero inside the board. *)
Definition lane_without_food (S : nat) (food : batch) (g : nat) : Prop :=
  forall r c, (r < S)%nat -> (c < S)%nat -> get3 food g r c = 0.

(** A cell of a frame, with its indices inside the frame. *)
Definition in_frame (b : batch) (g r c : nat) : Prop :=
  (g < length b)%nat /\ (r < length (nth g b []))%nat /\
  (c < length (nth r (nth g b []) []))%nat.

(** What [np.random.shuffle] can leave of [np.arange(n)]. *)
Definition is_shuffle (n : nat) (shuffled : list Z) : Prop :=
  Permutation shuffled (arange n).

(** An array of shape (N,S,S). *)
Definition shapedb (N S : nat) (b : batch) : bool :=
  (length b =? N)%nat &&
  forallb (fun lane => (length lane =? S)%nat &&
                       forallb (fun row => (length row =? S)%nat) lane) b.

(** An array that holds nothing but 0 and 1. *)
Definition maskb (b : batch) : bool :=
  forallb (forallb (forallb (fun x => (x =? 0) || (x =? 1)))) b.

(** The state of an object between two calls once [reset] has run: the
    border, the three layers and every frame have the shape (N,S,S), the
    head and food layers are 0/1 masks, there is one direction and one
    clock per lane, and the deque holds [_n_frames] frames. *)
Definition well_formed (s : Snake) : bool :=
  match _attrs s with
  | None => false
  | Some a =>
      let N := _n_games s in
      let S := _board_size s in
      shapedb N S (_border s) && shapedb N S (_body a) &&
      shapedb N S (_food a) && maskb (_food a) &&
      shapedb N S (_head a) && maskb (_head a) &&
      (length (_snake_direction a) =? N)%nat && (length (_time a) =? N)%nat &&
      (length (_board s) =? _n_frames s)%nat &&
      forallb (shapedb N S) (_board s)
  end.

(** A sequence of calls, stopped by the first exception. *)
Fixpoint run_all (s : Snake) (cs : list call) : result Snake :=
  match cs with
  | [] => Ok s
  | c :: cs' => '(s', _) <- run s c ;; run_all s' cs'
  end.

Definition is_reset (c : call) : bool :=
  match c with
  | Reset _ => true
  | Step _ _ => false
  end.

(** The lane of [chasing_tail] before any food was placed. *)
Definition chasing_tail_hungry : Snake :=
  holding (new_snake 5 1 1 5 298)
    {| _body := [[[0;0;0;0;0]; [0;0;1;0;0]; [0;3;2;0;0]; [0;0;0;0;0]; [0;0;0;0;0]]];
       _food := [[[0;0;0;0;0]; [0;0;0;0;0]; [0;0;0;0;0]; [0;0;0;0;0]; [0;0;0;0;0]]];
       _head := [[[0;0;0;0;0]; [0;1;0;0;0]; [0;0;0;0;0]; [0;0;0;0;0]; [0;0;0;0;0]]];
       _snake_length := 4; _count_food := 3;
       _snake_direction := [2]; _time := [7] |} [].

(** * Properties *)

(** ** Table lookups *)

Section Tables.
Context {A : Type}.
Variables (n : nat) (f : nat -> A).

Lemma length_tab : length (tab n f) = n.
Proof. unfold tab. now rewrite length_map, length_seq. Qed.

Lemma nth_tab (i : nat) (d : A) :
  (i < n)%nat -> nth i (tab n f) d = f i.
Proof.
  intros Hi. unfold tab.
  rewrite (nth_indep _ d (f 0%nat)) by now rewrite length_map, length_seq.
  rewrite map_nth, seq_nth; auto.
Qed.

Lemma tab_ext (g : nat -> A) :
  (forall i, (i < n)%nat -> f i = g i) -> tab n f = tab n g.
Proof.
  intros H. unfold tab. apply map_ext_in. intros i Hi.
  apply in_seq in Hi. apply H. lia.
Qed.

Lemma Forall_tab (P : A -> Prop) :
  (forall i, (i < n)%nat -> P (f i)) -> Forall P (tab n f).
Proof.
  intros H. apply Forall_forall. intros x Hx. unfold tab in Hx.
  apply in_map_iff in Hx. destruct Hx as (i & <- & Hi).
  apply in_seq in Hi. apply H. lia.
Qed.
End Tables.

Lemma get2_tab (n m : nat) (f : nat -> nat -> Z) (r c : nat) :
  (r < n)%nat -> (c < m)%nat ->
  get2 (tab n (fun r => tab m (fun c => f r c))) r c = f r c.
Proof. intros Hr Hc. unfold get2. now rewrite nth_tab, nth_tab. Qed.

Lemma get3_tab (k n m : nat) (f : nat -> nat -> nat -> Z) (g r c : nat) :
  (g < k)%nat -> (r < n)%nat -> (c < m)%nat ->
  get3 (tab k (fun g => tab n (fun r => tab m (fun c => f g r c)))) g r c = f g r c.
Proof. intros Hg Hr Hc. unfold get3. rewrite nth_tab by auto. now apply get2_tab. Qed.

Lemma get2_pad1 (n : nat) (v : Z) (inner : nat -> nat -> Z) (r c : nat) :
  (r < n + 2)%nat -> (c < n + 2)%nat ->
  get2 (pad1 n v inner) r c =
  if ((1 <=? r) && (r <=? n) && (1 <=? c) && (c <=? n))%nat
  then inner (r - 1)%nat (c - 1)%nat else v.
Proof. intros Hr Hc. unfold pad1. now rewrite get2_tab. Qed.

(** ** Direction resolution *)

Lemma get_new_direction_ok (action cur : list Z) :
  length action = length cur ->
  _get_new_direction action cur
  = Ok (map (fun ac => new_direction1 (fst ac) (snd ac)) (combine action cur)).
Proof. intros H. unfold _get_new_direction. now rewrite H, Nat.eqb_refl. Qed.

Lemma get1_new_direction (action cur : list Z) (i : nat) :
  length action = length cur -> (i < length cur)%nat ->
  get1 (map (fun ac => new_direction1 (fst ac) (snd ac)) (combine action cur)) i
  = new_direction1 (get1 action i) (get1 cur i).
Proof.
  intros Hlen Hi. unfold get1.
  rewrite (nth_indep _ 0 (new_direction1 (fst (0, 0)) (snd (0, 0)))).
  - rewrite (map_nth (fun ac => new_direction1 (fst ac) (snd ac))).
    now rewrite combine_nth.
  - rewrite length_map, length_combine. lia.
Qed.

Lemma new_direction1_valid (a c : Z) :
  0 <= a <= 3 -> Z.abs (a - c) <> 2 -> new_direction1 a c = a.
Proof.
  intros Ha Hrev. unfold new_direction1, wrap8.
  destruct (Z.eqb_spec (Z.abs (a - c)) 2); [contradiction|].
  destruct (Z.eqb_spec a (-1)); [lia|]. cbn.
  apply Z.mod_small. lia.
Qed.

Lemma new_direction1_keep (a c : Z) :
  Z.abs (a - c) = 2 \/ a = -1 -> new_direction1 a c = c.
Proof.
  intros H. unfold new_direction1.
  destruct (Z.eqb_spec (Z.abs (a - c)) 2); [reflexivity|].
  destruct (Z.eqb_spec a (-1)); [reflexivity|].
  destruct H; contradiction.
Qed.

(** ** The candidate-head mask *)

Lemma target_cases :
  target 0 3 2 = (3, 3)%nat /\ target 1 3 2 = (2, 2)%nat /\
  target 2 3 2 = (3, 1)%nat /\ target 3 3 2 = (4, 2)%nat.
Proof. repeat split. Qed.

(** Case split on a direction code known to lie in 0..3. *)
Ltac direction_cases d :=
  let E := fresh "E" in
  assert (E : d = 0 \/ d = 1 \/ d = 2 \/ d = 3) by lia;
  destruct E as [E | [E | [E | E]]].

(** The one-hot selection keeps the window cell at the kernel position. *)
Lemma conv_select (head : batch) (dirs : list Z) (g i j : nat) :
  0 <= get1 dirs g < 4 ->
  zsum (tab _n_actions (fun k => tensordot head g i j k * lane_one_hot dirs g k))
  = wrap8 (get3 head g (i + fst (kernel_pos (get1 dirs g)))
                       (j + snd (kernel_pos (get1 dirs g)))).
Proof.
  intros Hd. unfold lane_one_hot.
  direction_cases (get1 dirs g); rewrite E;
    cbn [_n_actions tab seq map zsum fold_right tensordot as_strided _action_conv
         kernel_pos fst snd Z.of_nat Pos.of_succ_nat Pos.succ Z.eqb Pos.eqb b2z];
    rewrite ?Z.mul_0_r, ?Z.mul_1_r, ?Z.add_0_r, ?Z.add_0_l;
    unfold tensordot, as_strided;
    cbn [tab seq map zsum fold_right _action_conv];
    rewrite ?Z.mul_0_r, ?Z.mul_1_r, ?Z.add_0_r, ?Z.add_0_l; reflexivity.
Qed.

(** With one direction per lane the broadcast index is the plain pairing
    of lanes and directions, and the array it leaves is the per-lane
    one-hot. *)
Lemma one_hot_index_lanes (N : nat) (dirs : list Z) :
  length dirs = N -> one_hot_index N dirs = Ok (combine (seq 0 N) dirs).
Proof. intros H. unfold one_hot_index. now rewrite H, Nat.eqb_refl. Qed.

Lemma existsb_combine_seq (l : list Z) (k g : nat) (a : Z) :
  existsb (fun p => (fst p =? g)%nat && (snd p =? a)) (combine (seq k (length l)) l)
  = ((k <=? g)%nat && (g <? k + length l)%nat && (nth (g - k) l 0 =? a)).
Proof.
  revert k. induction l as [| x l IH]; intros k;
    cbn [length seq combine existsb fst snd].
  - destruct (Nat.leb_spec k g), (Nat.ltb_spec g (k + 0)); try reflexivity; lia.
  - rewrite IH. destruct (Nat.eqb_spec k g) as [-> | Hne].
    + rewrite Nat.sub_diag. cbn [nth andb].
      destruct (Nat.leb_spec g g); [|lia].
      destruct (Nat.ltb_spec g (g + S (length l))); [|lia].
      destruct (Nat.leb_spec (S g) g); [lia|].
      cbn [andb]. now rewrite orb_false_r.
    + cbn [andb orb].
      destruct (Nat.leb_spec (S k) g) as [H1 | H1];
        destruct (Nat.leb_spec k g) as [H2 | H2]; try lia;
        cbn [andb]; try reflexivity.
      replace (g - k)%nat with (S (g - S k)) by lia. cbn [nth].
      destruct (Nat.ltb_spec g (S k + length l)) as [H3 | H3];
        destruct (Nat.ltb_spec g (k + S (length l))) as [H4 | H4];
        try lia; reflexivity.
Qed.

Lemma one_hot_action_lane (N : nat) (dirs : list Z) (g a : nat) :
  length dirs = N -> (g < N)%nat ->
  one_hot_action (combine (seq 0 N) dirs) g a = lane_one_hot dirs g a.
Proof.
  intros HN Hg. unfold one_hot_action, lane_one_hot, get1. subst N.
  rewrite existsb_combine_seq, Nat.sub_0_r.
  destruct (Nat.ltb_spec g (0 + length dirs)); [reflexivity | lia].
Qed.

Lemma get_new_head_dirs (s : Snake) (a : Attrs) (action cur dirs : list Z) :
  _attrs s = Some a ->
  _get_new_direction action cur = Ok dirs ->
  length dirs = _n_games s ->
  Forall (fun d => 0 <= d < 4) dirs ->
  (2 <= _board_size s)%nat ->
  _get_new_head s action cur
  = Ok (tab (_n_games s) (fun g => pad1 (_board_size s - 2) 0 (fun i j =>
          zsum (tab _n_actions (fun k =>
            tensordot (_head a) g i j k * lane_one_hot dirs g k))))).
Proof.
  intros Ha Hdirs HN Hd HS. unfold _get_new_head.
  rewrite Hdirs. cbn [bind].
  rewrite (one_hot_index_lanes _ _ HN). cbn [bind].
  replace (forallb _ dirs) with true.
  - cbn [negb]. rewrite andb_false_r.
    unfold attrs. rewrite Ha. cbn [bind].
    destruct (Nat.ltb_spec (_board_size s) 2); [lia|].
    f_equal. apply tab_ext. intros g Hg. unfold pad1.
    apply tab_ext. intros r Hr. apply tab_ext. intros c Hc.
    destruct (_ && _); [|reflexivity].
    f_equal. apply tab_ext. intros k Hk.
    now rewrite (one_hot_action_lane _ _ g k HN Hg).
  - symmetry. apply forallb_forall. intros d Hin.
    rewrite Forall_forall in Hd. specialize (Hd d Hin).
    apply Z.ltb_lt. cbn. lia.
Qed.

Lemma get_new_head_ok (s : Snake) (a : Attrs) (action : list Z) :
  _attrs s = Some a ->
  length action = length (_snake_direction a) ->
  length (_snake_direction a) = _n_games s ->
  Forall (fun d => 0 <= d < 4)
    (map (fun ac => new_direction1 (fst ac) (snd ac))
         (combine action (_snake_direction a))) ->
  (2 <= _board_size s)%nat ->
  _get_new_head s action (_snake_direction a)
  = Ok (tab (_n_games s) (fun g => pad1 (_board_size s - 2) 0 (fun i j =>
          zsum (tab _n_actions (fun k =>
            tensordot (_head a) g i j k
            * lane_one_hot
                (map (fun ac => new_direction1 (fst ac) (snd ac))
                     (combine action (_snake_direction a))) g k))))).
Proof.
  intros Ha Hlen HN Hd HS.
  apply get_new_head_dirs; try assumption.
  - now apply get_new_direction_ok.
  - rewrite length_map, length_combine. lia.
Qed.

(** Every cell of the mask: zero on the ring, inside it the head bit that
    the kernel of the lane's direction picks. *)
Lemma new_head_cell (S : nat) (head : batch) (dirs : list Z) (g r c : nat) :
  (2 <= S)%nat -> (r < S)%nat -> (c < S)%nat ->
  0 <= get1 dirs g < 4 ->
  get2 (pad1 (S - 2) 0 (fun i j =>
          zsum (tab _n_actions (fun k =>
            tensordot head g i j k * lane_one_hot dirs g k)))) r c
  = if interior S r c
    then wrap8 (get3 head g (r - 1 + fst (kernel_pos (get1 dirs g)))
                            (c - 1 + snd (kernel_pos (get1 dirs g))))
    else 0.
Proof.
  intros HS Hr Hc Hd. rewrite get2_pad1 by lia. unfold interior.
  destruct ((1 <=? r) && (r <=? S - 2) && (1 <=? c) && (c <=? S - 2))%nat;
    [now apply conv_select | reflexivity].
Qed.

(** What [_get_new_direction] returns: one direction per stored
    direction, resolved lane by lane, or the stored directions themselves
    when the lengths are 0 and 1. *)
Lemma get_new_direction_inv (action cur dirs : list Z) :
  _get_new_direction action cur = Ok dirs ->
  length dirs = length cur /\
  ((length action = length cur /\
    dirs = map (fun ac => new_direction1 (fst ac) (snd ac)) (combine action cur))
   \/ ((length action + length cur = 1)%nat /\ dirs = cur)).
Proof.
  unfold _get_new_direction.
  destruct (Nat.eqb_spec (length action) (length cur)) as [E | E].
  - intros H. injection H as <-. split; [|now left].
    rewrite length_map, length_combine. lia.
  - destruct (Nat.eqb_spec (length action + length cur) 1) as [E1 | E1].
    + intros H. injection H as <-. split; [reflexivity | now right].
    + destruct (_ || _); discriminate.
Qed.

(** C10: a lane whose single head cell lies inside the ring and whose
    resolved direction carries it onto the ring gets an all-zero
    candidate-head mask from [_get_new_head]: the windows only cover the
    interior and the ring is padded with 0. *)
Theorem C10_move_into_border_is_zero_mask
    (s : Snake) (a : Attrs) (action dirs : list Z) (i hr hc : nat) :
  _attrs s = Some a ->
  _get_new_direction action (_snake_direction a) = Ok dirs ->
  length dirs = _n_games s ->
  Forall (fun d => 0 <= d < 4) dirs ->
  (i < _n_games s)%nat ->
  (forall r c, (r < _board_size s)%nat -> (c < _board_size s)%nat ->
     get3 (_head a) i r c = if ((r =? hr) && (c =? hc))%nat then 1 else 0) ->
  interior (_board_size s) hr hc = true ->
  on_border (_board_size s) (target (get1 dirs i) hr hc) ->
  exists new_head,
    _get_new_head s action (_snake_direction a) = Ok new_head /\
    nth i new_head [] = tab (_board_size s) (fun _ => tab (_board_size s) (fun _ => 0)).
Proof.
  intros Ha Hdirs HN Hall Hi Hhead Hin Hb.
  assert (HS : (3 <= _board_size s)%nat).
  { unfold interior in Hin. rewrite !andb_true_iff, !Nat.leb_le in Hin. lia. }
  eexists. split.
  - apply (get_new_head_dirs s a action _ dirs); auto. lia.
  - rewrite nth_tab by assumption.
    assert (Hd : 0 <= get1 dirs i < 4).
    { rewrite Forall_forall in Hall. apply Hall. apply nth_In. lia. }
    unfold pad1 at 1.
    replace (_board_size s - 2 + 2)%nat with (_board_size s) by lia.
    apply tab_ext. intros r Hr. apply tab_ext. intros c Hc.
    fold (interior (_board_size s) r c).
    destruct (interior (_board_size s) r c) eqn:Hrc; [|reflexivity].
    rewrite conv_select by assumption.
    unfold interior in Hin, Hrc.
    rewrite !andb_true_iff, !Nat.leb_le in Hin, Hrc.
    unfold on_border, target in Hb. cbn [fst snd] in Hb.
    assert (Hk : (fst (kernel_pos (get1 dirs i)) <= 2
                  /\ snd (kernel_pos (get1 dirs i)) <= 2)%nat).
    { direction_cases (get1 dirs i); rewrite E; cbn; lia. }
    rewrite Hhead by lia.
    destruct (Nat.eqb_spec (r - 1 + fst (kernel_pos (get1 dirs i))) hr);
      destruct (Nat.eqb_spec (c - 1 + snd (kernel_pos (get1 dirs i))) hc);
      cbn [andb]; try reflexivity.
    exfalso.
    direction_cases (get1 dirs i); rewrite E in *; cbn in *; lia.
Qed.

(** ** What [_check_if_done] and [step] can return *)

Lemma check_if_done_full (s : Snake) (a : Attrs) (b0 : batch) (tl : list batch)
    (action : list Z) (nh : batch) :
  _attrs s = Some a -> _board s = b0 :: tl ->
  _get_new_head s action (_snake_direction a) = Ok nh ->
  board_full b0 = true ->
  _check_if_done s action = Ok (game_end_outcome s).
Proof.
  intros Ha Hb Hnh Hfull. unfold _check_if_done, attrs.
  rewrite Ha. cbn [bind]. rewrite Hnh. cbn [bind]. rewrite Hb. cbn [deque_first bind].
  unfold board_full in Hfull. rewrite Hfull. reflexivity.
Qed.

Lemma check_if_done_not_full (s : Snake) (a : Attrs) (b0 : batch) (tl : list batch)
    (action : list Z) :
  _attrs s = Some a -> _board s = b0 :: tl ->
  board_full b0 = false ->
  exists e, _check_if_done s action = Raise e.
Proof.
  intros Ha Hb Hfull. unfold _check_if_done, attrs.
  rewrite Ha. cbn [bind].
  destruct (_get_new_head s action (_snake_direction a)) as [nh | e]; cbn [bind].
  - rewrite Hb. cbn [deque_first bind].
    unfold board_full in Hfull. rewrite Hfull.
    exists AttributeError. reflexivity.
  - now exists e.
Qed.

Lemma check_if_done_inv (s : Snake) (action : list Z)
    (out : ndval * ndval * ndval * reasons) :
  _check_if_done s action = Ok out ->
  exists a b0 tl nh,
    _attrs s = Some a /\ _board s = b0 :: tl /\
    _get_new_head s action (_snake_direction a) = Ok nh /\
    board_full b0 = true /\ out = game_end_outcome s.
Proof.
  unfold _check_if_done, attrs.
  destruct (_attrs s) as [a |] eqn:Ha; cbn [bind]; [|discriminate].
  destruct (_get_new_head s action (_snake_direction a)) as [nh | e] eqn:Hnh;
    cbn [bind]; [|discriminate].
  destruct (_board s) as [| b0 tl] eqn:Hb; cbn [deque_first bind]; [discriminate|].
  destruct ((count_eq value_board b0 =? 0) && (count_eq value_food b0 =? 0)) eqn:Hf.
  - intros H. injection H as <-. exists a, b0, tl, nh. repeat split; auto.
  - cbn. discriminate.
Qed.

Lemma step_full (s : Snake) (a : Attrs) (b0 : batch) (tl : list batch)
    (action shuffled : list Z) (nh : batch) :
  _attrs s = Some a -> _board s = b0 :: tl ->
  _get_new_head s action (_snake_direction a) = Ok nh ->
  board_full b0 = true ->
  exists obs,
    stack3 (b0 :: tl) = Ok obs /\
    step s action shuffled
    = Ok (tick s a,
          {| out_board := obs;
             out_reward := fst (fst (fst (game_end_outcome s)));
             out_done := PyInt 1;
             info_time := map (fun x => x + 1) (_time a);
             info_food := _count_food a;
             info_termination_reason := ReasonStr "game_end"%string |}).
Proof.
  intros Ha Hb Hnh Hfull. eexists. split; [reflexivity|].
  unfold step. rewrite (check_if_done_full s a b0 tl action nh) by assumption.
  unfold game_end_outcome. cbn [bind nd_eq0 truth Z.eqb b2z negb].
  unfold attrs. rewrite Ha. cbn [bind set_attrs _attrs].
  unfold _queue_to_board. cbn [set_attrs _board]. rewrite Hb. reflexivity.
Qed.

Lemma step_inv (s s' : Snake) (action shuffled : list Z) (o : StepOut) :
  step s action shuffled = Ok (s', o) ->
  exists a b0 tl,
    _attrs s = Some a /\ _board s = b0 :: tl /\ board_full b0 = true /\
    s' = tick s a /\
    out_reward o = fst (fst (fst (game_end_outcome s))) /\
    out_done o = PyInt 1 /\
    info_termination_reason o = ReasonStr "game_end"%string.
Proof.
  unfold step.
  destruct (_check_if_done s action) as [out | e] eqn:Hc; cbn [bind]; [|discriminate].
  destruct (check_if_done_inv _ _ _ Hc) as (a & b0 & tl & nh & Ha & Hb & Hnh & Hf & ->).
  destruct (step_full s a b0 tl action shuffled nh Ha Hb Hnh Hf) as (obs & _ & Hs).
  unfold step in Hs. rewrite Hc in Hs. cbn [bind] in Hs. rewrite Hs.
  intros H. injection H as <- <-. exists a, b0, tl. repeat split; auto.
Qed.

(** A batch whose newest frame is not full in every lane gets no result
    from [step]. *)
Lemma step_not_full (s : Snake) (a : Attrs) (b0 : batch) (tl : list batch)
    (action shuffled : list Z) :
  _attrs s = Some a -> _board s = b0 :: tl ->
  board_full b0 = false ->
  exists e, step s action shuffled = Raise e.
Proof.
  intros Ha Hb Hf.
  destruct (check_if_done_not_full s a b0 tl action Ha Hb Hf) as [e He].
  exists e. unfold step. rewrite He. reflexivity.
Qed.

(** ** Reset *)

Lemma iter_deque_append {A : Type} (n : nat) (x : A) (k : nat) (q : list A) :
  (S k <= n)%nat ->
  Nat.iter (S k) (fun q => deque_append n q x) q
  = skipn (length q + S k - n) (q ++ repeat x (S k)).
Proof.
  induction k as [| k IH]; intros Hk.
  - cbn. unfold deque_append. rewrite length_app. reflexivity.
  - change (Nat.iter (S (S k)) (fun q => deque_append n q x) q)
      with (deque_append n (Nat.iter (S k) (fun q => deque_append n q x) q) x).
    rewrite IH by lia. unfold deque_append.
    set (m := (length q + S k - n)%nat).
    assert (Hm : (m <= length (q ++ repeat x (S k)))%nat).
    { rewrite length_app, repeat_length. lia. }
    rewrite length_app, length_skipn, length_app, repeat_length. cbn [length].
    replace (skipn m (q ++ repeat x (S k)) ++ [x])
      with (skipn m ((q ++ repeat x (S k)) ++ [x])).
    2:{ rewrite skipn_app.
        replace (m - length (q ++ repeat x (S k)))%nat with 0%nat by lia.
        reflexivity. }
    rewrite skipn_skipn, <- app_assoc.
    replace (repeat x (S k) ++ [x]) with (repeat x (S (S k)))
      by (now rewrite <- repeat_cons).
    f_equal. lia.
Qed.

Lemma iter_deque_append_full {A : Type} (n : nat) (x : A) (q : list A) :
  (1 <= n)%nat ->
  Nat.iter n (fun q => deque_append n q x) q = repeat x n.
Proof.
  intros Hn. destruct n as [| k]; [lia|].
  rewrite iter_deque_append by lia.
  replace (length q + S k - S k)%nat with (length q) by lia.
  rewrite skipn_app, skipn_all, Nat.sub_diag. reflexivity.
Qed.

Lemma reset_ok (s : Snake) (shuffled : list Z) :
  (_start_length s < _board_size s)%nat -> (1 <= _n_frames s)%nat ->
  exists obs,
    stack3 (reset_frames s shuffled) = Ok obs /\
    reset s shuffled = Ok (reset_state s shuffled, obs).
Proof.
  intros HL HF. eexists. split; [reflexivity|].
  unfold reset. destruct (Nat.leb_spec (_board_size s) (_start_length s)); [lia|].
  unfold _calculate_board, attrs. cbn [set_attrs _attrs bind].
  rewrite iter_deque_append_full by assumption.
  unfold _get_food, attrs. cbn [set_board set_attrs _attrs _board bind].
  destruct (_n_frames s) as [| F] eqn:EF; [lia|].
  cbn [repeat deque_first bind].
  cbn [set_board set_attrs _board_size _n_games].
  destruct (Nat.eqb_spec (_board_size s) 0); [lia|]. cbn [andb].
  unfold _set_first_frame, _calculate_board, attrs.
  cbn [set_attrs _attrs bind _board deque_set_first].
  unfold _queue_to_board, reset_state, reset_frames. rewrite EF.
  cbn [set_board _board bind]. replace (S F - 1)%nat with F by lia.
  reflexivity.
Qed.

Lemma fold_left_max_zero (l : list Z) :
  Forall (fun x => x = 0) l -> fold_left Z.max l 0 = 0.
Proof. induction 1 as [| x l Hx _ IH]; cbn; [reflexivity | now subst]. Qed.

Lemma lane_max_zero (S : nat) (f : nat -> nat -> Z) :
  (forall r c, (r < S)%nat -> (c < S)%nat -> f r c = 0) -> lane_max S f = 0.
Proof.
  intros H. unfold lane_max.
  assert (Hall : Forall (fun x => x = 0)
                   (concat (tab S (fun r => tab S (fun c => f r c))))).
  { apply Forall_forall. intros x Hx.
    apply in_concat in Hx. destruct Hx as (l & Hl & Hx).
    unfold tab in Hl. apply in_map_iff in Hl. destruct Hl as (r & <- & Hr).
    apply in_map_iff in Hx. destruct Hx as (c & <- & Hc).
    apply in_seq in Hr, Hc. apply H; lia. }
  destruct (concat _) as [| x tl]; [reflexivity|].
  inversion Hall; subst. now apply fold_left_max_zero.
Qed.

Lemma stack3_tab (N S : nat) (f : nat -> nat -> nat -> Z) (tl : list batch) :
  let b0 := tab N (fun g => tab S (fun r => tab S (fun c => f g r c))) in
  stack3 (b0 :: tl)
  = Ok (tab N (fun g => tab S (fun r => tab S (fun c =>
          map (fun fr => get3 fr g r c) (b0 :: tl))))).
Proof.
  intros b0. unfold stack3. f_equal. subst b0. rewrite length_tab.
  apply map_ext_in. intros g Hg. apply in_seq in Hg.
  rewrite nth_tab by lia. rewrite length_tab.
  apply map_ext_in. intros r Hr. apply in_seq in Hr.
  rewrite nth_tab by lia. rewrite length_tab. reflexivity.
Qed.

(** The food mask right after [reset]: the bit [food_pos1] of the fresh
    board, since no lane had food. *)
Lemma reset_food_cell (s : Snake) (shuffled : list Z) (g r c : nat) :
  (g < _n_games s)%nat -> (r < _board_size s)%nat -> (c < _board_size s)%nat ->
  get3 (_food (reset_food s shuffled)) g r c
  = food_pos1 (_board_size s) (fresh_board s) shuffled g r c.
Proof.
  intros Hg Hr Hc. unfold reset_food, new_food. cbn [set_food _food].
  rewrite get3_tab by assumption.
  rewrite lane_max_zero.
  - unfold reset_attrs. cbn [_food]. rewrite get3_tab by assumption.
    unfold food_pos1. destruct (_ && _); reflexivity.
  - intros r' c' Hr' Hc'. unfold reset_attrs. cbn [_food].
    now rewrite get3_tab.
Qed.

Lemma food_pos1_bit (S : nat) (board : batch) (shuffled : list Z) (g r c : nat) :
  food_pos1 S board shuffled g r c = 0 \/ food_pos1 S board shuffled g r c = 1.
Proof. unfold food_pos1. destruct (_ && _); cbn; auto. Qed.

(** On a 0/1 mask the uint8 product with a code is the plain product. *)
Lemma wrap8_mask (x v : Z) :
  x = 0 \/ x = 1 -> 0 <= v < 256 -> wrap8 (x * v) = x * v.
Proof.
  intros [-> | ->] Hv; unfold wrap8.
  - reflexivity.
  - rewrite Z.mul_1_l. now apply Z.mod_small.
Qed.

(** Frame 0 after [reset] is the fresh grid plus the food layer. *)
Lemma reset_first_frame_cell (s : Snake) (shuffled : list Z) (g r c : nat) :
  (g < _n_games s)%nat -> (r < _board_size s)%nat -> (c < _board_size s)%nat ->
  get3 (board_of s (reset_food s shuffled)) g r c
  = get3 (fresh_board s) g r c
    + get3 (_food (reset_food s shuffled)) g r c * value_food.
Proof.
  intros Hg Hr Hc. unfold fresh_board, board_of.
  rewrite !get3_tab by assumption.
  change (_body (reset_food s shuffled)) with (_body (reset_attrs s)).
  change (_head (reset_food s shuffled)) with (_head (reset_attrs s)).
  assert (E : get3 (_food (reset_attrs s)) g r c = 0).
  { unfold reset_attrs. cbn [_food]. now rewrite get3_tab. }
  rewrite E. change (wrap8 (0 * value_food)) with 0.
  rewrite (wrap8_mask (get3 (_food (reset_food s shuffled)) g r c) value_food).
  - lia.
  - rewrite reset_food_cell by assumption. apply food_pos1_bit.
  - unfold value_food. lia.
Qed.

Lemma get3_repeat_frames (fresh : batch) (k : nat) (g r c : nat) :
  map (fun fr => get3 fr g r c) (repeat fresh k) = repeat (get3 fresh g r c) k.
Proof. induction k; cbn; [reflexivity | now f_equal]. Qed.

(** [reset] on any object with room for the snake and at least one frame. *)
Lemma reset_observation (s : Snake) (shuffled : list Z) :
  (_start_length s < _board_size s)%nat -> (1 <= _n_frames s)%nat ->
  exists obs,
    reset s shuffled = Ok (reset_state s shuffled, obs) /\
    has_shape obs (_n_games s) (_board_size s) (_n_frames s) /\
    forall g r c,
      (g < _n_games s)%nat -> (r < _board_size s)%nat -> (c < _board_size s)%nat ->
      obs_cell obs g r c
      = (get3 (fresh_board s) g r c
         + get3 (_food (reset_food s shuffled)) g r c * value_food)
        :: repeat (get3 (fresh_board s) g r c) (_n_frames s - 1).
Proof.
  intros HL HF. destruct (reset_ok s shuffled HL HF) as (obs & Hst & Hr).
  exists obs. split; [exact Hr|].
  unfold reset_frames in Hst. unfold board_of at 1 in Hst.
  rewrite stack3_tab in Hst. injection Hst as <-.
  fold (board_of s (reset_food s shuffled)).
  split.
  - split; [apply length_tab|].
    apply Forall_tab. intros g Hg. split; [apply length_tab|].
    apply Forall_tab. intros r Hr'. split; [apply length_tab|].
    apply Forall_tab. intros c Hc. cbn [map length].
    rewrite length_map, repeat_length. lia.
  - intros g r c Hg Hr' Hc. unfold obs_cell.
    rewrite !nth_tab by assumption. cbn [map].
    rewrite get3_repeat_frames. f_equal.
    now apply reset_first_frame_cell.
Qed.

(** ** Objects built by [__init__] *)

Lemma init_ok (S F N L0 : nat) (T : Z) :
  (3 <= S)%nat -> (1 <= F)%nat -> (1 <= N)%nat ->
  exists e,
    __init__ S F N L0 T = Ok e /\ valid_config e /\
    _board_size e = S /\ _n_frames e = F /\ _n_games e = N /\
    _max_time_limit e = T /\ _rewards e = default_rewards /\
    _start_length e = Nat.min L0 ((S - 2) / 2) /\ _board e = [] /\ _attrs e = None.
Proof.
  intros HS HF HN. unfold __init__.
  destruct (Nat.ltb_spec S 2); [lia|].
  eexists. split; [reflexivity|]. cbn.
  repeat split; auto. apply Nat.le_min_r.
Qed.

Lemma valid_start_length (s : Snake) :
  valid_config s -> (_start_length s < _board_size s - 2)%nat.
Proof.
  intros [HS _ _ HL _].
  assert ((_board_size s - 2) / 2 < _board_size s - 2)%nat
    by (apply Nat.div_lt; lia).
  lia.
Qed.

(** C7, as the code has it: for every valid configuration [reset] returns
    an observation of shape (N,S,S,F); frames 1 .. F-1 are copies of the
    fresh grid (border, body, head), and frame 0 is that grid with the food
    layer added, which [_get_food] writes into the newest frame only. *)
Theorem C7_reset_observation (S F N L0 : nat) (T : Z) (shuffled : list Z) :
  (3 <= S)%nat -> (1 <= F)%nat -> (1 <= N)%nat ->
  exists e s a obs,
    __init__ S F N L0 T = Ok e /\
    reset e shuffled = Ok (s, obs) /\
    _attrs s = Some a /\
    has_shape obs N S F /\
    forall g r c, (g < N)%nat -> (r < S)%nat -> (c < S)%nat ->
      (get3 (_food a) g r c = 0 \/ get3 (_food a) g r c = 1) /\
      obs_cell obs g r c
      = (get3 (fresh_board e) g r c + get3 (_food a) g r c * value_food)
        :: repeat (get3 (fresh_board e) g r c) (F - 1).
Proof.
  intros HS HF HN.
  destruct (init_ok S F N L0 T HS HF HN)
    as (e & He & Hv & ES & EF & EN & _).
  pose proof (valid_start_length e Hv) as HL.
  destruct (reset_observation e shuffled) as (obs & Hr & Hshape & Hcell);
    [lia | lia |].
  exists e, (reset_state e shuffled), (reset_food e shuffled), obs.
  rewrite ES, EF, EN in *.
  split; [exact He|]. split; [exact Hr|]. split; [reflexivity|].
  split; [exact Hshape|].
  intros g r c Hg Hr' Hc. split.
  - rewrite reset_food_cell by lia. apply food_pos1_bit.
  - now apply Hcell.
Qed.

Lemma C7_reset_observation_witness :
  exists e s a obs,
    __init__ 6 2 1 2 298 = Ok e /\
    reset e (map Z.of_nat (seq 0 36)) = Ok (s, obs) /\
    _attrs s = Some a /\
    has_shape obs 1 6 2 /\
    forall g r c, (g < 1)%nat -> (r < 6)%nat -> (c < 6)%nat ->
      (get3 (_food a) g r c = 0 \/ get3 (_food a) g r c = 1) /\
      obs_cell obs g r c
      = (get3 (fresh_board e) g r c + get3 (_food a) g r c * value_food)
        :: repeat (get3 (fresh_board e) g r c) (2 - 1).
Proof.
  apply (C7_reset_observation 6 2 1 2 298 (map Z.of_nat (seq 0 36))); lia.
Defined.

(** C7 as stated fails: board side 6, two frames, one lane, start length 2
    and the shuffle that leaves [np.arange(36)] in order.  The food lands
    on row 4, column 4 of frame 0 only, so the two stacked frames differ
    there. *)
Lemma C7_frames_differ_after_reset :
  exists e s obs,
    __init__ 6 2 1 2 298 = Ok e /\
    reset e (map Z.of_nat (seq 0 36)) = Ok (s, obs) /\
    obs_cell obs 0 4 4 = [3; 0] /\
    nth 0 (obs_cell obs 0 4 4) 0 <> nth 1 (obs_cell obs 0 4 4) 0.
Proof.
  eexists. eexists. eexists.
  split; [reflexivity|]. split; [vm_compute; reflexivity|].
  split; [reflexivity | discriminate].
Qed.

(** ** Counting cells *)

Lemma zsum_nonneg (l : list Z) : Forall (fun x => 0 <= x) l -> 0 <= zsum l.
Proof. unfold zsum. induction 1; cbn; lia. Qed.

Lemma zsum_ge_in (l : list Z) (y : Z) :
  Forall (fun x => 0 <= x) l -> In y l -> y <= zsum l.
Proof.
  induction 1 as [| x l Hx Hl IH]; intros Hin; [contradiction|].
  pose proof (zsum_nonneg l Hl) as Hn. unfold zsum in *. cbn.
  destruct Hin as [-> | Hin]; [lia|].
  specialize (IH Hin). lia.
Qed.

Lemma zsum_map_nonneg {A : Type} (f : A -> Z) (l : list A) :
  (forall x, 0 <= f x) -> Forall (fun x => 0 <= x) (map f l).
Proof. intros H. apply Forall_forall. intros y Hy. apply in_map_iff in Hy.
  destruct Hy as (x & <- & _). apply H. Qed.

Lemma b2z_nonneg (b : bool) : 0 <= b2z b.
Proof. destruct b; cbn; lia. Qed.

Lemma count_eq_hit (v : Z) (b : batch) (g r c : nat) :
  (g < length b)%nat -> (r < length (nth g b []))%nat ->
  (c < length (nth r (nth g b []) []))%nat ->
  get3 b g r c = v -> 1 <= count_eq v b.
Proof.
  intros Hg Hr Hc Hv. unfold count_eq.
  set (H := fun x : Z => b2z (x =? v)).
  set (G := fun row : list Z => zsum (map H row)).
  set (F := fun lane : grid => zsum (map G lane)).
  assert (HG : forall row, 0 <= G row).
  { intros row. apply zsum_nonneg, zsum_map_nonneg. intros x. apply b2z_nonneg. }
  assert (HF : forall lane, 0 <= F lane).
  { intros lane. apply zsum_nonneg, zsum_map_nonneg, HG. }
  assert (H1 : 1 <= G (nth r (nth g b []) [])).
  { unfold G. etransitivity; [| apply zsum_ge_in with (y := H (get3 b g r c))].
    - unfold H. rewrite Hv, Z.eqb_refl. cbn. lia.
    - apply zsum_map_nonneg. intros x. apply b2z_nonneg.
    - apply in_map. unfold get3, get2. now apply nth_In. }
  assert (H2 : 1 <= F (nth g b [])).
  { unfold F. etransitivity; [exact H1|].
    apply zsum_ge_in; [now apply zsum_map_nonneg|].
    apply in_map. now apply nth_In. }
  etransitivity; [exact H2|].
  apply zsum_ge_in; [now apply zsum_map_nonneg|].
  apply in_map. now apply nth_In.
Qed.

Lemma board_of_dims (s : Snake) (a : Attrs) (g r : nat) :
  (g < _n_games s)%nat -> (r < _board_size s)%nat ->
  length (board_of s a) = _n_games s /\
  length (nth g (board_of s a) []) = _board_size s /\
  length (nth r (nth g (board_of s a) []) []) = _board_size s.
Proof.
  intros Hg Hr. unfold board_of. rewrite length_tab.
  rewrite nth_tab by assumption. rewrite length_tab.
  rewrite nth_tab by assumption. rewrite length_tab. auto.
Qed.

(** ** Well-formed action vectors *)

Lemma new_direction1_range (a c : Z) :
  -1 <= a <= 3 -> 0 <= c < 4 -> 0 <= new_direction1 a c < 4.
Proof.
  intros Ha Hc. unfold new_direction1, wrap8.
  destruct (negb (Z.abs (a - c) =? 2) && negb (a =? -1)) eqn:E; [|lia].
  apply andb_true_iff in E. destruct E as [_ E].
  apply negb_true_iff, Z.eqb_neq in E.
  rewrite Z.mod_small; lia.
Qed.

Lemma resolved_in_range (action cur : list Z) :
  Forall (fun a => -1 <= a <= 3) action ->
  Forall (fun c => 0 <= c < 4) cur ->
  Forall (fun d => 0 <= d < 4)
    (map (fun ac => new_direction1 (fst ac) (snd ac)) (combine action cur)).
Proof.
  intros Ha. revert cur. induction Ha as [| a action Ha _ IH]; intros cur Hc.
  - constructor.
  - destruct Hc as [| c cur Hc Hcur]; cbn; constructor.
    + now apply new_direction1_range.
    + now apply IH.
Qed.

Lemma get_new_head_valid (s : Snake) (a : Attrs) (action : list Z) :
  _attrs s = Some a ->
  (2 <= _board_size s)%nat ->
  length (_snake_direction a) = _n_games s ->
  Forall (fun c => 0 <= c < 4) (_snake_direction a) ->
  valid_action (_n_games s) action ->
  exists nh, _get_new_head s action (_snake_direction a) = Ok nh.
Proof.
  intros Ha HS Hlen Hcur [Hal Hav]. eexists.
  apply get_new_head_ok; auto; [congruence|].
  now apply resolved_in_range.
Qed.

Lemma check_if_done_attribute_error (s : Snake) (a : Attrs) (b0 : batch)
    (tl : list batch) (action : list Z) (nh : batch) :
  _attrs s = Some a -> _board s = b0 :: tl ->
  _get_new_head s action (_snake_direction a) = Ok nh ->
  board_full b0 = false ->
  _check_if_done s action = Raise AttributeError.
Proof.
  intros Ha Hb Hnh Hfull. unfold _check_if_done, attrs.
  rewrite Ha. cbn [bind]. rewrite Hnh. cbn [bind]. rewrite Hb.
  cbn [deque_first bind]. unfold board_full in Hfull. rewrite Hfull.
  reflexivity.
Qed.

Lemma Forall_repeat {A : Type} (P : A -> Prop) (x : A) (n : nat) :
  P x -> Forall P (repeat x n).
Proof. intros H. induction n; cbn; constructor; auto. Qed.

(** ** After [reset] *)

Section AfterReset.
Variable s : Snake.
Hypothesis Hv : valid_config s.

(** The cell in the snake's row next to the right wall is empty in the
    fresh grid. *)
Lemma fresh_board_free_cell :
  get3 (fresh_board s) 0 (_board_size s / 2) (_board_size s - 2) = 0.
Proof.
  pose proof (valid_start_length s Hv) as HL.
  destruct Hv as [HS HF HN HL' Hb].
  assert (Hrow : (1 <= _board_size s / 2 <= _board_size s - 2)%nat).
  { split.
    - apply Nat.div_le_lower_bound; lia.
    - assert (_board_size s / 2 < _board_size s)%nat by (apply Nat.div_lt; lia).
      assert (_board_size s / 2 <= _board_size s - 2)%nat; [|lia].
      destruct (Nat.eq_dec (_board_size s) 3) as [E | E].
      + rewrite E. cbn. lia.
      + apply Nat.Div0.div_le_upper_bound. lia. }
  unfold fresh_board, board_of. rewrite get3_tab by lia.
  rewrite Hb. unfold get3 at 1. rewrite nth_tab by lia.
  rewrite get2_pad1 by lia.
  unfold reset_attrs. cbn [_body _head _food]. rewrite !get3_tab by lia.
  destruct (Nat.leb_spec 1 (_board_size s / 2)); [|lia].
  destruct (Nat.leb_spec (_board_size s / 2) (_board_size s - 2)); [|lia].
  destruct (Nat.leb_spec 1 (_board_size s - 2)); [|lia].
  rewrite Nat.leb_refl. cbn [andb].
  rewrite Nat.eqb_refl. cbn [andb].
  destruct (Nat.ltb_spec (_board_size s - 2) (_start_length s)); [lia|].
  destruct (Nat.eqb_spec (_board_size s - 2) (_start_length s)); [lia|].
  reflexivity.
Qed.

(** Whatever the shuffle, the newest frame keeps an empty cell or shows the
    food. *)
Lemma reset_not_full (shuffled : list Z) :
  board_full (board_of s (reset_food s shuffled)) = false.
Proof.
  pose proof fresh_board_free_cell as Hfree.
  destruct Hv as [HS HF HN HL' Hb].
  assert (Hr : (_board_size s / 2 < _board_size s)%nat) by (apply Nat.div_lt; lia).
  destruct (board_of_dims s (reset_food s shuffled) 0 (_board_size s / 2))
    as (D1 & D2 & D3); [lia | lia |].
  pose proof (reset_first_frame_cell s shuffled 0 (_board_size s / 2)
                (_board_size s - 2) ltac:(lia) ltac:(lia) ltac:(lia)) as Hcell.
  rewrite Hfree, reset_food_cell in Hcell by lia.
  unfold board_full. apply andb_false_iff.
  destruct (food_pos1_bit (_board_size s) (fresh_board s) shuffled 0
              (_board_size s / 2) (_board_size s - 2)) as [E | E];
    rewrite E in Hcell; [left | right]; apply Z.eqb_neq;
    match goal with
    | |- count_eq ?v ?b <> 0 =>
        assert (1 <= count_eq v b);
        [ apply (count_eq_hit v b 0 (_board_size s / 2) (_board_size s - 2));
          [lia | lia | lia | rewrite Hcell; reflexivity]
        | lia ]
    end.
Qed.

Variables (s' : Snake) (obs : observation) (shuffled : list Z).
Hypothesis Hreset : reset s shuffled = Ok (s', obs).

Lemma reset_gives_reset_state : s' = reset_state s shuffled.
Proof.
  pose proof (valid_start_length s Hv) as HL.
  destruct (reset_ok s shuffled) as (obs' & _ & Hr');
    [lia | apply (vc_frames s Hv) |].
  rewrite Hr' in Hreset. now injection Hreset as <- _.
Qed.

(** After [reset] of a validly configured object no [step] returns:
    [_check_if_done] gets past the board-full test and stops on
    [new_head.row]. *)
Lemma step_after_reset_raises (action shuffled' : list Z) :
  exists e, step s' action shuffled' = Raise e.
Proof.
  rewrite reset_gives_reset_state.
  apply (step_not_full (reset_state s shuffled) (reset_food s shuffled)
           (board_of s (reset_food s shuffled))
           (repeat (fresh_board s) (_n_frames s - 1))); try reflexivity.
  apply reset_not_full.
Qed.

(** With one valid code per lane the first [step] after [reset] ends in the
    AttributeError of [new_head.row]. *)
Lemma step_after_reset_attribute_error (action shuffled' : list Z) :
  valid_action (_n_games s) action ->
  step s' action shuffled' = Raise AttributeError.
Proof.
  intros Hact. rewrite reset_gives_reset_state.
  destruct (get_new_head_valid (reset_state s shuffled) (reset_food s shuffled) action)
    as [nh Hnh]; try reflexivity.
  - pose proof (vc_size s Hv). cbn. lia.
  - cbn. apply repeat_length.
  - cbn. apply Forall_repeat. lia.
  - exact Hact.
  - unfold step.
    rewrite (check_if_done_attribute_error (reset_state s shuffled)
               (reset_food s shuffled) (board_of s (reset_food s shuffled))
               (repeat (fresh_board s) (_n_frames s - 1)) action nh);
      try reflexivity; [exact Hnh | apply reset_not_full].
Qed.

End AfterReset.

Lemma new_snake_valid (S F N L0 : nat) (T : Z) :
  (3 <= S)%nat -> (1 <= F)%nat -> (1 <= N)%nat ->
  __init__ S F N L0 T = Ok (new_snake S F N L0 T) /\
  valid_config (new_snake S F N L0 T).
Proof.
  intros HS HF HN.
  destruct (init_ok S F N L0 T HS HF HN) as (e & He & Hv & _).
  unfold new_snake. rewrite He. cbn [get_ok]. auto.
Qed.

(** ** The claims on concrete runs *)

(** C1: the outcome reported for a lane is not a function of that lane
    alone.  Lane 0 is the same full board in [both_full] and [one_full] and
    gets the same action; with a full neighbour [step] reports game_end for
    it, with a running neighbour the batch-wide sum of the board-full test
    is not zero and [step] ends in the AttributeError of [new_head.row]. *)
Theorem C1_lane_outcome_depends_on_neighbour :
  same_config both_full one_full /\
  lane_state both_full 0 = lane_state one_full 0 /\
  (forall shuffled,
     lane_report (step both_full [3; 3] shuffled) 0 = Ok (1, 1, "game_end"%string)) /\
  (forall shuffled,
     lane_report (step one_full [3; 3] shuffled) 0 = Raise AttributeError) /\
  ~ lane_independent.
Proof.
  split; [repeat split|]. split; [reflexivity|].
  split; [reflexivity|]. split; [reflexivity|].
  intros H.
  specialize (H both_full one_full [3; 3] [3; 3] [] 0%nat).
  assert (Hc : same_config both_full one_full) by (repeat split).
  specialize (H Hc eq_refl eq_refl). discriminate H.
Qed.

(** C2: board side 6, one lane, start length 2, default rewards.  [reset]
    puts the head at row 3, column 2, a body cell at row 3, column 1 and
    the direction Right, whatever the shuffle; the first Right action
    already ends in an AttributeError, so the head never reaches column 3
    and no collision_wall outcome is ever returned. *)
Theorem C2_scenario_first_step_raises :
  __init__ 6 2 1 2 298 = Ok (new_snake 6 2 1 2 298) /\
  _rewards (new_snake 6 2 1 2 298)
  = {| r_out := -1; r_food := 1; r_time := 0; r_no_food := 0 |} /\
  forall shuffled, exists s a obs,
    reset (new_snake 6 2 1 2 298) shuffled = Ok (s, obs) /\
    _attrs s = Some a /\
    _head a = [[[0;0;0;0;0;0]; [0;0;0;0;0;0]; [0;0;0;0;0;0];
                [0;0;1;0;0;0]; [0;0;0;0;0;0]; [0;0;0;0;0;0]]] /\
    _body a = [[[0;0;0;0;0;0]; [0;0;0;0;0;0]; [0;0;0;0;0;0];
                [0;1;0;0;0;0]; [0;0;0;0;0;0]; [0;0;0;0;0;0]]] /\
    _snake_direction a = [0] /\
    forall shuffled', step s [0] shuffled' = Raise AttributeError.
Proof.
  destruct (new_snake_valid 6 2 1 2 298) as [Hi Hv]; try lia.
  split; [exact Hi|]. split; [reflexivity|].
  intros shuffled.
  destruct (reset_ok (new_snake 6 2 1 2 298) shuffled) as (obs & _ & Hr);
    [cbn; lia | cbn; lia |].
  exists (reset_state (new_snake 6 2 1 2 298) shuffled),
         (reset_food (new_snake 6 2 1 2 298) shuffled), obs.
  split; [exact Hr|]. split; [reflexivity|].
  split; [reflexivity|]. split; [reflexivity|]. split; [reflexivity|].
  intros shuffled'.
  apply (step_after_reset_attribute_error _ Hv _ obs shuffled Hr).
  split; [reflexivity|]. repeat constructor; lia.
Qed.

(** C4: an action code outside 0..3 is not left without effect.  The
    class's own table [_actions] sends 4 to -1, the one code at which
    [_get_new_direction] keeps the direction, but [_action_map] is never
    applied: a lane heading Right (0) that is given action 4 gets direction
    4, and the first [step] with that action after [reset] ends in the
    IndexError of the one-hot assignment (index 4 on an axis of size 4),
    whatever the shuffle. *)
Theorem C4_action_4_becomes_the_direction :
  _action_map 4 = Some (-1) /\
  _get_new_direction [-1] [0] = Ok [0] /\
  _get_new_direction [4] [0] = Ok [4] /\
  _get_new_direction [4] [0] <> Ok [0] /\
  forall shuffled shuffled', exists s a obs,
    reset (new_snake 6 2 1 2 298) shuffled = Ok (s, obs) /\
    _attrs s = Some a /\ _snake_direction a = [0] /\
    _get_new_head s [4] (_snake_direction a) = Raise IndexError /\
    step s [4] shuffled' = Raise IndexError.
Proof.
  split; [reflexivity|]. split; [reflexivity|]. split; [reflexivity|].
  split; [discriminate|].
  intros shuffled shuffled'.
  destruct (reset_ok (new_snake 6 2 1 2 298) shuffled) as (obs & _ & Hr);
    [cbn; lia | cbn; lia |].
  exists (reset_state (new_snake 6 2 1 2 298) shuffled),
         (reset_food (new_snake 6 2 1 2 298) shuffled), obs.
  split; [exact Hr|]. split; [reflexivity|]. split; [reflexivity|].
  assert (Hh : _get_new_head (reset_state (new_snake 6 2 1 2 298) shuffled) [4] [0]
               = Raise IndexError) by reflexivity.
  split; [exact Hh|].
  unfold step, _check_if_done, attrs.
  cbn [reset_state set_board set_attrs _attrs bind].
  change (_snake_direction (reset_food (new_snake 6 2 1 2 298) shuffled)) with [0].
  fold (reset_state (new_snake 6 2 1 2 298) shuffled).
  rewrite Hh. reflexivity.
Qed.

(** C5: in [chasing_tail] the action Down sends the head onto the tail
    cell (2,1), which the newest frame shows as a body cell, neither food
    nor border, on a board that is not full.  [step] does not move the
    snake: it ends in the AttributeError of [new_head.row]. *)
Theorem C5_tail_following_step_raises :
  _get_new_head chasing_tail [3] [2]
  = Ok [[[0;0;0;0;0]; [0;0;0;0;0]; [0;1;0;0;0]; [0;0;0;0;0]; [0;0;0;0;0]]] /\
  (exists a, _attrs chasing_tail = Some a /\
             get3 (_body a) 0 2 1 = 3 /\ lane_max 5 (get3 (_body a) 0) = 3) /\
  (exists b0, _board chasing_tail = [b0] /\
              get3 b0 0 2 1 = value_snake /\ board_full b0 = false) /\
  forall shuffled, step chasing_tail [3] shuffled = Raise AttributeError.
Proof.
  split; [reflexivity|].
  split; [eexists; repeat split|].
  split; [eexists; repeat split|].
  reflexivity.
Qed.

(** C8: in [timed_out] the elapsed time has reached the finite limit, the
    board is not full and the Right action targets the empty cell (3,3),
    so none of the rules before the time limit applies.  The episode does
    not end with time_up: [step] ends in the AttributeError of
    [new_head.row], which sits before the time-limit test.  The same
    happens straight after [reset] when the limit is 0. *)
Theorem C8_time_limit_step_raises :
  _max_time_limit timed_out = 1 /\
  option_map _time (_attrs timed_out) = Some [1] /\
  (exists b0 tl, _board timed_out = b0 :: tl /\
                 board_full b0 = false /\ get3 b0 0 3 3 = value_board) /\
  _get_new_head timed_out [0] [0]
  = Ok [[[0;0;0;0;0;0]; [0;0;0;0;0;0]; [0;0;0;0;0;0];
         [0;0;0;1;0;0]; [0;0;0;0;0;0]; [0;0;0;0;0;0]]] /\
  (forall shuffled, step timed_out [0] shuffled = Raise AttributeError) /\
  (forall shuffled shuffled', exists s a obs,
     reset (new_snake 6 2 1 2 0) shuffled = Ok (s, obs) /\
     _attrs s = Some a /\ _time a = [0] /\ _max_time_limit s = 0 /\
     step s [0] shuffled' = Raise AttributeError).
Proof.
  split; [reflexivity|]. split; [reflexivity|].
  split; [eexists; eexists; repeat split|].
  split; [reflexivity|]. split; [reflexivity|].
  intros shuffled shuffled'.
  destruct (new_snake_valid 6 2 1 2 0) as [_ Hv]; try lia.
  destruct (reset_ok (new_snake 6 2 1 2 0) shuffled) as (obs & _ & Hr);
    [cbn; lia | cbn; lia |].
  exists (reset_state (new_snake 6 2 1 2 0) shuffled),
         (reset_food (new_snake 6 2 1 2 0) shuffled), obs.
  split; [exact Hr|]. split; [reflexivity|]. split; [reflexivity|].
  split; [reflexivity|].
  apply (step_after_reset_attribute_error _ Hv _ obs shuffled Hr).
  split; [reflexivity|]. repeat constructor; lia.
Qed.

(** C9: [_get_food] can leave a lane that has an empty cell and no food
    without food.  The shuffled sequence contains 0; when 0 falls on the
    only empty cell of the lane, the lane maximum of [food_pos] is 0 and the
    test [food_pos > 0] rejects that cell.  First on board side 3 straight
    from [reset], then on [one_cell_left]. *)
Theorem C9_single_empty_cell_gets_no_food :
  (Permutation [1;2;3;4;0;5;6;7;8] (arange 9) /\
   fresh_board (new_snake 3 1 1 5 298) = [[[4;4;4]; [6;0;4]; [4;4;4]]] /\
   exists s a obs,
     reset (new_snake 3 1 1 5 298) [1;2;3;4;0;5;6;7;8] = Ok (s, obs) /\
     _attrs s = Some a /\
     _food a = [[[0;0;0]; [0;0;0]; [0;0;0]]] /\
     _board s = [[[[4;4;4]; [6;0;4]; [4;4;4]]]]) /\
  (Permutation shuffle_0_9 (arange 16) /\
   _board one_cell_left = [[[[4;4;4;4]; [4;2;1;4]; [4;0;1;4]; [4;4;4;4]]]] /\
   exists s a,
     _get_food one_cell_left shuffle_0_9 = Ok s /\
     _attrs s = Some a /\
     _food a = [no_food4] /\
     _board s = _board one_cell_left).
Proof.
  split; split.
  - symmetry. apply (Permutation_cons_app [1;2;3;4] [5;6;7;8] 0). reflexivity.
  - split; [reflexivity|]. eexists. eexists. eexists.
    split; [vm_compute; reflexivity|]. repeat split.
  - unfold shuffle_0_9, arange. cbn [seq map Z.of_nat Pos.of_succ_nat Pos.succ].
    symmetry.
    apply (Permutation_cons_app [9;1;2;3;4;5;6;7;8] [10;11;12;13;14;15] 0).
    symmetry.
    apply (Permutation_cons_app [1;2;3;4;5;6;7;8] [10;11;12;13;14;15] 9).
    reflexivity.
  - split; [reflexivity|]. eexists. eexists.
    split; [vm_compute; reflexivity|]. repeat split.
Qed.

(** ** Steps on a batch that has ended *)

Lemma get_new_head_inv (s : Snake) (action cur : list Z) (nh : batch) :
  _get_new_head s action cur = Ok nh -> (2 <= _board_size s)%nat.
Proof.
  unfold _get_new_head.
  destruct (_get_new_direction action cur) as [dirs | e]; cbn [bind]; [|discriminate].
  destruct (one_hot_index (_n_games s) dirs) as [idx | e]; cbn [bind]; [|discriminate].
  destruct (_ && _); [discriminate|].
  destruct (attrs s) as [a | e]; cbn [bind]; [|discriminate].
  destruct (Nat.ltb_spec (_board_size s) 2); [discriminate | intros _; lia].
Qed.

(** C3, as the code has it: after a [step] that ended the episode on the
    full board (done, reason game_end) of a well-formed batch whose stored
    directions are codes 0..3, a further [step] with one valid code per lane
    returns the same reward, done flag, termination reason and observation,
    and leaves frames, body, food, head and directions as they were; the
    clock is not frozen, every lane's elapsed time grows by 1. *)
Theorem C3_step_after_the_end
    (s s1 : Snake) (a : Attrs) (o1 : StepOut)
    (action shuffled action' shuffled' : list Z) :
  well_formed s = true ->
  _attrs s = Some a ->
  step s action shuffled = Ok (s1, o1) ->
  out_done o1 = PyInt 1 ->
  info_termination_reason o1 = ReasonStr "game_end"%string ->
  Forall (fun c => 0 <= c < 4) (_snake_direction a) ->
  valid_action (_n_games s) action' ->
  exists s2 o2 a1 a2,
    step s1 action' shuffled' = Ok (s2, o2) /\
    _attrs s1 = Some a1 /\ _attrs s2 = Some a2 /\
    out_reward o2 = out_reward o1 /\
    out_done o2 = out_done o1 /\
    info_termination_reason o2 = info_termination_reason o1 /\
    out_board o2 = out_board o1 /\
    _board s2 = _board s1 /\
    _body a2 = _body a1 /\ _food a2 = _food a1 /\ _head a2 = _head a1 /\
    _snake_direction a2 = _snake_direction a1 /\
    _time a2 = map (fun x => x + 1) (_time a1).
Proof.
  intros Hwf Ha Hstep _ _ Hdir Hact.
  assert (Hlen : length (_snake_direction a) = _n_games s).
  { unfold well_formed in Hwf. rewrite Ha in Hwf. cbn zeta in Hwf.
    rewrite !andb_true_iff, !Nat.eqb_eq in Hwf. tauto. }
  assert (Hc : exists nh, _get_new_head s action (_snake_direction a) = Ok nh).
  { unfold step in Hstep.
    destruct (_check_if_done s action) as [out | e] eqn:Hc; [|discriminate].
    destruct (check_if_done_inv _ _ _ Hc) as (a' & _ & _ & nh & Ha' & _ & Hnh & _).
    rewrite Ha in Ha'. injection Ha' as <-. now exists nh. }
  destruct Hc as [nh Hnh].
  pose proof (get_new_head_inv _ _ _ _ Hnh) as HS.
  destruct (step_inv _ _ _ _ _ Hstep)
    as (a' & b0 & tl & Ha' & Hb & Hfull & -> & Hrew & Hdone & Hreason).
  rewrite Ha in Ha'. injection Ha' as <-.
  destruct (step_full s a b0 tl action shuffled nh Ha Hb Hnh Hfull)
    as (obs & Hobs & Hs1).
  rewrite Hs1 in Hstep. injection Hstep as <-.
  set (a1 := set_time a (map (fun x => x + 1) (_time a))).
  destruct (get_new_head_valid (tick s a) a1 action') as [nh' Hnh'];
    try reflexivity; try assumption.
  destruct (step_full (tick s a) a1 b0 tl action' shuffled' nh')
    as (obs' & Hobs' & Hs2); try reflexivity; try assumption.
  rewrite Hobs in Hobs'. injection Hobs' as <-.
  eexists. eexists. exists a1. eexists.
  split; [exact Hs2|].
  repeat split.
Qed.

Lemma C3_step_after_the_end_witness :
  exists s2 o2 a1 a2,
    step (tick side_two_reset (get_ok no_attrs (attrs side_two_reset))) [3] []
    = Ok (s2, o2) /\
    _attrs (tick side_two_reset (get_ok no_attrs (attrs side_two_reset)))
    = Some a1 /\
    _attrs s2 = Some a2 /\
    out_reward o2 = NdArr [1] /\
    out_done o2 = PyInt 1 /\
    info_termination_reason o2 = ReasonStr "game_end"%string /\
    _board s2 = _board side_two_reset /\
    _time a1 = [1] /\ _time a2 = [2].
Proof.
  destruct (C3_step_after_the_end side_two_reset
              (tick side_two_reset (get_ok no_attrs (attrs side_two_reset)))
              (get_ok no_attrs (attrs side_two_reset))
              (snd (get_ok (no_snake, mkStepOut [] (PyInt 0) (PyInt 0) [] 0 (ReasonStr ""%string))
                           (step side_two_reset [0] [])))
              [0] [] [3] [])
    as (s2 & o2 & a1 & a2 & H1 & H2 & H3 & H4 & H5 & H6 & H7 & H8 & _ & _ & _ & _ & H10).
  - vm_compute. reflexivity.
  - reflexivity.
  - vm_compute. reflexivity.
  - reflexivity.
  - reflexivity.
  - repeat constructor; lia.
  - split; [reflexivity | repeat constructor; lia].
  - exists s2, o2, a1, a2.
    injection H2 as <-.
    repeat split; assumption.
Defined.

(** C3 as stated fails, through the public calls alone: on a board of
    side 2 [reset] leaves a full board, the first [step] ends the episode
    with game_end, and the next [step] reports the same outcome on the same
    frame but moves the lane's clock from 1 to 2.  The same on
    [full_with_history], from 6 to 7. *)
Lemma C3_clock_runs_after_the_end :
  (exists s0 obs s1 o1 s2 o2,
     __init__ 2 1 1 5 298 = Ok side_two /\
     reset side_two (arange 4) = Ok (s0, obs) /\
     _board s0 = [[[[4; 4]; [6; 4]]]] /\
     step s0 [0] [] = Ok (s1, o1) /\
     out_done o1 = PyInt 1 /\
     step s1 [0] [] = Ok (s2, o2) /\
     out_done o2 = PyInt 1 /\
     _board s2 = _board s0 /\
     option_map _time (_attrs s0) = Some [0] /\
     option_map _time (_attrs s1) = Some [1] /\
     option_map _time (_attrs s2) = Some [2] /\
     option_map _time (_attrs s2) <> option_map _time (_attrs s1)) /\
  (exists s1 o1 s2 o2,
     step full_with_history [3] [] = Ok (s1, o1) /\
     out_done o1 = PyInt 1 /\
     step s1 [3] [] = Ok (s2, o2) /\
     option_map _time (_attrs s1) = Some [6] /\
     option_map _time (_attrs s2) = Some [7] /\
     option_map _time (_attrs s2) <> option_map _time (_attrs s1)).
Proof.
  split.
  - eexists. eexists. eexists. eexists. eexists. eexists.
    split; [reflexivity|].
    split; [vm_compute; reflexivity|]. split; [reflexivity|].
    split; [vm_compute; reflexivity|]. split; [reflexivity|].
    split; [vm_compute; reflexivity|]. split; [reflexivity|].
    split; [reflexivity|]. split; [reflexivity|]. split; [reflexivity|].
    split; [reflexivity | discriminate].
  - eexists. eexists. eexists. eexists.
    split; [vm_compute; reflexivity|]. split; [reflexivity|].
    split; [vm_compute; reflexivity|]. split; [reflexivity|].
    split; [reflexivity | discriminate].
Qed.

(** ** The frame history across calls *)

Lemma reset_inv (s s' : Snake) (shuffled : list Z) (obs : observation) :
  (length (_board s) <= _n_frames s)%nat ->
  reset s shuffled = Ok (s', obs) ->
  (1 <= _n_frames s)%nat /\ s' = reset_state s shuffled.
Proof.
  intros Hq Hr.
  assert (HL : (_start_length s < _board_size s)%nat).
  { unfold reset in Hr.
    destruct (Nat.leb_spec (_board_size s) (_start_length s)); [discriminate | lia]. }
  destruct (Nat.eq_dec (_n_frames s) 0) as [E | E].
  - exfalso. unfold reset in Hr.
    destruct (Nat.leb_spec (_board_size s) (_start_length s)); [discriminate|].
    unfold _calculate_board, attrs in Hr. cbn [set_attrs _attrs bind] in Hr.
    rewrite E in Hr. cbn [Nat.iter] in Hr.
    unfold _get_food, attrs in Hr.
    cbn [set_board set_attrs _attrs _board bind] in Hr.
    destruct (_board s); [discriminate | cbn in Hq; lia].
  - destruct (reset_ok s shuffled) as (obs' & _ & Hr'); [lia | lia |].
    rewrite Hr' in Hr. injection Hr as <- _. split; [lia | reflexivity].
Qed.

(** C6, as the code has it: a deque never exceeds its bound, [reset] leaves
    exactly F frames in it, and a [step] that returns has ended the episode
    and pushed no grid: the frame history is the one it found. *)
Theorem C6_frame_history (s s' : Snake) (c : call) (o : option StepOut) :
  (length (_board s) <= _n_frames s)%nat ->
  run s c = Ok (s', o) ->
  _n_frames s' = _n_frames s /\
  match c with
  | Reset _ => length (_board s') = _n_frames s'
  | Step _ _ =>
      _board s' = _board s /\
      (length (_board s) = _n_frames s -> length (_board s') = _n_frames s') /\
      exists out, o = Some out /\ out_done out = PyInt 1
  end.
Proof.
  intros Hq Hrun. destruct c as [shuffled | action shuffled]; cbn [run] in Hrun.
  - destruct (reset s shuffled) as [[s1 obs] | e] eqn:Hr; [|discriminate].
    cbn [bind] in Hrun. injection Hrun as <- <-.
    destruct (reset_inv _ _ _ _ Hq Hr) as [HF ->].
    split; [reflexivity|].
    unfold reset_state, reset_frames. cbn [set_board set_attrs _board _n_frames length].
    rewrite repeat_length. lia.
  - destruct (step s action shuffled) as [[s1 out] | e] eqn:Hs; [|discriminate].
    cbn [bind] in Hrun. injection Hrun as <- <-.
    destruct (step_inv _ _ _ _ _ Hs) as (a & b0 & tl & _ & _ & _ & -> & _ & Hd & _).
    split; [reflexivity|]. split; [reflexivity|].
    split; [intros E; exact E | now exists out].
Qed.

Lemma C6_frame_history_witness :
  (length (_board (new_snake 6 2 1 2 298)) <= _n_frames (new_snake 6 2 1 2 298))%nat /\
  length (_board (reset_state (new_snake 6 2 1 2 298) (arange 36))) = 2%nat.
Proof.
  split; [cbn; lia|].
  apply (C6_frame_history (new_snake 6 2 1 2 298)
           (reset_state (new_snake 6 2 1 2 298) (arange 36))
           (Reset (arange 36)) None).
  - cbn. lia.
  - vm_compute. reflexivity.
Defined.

(** C6 as stated fails: [step] on [full_with_history] ends the episode and
    returns, but the two frames of the history are the two it found; no
    grid was pushed in front and the oldest frame was not dropped. *)
Lemma C6_terminal_step_pushes_no_frame :
  exists s1 o1,
    step full_with_history [3] [] = Ok (s1, o1) /\
    out_done o1 = PyInt 1 /\
    _board s1 = _board full_with_history /\
    ~ exists grid, _board s1 = grid :: removelast (_board full_with_history).
Proof.
  eexists. eexists.
  split; [vm_compute; reflexivity|]. split; [reflexivity|]. split; [reflexivity|].
  intros [grid H]. vm_compute in H. discriminate.
Qed.

(** ** A move into the wall, concretely *)

Lemma C10_move_into_border_is_zero_mask_witness :
  interior 4 2 1 = true /\
  on_border 4 (target 3 2 1) /\
  exists new_head,
    _get_new_head one_full [3; 3] [2; 0] = Ok new_head /\
    nth 1 new_head [] = [[0;0;0;0]; [0;0;0;0]; [0;0;0;0]; [0;0;0;0]].
Proof.
  split; [reflexivity|]. split; [unfold on_border; cbn; lia|].
  apply (C10_move_into_border_is_zero_mask one_full
           (get_ok no_attrs (attrs one_full)) [3; 3] [3; 3] 1 2 1).
  - reflexivity.
  - reflexivity.
  - reflexivity.
  - repeat constructor; lia.
  - cbn. lia.
  - intros r c Hr Hc. cbn in Hr, Hc.
    destruct r as [| [| [| [| r]]]]; try lia;
      destruct c as [| [| [| [| c]]]]; try lia; reflexivity.
  - reflexivity.
  - unfold on_border. cbn. lia.
Defined.

(** A move that stays inside the ring marks exactly the target cell. *)
Lemma new_head_marks_target (S : nat) (head : batch) (dirs : list Z)
    (g hr hc r c : nat) :
  (forall r c, (r < S)%nat -> (c < S)%nat ->
     get3 head g r c = if ((r =? hr) && (c =? hc))%nat then 1 else 0) ->
  interior S hr hc = true ->
  0 <= get1 dirs g < 4 ->
  interior S (fst (target (get1 dirs g) hr hc)) (snd (target (get1 dirs g) hr hc)) = true ->
  (r < S)%nat -> (c < S)%nat ->
  get2 (pad1 (S - 2) 0 (fun i j =>
          zsum (tab _n_actions (fun k =>
            tensordot head g i j k * lane_one_hot dirs g k)))) r c
  = if ((r =? fst (target (get1 dirs g) hr hc))
        && (c =? snd (target (get1 dirs g) hr hc)))%nat then 1 else 0.
Proof.
  intros Hhead Hin Hd Htgt Hr Hc.
  assert (HS : (3 <= S)%nat).
  { unfold interior in Hin. rewrite !andb_true_iff, !Nat.leb_le in Hin. lia. }
  rewrite new_head_cell by (assumption || lia).
  unfold interior in *. unfold target in *. cbn [fst snd] in *.
  rewrite !andb_true_iff, !Nat.leb_le in Hin, Htgt.
  destruct ((1 <=? r) && (r <=? S - 2) && (1 <=? c) && (c <=? S - 2))%nat eqn:Hrc.
  - rewrite !andb_true_iff, !Nat.leb_le in Hrc.
    direction_cases (get1 dirs g); rewrite E in *; cbn [kernel_pos fst snd] in *;
      rewrite Hhead by lia;
      repeat match goal with
             | |- context [(?x =? ?y)%nat] => destruct (Nat.eqb_spec x y)
             end; cbn [andb]; try reflexivity; lia.
  - assert (Hout : ~ ((1 <= r <= S - 2) /\ (1 <= c <= S - 2))%nat).
    { intros [[? ?] [? ?]].
      assert (((1 <=? r) && (r <=? S - 2) && (1 <=? c) && (c <=? S - 2))%nat = true).
      { rewrite !andb_true_iff, !Nat.leb_le. lia. }
      congruence. }
    repeat match goal with
           | |- context [(?x =? ?y)%nat] => destruct (Nat.eqb_spec x y)
           end; cbn [andb]; try reflexivity.
    exfalso. apply Hout. lia.
Qed.

(** * Further properties *)

(** ** Counting, again *)

Lemma zsum_map_zero {A : Type} (f : A -> Z) (l : list A) :
  (forall x, In x l -> f x = 0) -> zsum (map f l) = 0.
Proof.
  induction l as [| x l IH]; intros H; [reflexivity|].
  unfold zsum in *. cbn. rewrite (H x) by now left.
  rewrite IH; [reflexivity|]. intros y Hy. apply H. now right.
Qed.

Lemma zsum_map_nonzero {A : Type} (f : A -> Z) (l : list A) :
  zsum (map f l) <> 0 -> exists x, In x l /\ f x <> 0.
Proof.
  induction l as [| x l IH]; intros H; [now contradiction H|].
  destruct (Z.eq_dec (f x) 0) as [E | E].
  - destruct IH as (y & Hy & Hf).
    + intros H0. apply H. unfold zsum in *. cbn. lia.
    + exists y. split; [now right | exact Hf].
  - exists x. split; [now left | exact E].
Qed.

Lemma count_eq_zero_iff (v : Z) (b : batch) :
  count_eq v b = 0 <->
  forall g r c, in_frame b g r c -> get3 b g r c <> v.
Proof.
  split.
  - intros H0 g r c (Hg & Hr & Hc) Hv.
    pose proof (count_eq_hit v b g r c Hg Hr Hc Hv). lia.
  - intros H. unfold count_eq.
    apply zsum_map_zero. intros lane Hlane.
    apply zsum_map_zero. intros row Hrow.
    apply zsum_map_zero. intros x Hx.
    destruct (In_nth _ _ [] Hlane) as (g & Hg & <-).
    destruct (In_nth _ _ [] Hrow) as (r & Hr & <-).
    destruct (In_nth _ _ 0 Hx) as (c & Hc & E).
    specialize (H g r c (conj Hg (conj Hr Hc))).
    assert (Ex : get3 b g r c = x) by exact E. rewrite Ex in H.
    destruct (Z.eqb_spec x v); [contradiction | reflexivity].
Qed.

Lemma count_eq_nonzero (v : Z) (b : batch) :
  count_eq v b <> 0 ->
  exists g r c, in_frame b g r c /\ get3 b g r c = v.
Proof.
  intros H. unfold count_eq in H.
  apply zsum_map_nonzero in H. destruct H as (lane & Hlane & H).
  apply zsum_map_nonzero in H. destruct H as (row & Hrow & H).
  apply zsum_map_nonzero in H. destruct H as (x & Hx & H).
  destruct (In_nth _ _ [] Hlane) as (g & Hg & <-).
  destruct (In_nth _ _ [] Hrow) as (r & Hr & <-).
  destruct (In_nth _ _ 0 Hx) as (c & Hc & E).
  exists g, r, c. split; [repeat split; assumption|].
  assert (Ex : get3 b g r c = x) by exact E. rewrite Ex.
  destruct (Z.eqb_spec x v); [assumption | now contradiction H].
Qed.

Lemma board_full_iff (b : batch) :
  board_full b = true <->
  forall g r c, in_frame b g r c ->
    get3 b g r c <> value_board /\ get3 b g r c <> value_food.
Proof.
  unfold board_full. rewrite andb_true_iff, !Z.eqb_eq, !count_eq_zero_iff.
  split.
  - intros [H0 H3] g r c Hin. split; [now apply H0 | now apply H3].
  - intros H. split; intros g r c Hin; now apply H.
Qed.

Lemma board_not_full_iff (b : batch) :
  board_full b = false <->
  exists g r c, in_frame b g r c /\
    (get3 b g r c = value_board \/ get3 b g r c = value_food).
Proof.
  split.
  - intros Hf. unfold board_full in Hf. apply andb_false_iff in Hf.
    destruct Hf as [Hf | Hf]; apply Z.eqb_neq, count_eq_nonzero in Hf;
      destruct Hf as (g & r & c & Hin & Hv); exists g, r, c; auto.
  - intros (g & r & c & Hin & Hv).
    destruct (board_full b) eqn:Hf; [|reflexivity].
    rewrite board_full_iff in Hf. destruct (Hf g r c Hin).
    destruct Hv; contradiction.
Qed.

(** ** The state invariant *)

Lemma shapedb_intro (N S : nat) (b : batch) :
  length b = N ->
  (forall g, (g < N)%nat ->
     length (nth g b []) = S /\
     forall r, (r < S)%nat -> length (nth r (nth g b []) []) = S) ->
  shapedb N S b = true.
Proof.
  intros HN H. unfold shapedb. apply andb_true_iff. split; [now apply Nat.eqb_eq|].
  apply forallb_forall. intros lane Hin.
  destruct (In_nth _ _ [] Hin) as (g & Hg & <-).
  assert (Hg' : (g < N)%nat) by (rewrite <- HN; exact Hg).
  destruct (H g Hg') as [HL HR].
  apply andb_true_iff. split; [now apply Nat.eqb_eq|].
  apply forallb_forall. intros row Hrow.
  destruct (In_nth _ _ [] Hrow) as (r & Hr & <-).
  apply Nat.eqb_eq. apply HR. rewrite <- HL. exact Hr.
Qed.

Lemma shapedb_elim (N S : nat) (b : batch) :
  shapedb N S b = true ->
  length b = N /\
  forall g, (g < N)%nat ->
    length (nth g b []) = S /\
    forall r, (r < S)%nat -> length (nth r (nth g b []) []) = S.
Proof.
  unfold shapedb. rewrite andb_true_iff, Nat.eqb_eq, forallb_forall.
  intros [HN H]. split; [exact HN|]. intros g Hg.
  assert (Hg' : (g < length b)%nat) by (rewrite HN; exact Hg).
  specialize (H (nth g b []) (nth_In b [] Hg')).
  rewrite andb_true_iff, Nat.eqb_eq, forallb_forall in H.
  destruct H as [HL HR]. split; [exact HL|]. intros r Hr.
  assert (Hr' : (r < length (nth g b []))%nat) by (rewrite HL; exact Hr).
  apply Nat.eqb_eq, HR, nth_In, Hr'.
Qed.

Lemma shapedb_tab (N S : nat) (lane : nat -> grid) :
  (forall g, (g < N)%nat ->
     length (lane g) = S /\
     forall r, (r < S)%nat -> length (nth r (lane g) []) = S) ->
  shapedb N S (tab N lane) = true.
Proof.
  intros H. apply shapedb_intro; [apply length_tab|].
  intros g Hg. rewrite nth_tab by exact Hg. now apply H.
Qed.

Lemma maskb_intro (b : batch) :
  (forall g r c, in_frame b g r c -> get3 b g r c = 0 \/ get3 b g r c = 1) ->
  maskb b = true.
Proof.
  intros H. unfold maskb.
  apply forallb_forall. intros lane Hlane.
  apply forallb_forall. intros row Hrow.
  apply forallb_forall. intros x Hx.
  destruct (In_nth _ _ [] Hlane) as (g & Hg & <-).
  destruct (In_nth _ _ [] Hrow) as (r & Hr & <-).
  destruct (In_nth _ _ 0 Hx) as (c & Hc & E).
  assert (Ex : get3 b g r c = x) by exact E.
  destruct (H g r c (conj Hg (conj Hr Hc))) as [E' | E'];
    rewrite Ex in E'; rewrite E'; reflexivity.
Qed.

Lemma maskb_elim (b : batch) (g r c : nat) :
  maskb b = true -> get3 b g r c = 0 \/ get3 b g r c = 1.
Proof.
  unfold maskb, get3, get2. intros H.
  destruct (nth_in_or_default g b []) as [Hg | Hg];
    [| rewrite Hg; destruct r, c; now left].
  rewrite forallb_forall in H. specialize (H _ Hg).
  destruct (nth_in_or_default r (nth g b []) []) as [Hr | Hr];
    [| rewrite Hr; destruct c; now left].
  rewrite forallb_forall in H. specialize (H _ Hr).
  destruct (nth_in_or_default c (nth r (nth g b []) []) 0) as [Hc | Hc];
    [| rewrite Hc; now left].
  rewrite forallb_forall in H. specialize (H _ Hc).
  apply orb_true_iff in H. rewrite !Z.eqb_eq in H. exact H.
Qed.

(** The invariant, spelled out. *)
Lemma well_formed_inv (s : Snake) (a : Attrs) :
  _attrs s = Some a ->
  well_formed s = true ->
  shapedb (_n_games s) (_board_size s) (_border s) = true /\
  shapedb (_n_games s) (_board_size s) (_body a) = true /\
  shapedb (_n_games s) (_board_size s) (_food a) = true /\
  maskb (_food a) = true /\
  shapedb (_n_games s) (_board_size s) (_head a) = true /\
  maskb (_head a) = true /\
  length (_snake_direction a) = _n_games s /\
  length (_time a) = _n_games s /\
  length (_board s) = _n_frames s /\
  forallb (shapedb (_n_games s) (_board_size s)) (_board s) = true.
Proof.
  intros Ha. unfold well_formed. rewrite Ha. cbn zeta.
  rewrite !andb_true_iff, !Nat.eqb_eq. tauto.
Qed.

Lemma well_formed_intro (s : Snake) (a : Attrs) :
  _attrs s = Some a ->
  shapedb (_n_games s) (_board_size s) (_border s) = true ->
  shapedb (_n_games s) (_board_size s) (_body a) = true ->
  shapedb (_n_games s) (_board_size s) (_food a) = true ->
  maskb (_food a) = true ->
  shapedb (_n_games s) (_board_size s) (_head a) = true ->
  maskb (_head a) = true ->
  length (_snake_direction a) = _n_games s ->
  length (_time a) = _n_games s ->
  length (_board s) = _n_frames s ->
  forallb (shapedb (_n_games s) (_board_size s)) (_board s) = true ->
  well_formed s = true.
Proof.
  intros Ha. unfold well_formed. rewrite Ha. cbn zeta.
  rewrite !andb_true_iff, !Nat.eqb_eq. tauto.
Qed.

Lemma board_of_shaped (s : Snake) (a : Attrs) :
  shapedb (_n_games s) (_board_size s) (board_of s a) = true.
Proof.
  unfold board_of. apply shapedb_tab. intros g Hg.
  split; [apply length_tab|]. intros r Hr.
  rewrite nth_tab by exact Hr. apply length_tab.
Qed.

Lemma new_food_shaped (s : Snake) (a : Attrs) (b0 : batch) (shuffled : list Z) :
  shapedb (_n_games s) (_board_size s) (new_food s a b0 shuffled) = true.
Proof.
  unfold new_food. apply shapedb_tab. intros g Hg.
  split; [apply length_tab|]. intros r Hr.
  rewrite nth_tab by exact Hr. apply length_tab.
Qed.

Lemma in_frame_shaped (N S : nat) (b : batch) (g r c : nat) :
  shapedb N S b = true ->
  in_frame b g r c <-> (g < N)%nat /\ (r < S)%nat /\ (c < S)%nat.
Proof.
  intros Hb. destruct (shapedb_elim N S b Hb) as [HN H]. unfold in_frame.
  split.
  - intros (Hg & Hr & Hc).
    assert (Hg' : (g < N)%nat) by (rewrite <- HN; exact Hg).
    destruct (H g Hg') as [HL HR].
    assert (Hr' : (r < S)%nat) by (rewrite <- HL; exact Hr).
    repeat split; try assumption. rewrite <- (HR r Hr'). exact Hc.
  - intros (Hg & Hr & Hc). destruct (H g Hg) as [HL HR].
    split; [rewrite HN; exact Hg|].
    split; [rewrite HL; exact Hr|]. rewrite (HR r Hr). exact Hc.
Qed.

Lemma well_formed_first_frame (s : Snake) (a : Attrs) (b0 : batch) (tl : list batch) :
  _attrs s = Some a -> _board s = b0 :: tl -> well_formed s = true ->
  shapedb (_n_games s) (_board_size s) b0 = true /\
  forallb (shapedb (_n_games s) (_board_size s)) tl = true.
Proof.
  intros Ha Hb Hwf.
  destruct (well_formed_inv s a Ha Hwf) as (_ & _ & _ & _ & _ & _ & _ & _ & _ & Hfr).
  rewrite Hb in Hfr. cbn [forallb] in Hfr. now apply andb_true_iff in Hfr.
Qed.

(** ** When [step] returns *)

(** X1: on a well-formed state whose stored directions are codes 0..3,
    with one valid code per lane, [step] returns a result exactly when no
    lane's newest frame holds an Empty (0) or a Food (3) cell, and raises
    AttributeError exactly when some lane's newest frame holds one. *)
Theorem X1_step_returns_iff_batch_full
    (s : Snake) (a : Attrs) (b0 : batch) (tl : list batch)
    (action shuffled : list Z) :
  well_formed s = true ->
  _attrs s = Some a ->
  _board s = b0 :: tl ->
  (2 <= _board_size s)%nat ->
  Forall (fun c => 0 <= c < 4) (_snake_direction a) ->
  valid_action (_n_games s) action ->
  ((exists s' o, step s action shuffled = Ok (s', o)) <->
   (forall g r c,
      (g < _n_games s)%nat -> (r < _board_size s)%nat -> (c < _board_size s)%nat ->
      get3 b0 g r c <> value_board /\ get3 b0 g r c <> value_food)) /\
  (step s action shuffled = Raise AttributeError <->
   (exists g r c,
      (g < _n_games s)%nat /\ (r < _board_size s)%nat /\ (c < _board_size s)%nat /\
      (get3 b0 g r c = value_board \/ get3 b0 g r c = value_food))).
Proof.
  intros Hwf Ha Hb HS Hdir Hact.
  destruct (well_formed_inv s a Ha Hwf) as (_ & _ & _ & _ & _ & _ & Hlen & _).
  destruct (well_formed_first_frame s a b0 tl Ha Hb Hwf) as [Hb0 _].
  destruct (get_new_head_valid s a action Ha HS Hlen Hdir Hact) as [nh Hnh].
  assert (Hfull : board_full b0 = true <->
            forall g r c,
              (g < _n_games s)%nat -> (r < _board_size s)%nat ->
              (c < _board_size s)%nat ->
              get3 b0 g r c <> value_board /\ get3 b0 g r c <> value_food).
  { rewrite board_full_iff. split; intros H g r c.
    - intros Hg Hr Hc. apply H. apply (in_frame_shaped _ _ b0 g r c Hb0). auto.
    - intros Hin. apply (in_frame_shaped _ _ b0 g r c Hb0) in Hin.
      destruct Hin as (Hg & Hr & Hc). now apply H. }
  assert (Hnot : board_full b0 = false <->
            exists g r c,
              (g < _n_games s)%nat /\ (r < _board_size s)%nat /\
              (c < _board_size s)%nat /\
              (get3 b0 g r c = value_board \/ get3 b0 g r c = value_food)).
  { rewrite board_not_full_iff. split; intros (g & r & c & H); exists g, r, c.
    - destruct H as [Hin Hv]. apply (in_frame_shaped _ _ b0 g r c Hb0) in Hin.
      tauto.
    - destruct H as (Hg & Hr & Hc & Hv). split; [|exact Hv].
      apply (in_frame_shaped _ _ b0 g r c Hb0). auto. }
  rewrite <- Hfull, <- Hnot.
  destruct (board_full b0) eqn:Hf.
  - destruct (step_full s a b0 tl action shuffled nh Ha Hb Hnh Hf) as (obs & _ & Hs).
    split; split; try discriminate; eauto.
    rewrite Hs. discriminate.
  - assert (Hs : step s action shuffled = Raise AttributeError).
    { unfold step.
      now rewrite (check_if_done_attribute_error s a b0 tl action nh Ha Hb Hnh Hf). }
    split; split; auto; try discriminate.
    intros (s' & o & Hs'). congruence.
Qed.

Lemma X1_step_returns_iff_batch_full_witness :
  (exists s' o, step full_with_history [0] [] = Ok (s', o)) /\
  step chasing_tail [0] [] = Raise AttributeError.
Proof.
  split.
  - apply (X1_step_returns_iff_batch_full full_with_history
             (get_ok no_attrs (attrs full_with_history))
             (board_of (new_snake 4 2 1 5 298) (get_ok no_attrs (attrs full_with_history)))
             [ [ [[4;4;4;4]; [4;3;2;4]; [4;1;1;4]; [4;4;4;4]] ] ] [0] []).
    + vm_compute. reflexivity.
    + reflexivity.
    + reflexivity.
    + cbn. lia.
    + repeat constructor; lia.
    + split; [reflexivity | repeat constructor; lia].
    + intros g r c Hg Hr Hc. cbn in Hg, Hr, Hc.
      destruct g as [| g]; [| lia].
      destruct r as [| [| [| [| r]]]]; try lia;
        destruct c as [| [| [| [| c]]]]; try lia;
        split; discriminate.
  - apply (X1_step_returns_iff_batch_full chasing_tail
             (get_ok no_attrs (attrs chasing_tail))
             (board_of (new_snake 5 1 1 5 298) (get_ok no_attrs (attrs chasing_tail)))
             [] [0] []).
    + vm_compute. reflexivity.
    + reflexivity.
    + reflexivity.
    + cbn. lia.
    + repeat constructor; lia.
    + split; [reflexivity | repeat constructor; lia].
    + exists 0%nat, 1%nat, 3%nat. cbn. repeat split; try lia. left. reflexivity.
Defined.

Lemma nth_map_repeat (f : Z -> Z) (x : Z) (n i : nat) :
  (i < n)%nat -> nth i (map f (repeat x n)) 0 = f x.
Proof.
  intros Hi. rewrite (nth_indep _ 0 (f 0)) by (now rewrite length_map, repeat_length).
  rewrite map_nth. f_equal. apply nth_repeat_lt. exact Hi.
Qed.

(** X2: whenever [step] returns, it reports done = 1 and the reason
    game_end, gives every lane the living reward plus the food reward,
    leaves the food counter as it was, stacks the frames it found, and
    changes nothing in the object but the clocks, which all advance by 1. *)
Theorem X2_step_outcome
    (s s' : Snake) (a : Attrs) (o : StepOut) (action shuffled : list Z) :
  step s action shuffled = Ok (s', o) ->
  _attrs s = Some a ->
  out_done o = PyInt 1 /\
  info_termination_reason o = ReasonStr "game_end"%string /\
  (forall i, (i < _n_games s)%nat ->
     nd_lane (out_reward o) i = r_time (_rewards s) + r_food (_rewards s)) /\
  info_food o = _count_food a /\
  info_time o = map (fun x => x + 1) (_time a) /\
  stack3 (_board s) = Ok (out_board o) /\
  s' = tick s a.
Proof.
  intros Hstep Ha.
  assert (Hc : exists nh, _get_new_head s action (_snake_direction a) = Ok nh).
  { unfold step in Hstep.
    destruct (_check_if_done s action) as [out | e] eqn:Hc; [|discriminate].
    destruct (check_if_done_inv _ _ _ Hc) as (a' & _ & _ & nh & Ha' & _ & Hnh & _).
    rewrite Ha in Ha'. injection Ha' as <-. now exists nh. }
  destruct Hc as [nh Hnh].
  destruct (step_inv _ _ _ _ _ Hstep)
    as (a' & b0 & tl & Ha' & Hb & Hfull & -> & _).
  rewrite Ha in Ha'. injection Ha' as <-.
  destruct (step_full s a b0 tl action shuffled nh Ha Hb Hnh Hfull)
    as (obs & Hobs & Hs1).
  rewrite Hs1 in Hstep. injection Hstep as <-.
  cbn [out_done info_termination_reason out_reward info_food info_time out_board].
  repeat split; try reflexivity.
  - intros i Hi. unfold game_end_outcome. cbn [fst nd_lane].
    rewrite nth_map_repeat by exact Hi. lia.
  - now rewrite Hb.
Qed.

Lemma X2_step_outcome_witness :
  exists s' o,
    step full_with_history [3] [] = Ok (s', o) /\
    out_done o = PyInt 1 /\
    nd_lane (out_reward o) 0 = 1 /\
    info_time o = [6] /\
    _board s' = _board full_with_history.
Proof.
  destruct (step full_with_history [3] []) as [[s' o] | e] eqn:Hs;
    [| vm_compute in Hs; discriminate].
  exists s', o. split; [reflexivity|].
  destruct (X2_step_outcome full_with_history s'
              (get_ok no_attrs (attrs full_with_history)) o [3] [] Hs eq_refl)
    as (H1 & _ & H3 & _ & H5 & _ & H7).
  split; [exact H1|]. split; [apply (H3 0%nat); cbn; lia|].
  split; [exact H5|]. rewrite H7. reflexivity.
Defined.

(** ** The constructor *)

(** X3: [__init__] fails, with ValueError, exactly for a board side below
    2.  Otherwise it stores its arguments, the start length clamped to
    min(start_length, (board_size-2)//2), hence never above the argument
    nor above half the interior, an empty frame deque and no lane
    attribute, and every lane's border array is 4 on the one-cell ring and 0
    inside it. *)
Theorem X3_init_border_and_clamp (S F N L0 : nat) (T : Z) :
  match __init__ S F N L0 T with
  | Raise e => e = ValueError /\ (S < 2)%nat
  | Ok e =>
      (2 <= S)%nat /\
      _board_size e = S /\ _n_frames e = F /\ _n_games e = N /\
      _max_time_limit e = T /\ _rewards e = default_rewards /\
      _start_length e = Nat.min L0 ((S - 2) / 2) /\
      (_start_length e <= L0)%nat /\
      (2 * _start_length e <= S - 2)%nat /\
      ((2 * L0 <= S - 2)%nat -> _start_length e = L0) /\
      ((S - 2 < 2 * L0)%nat -> _start_length e = ((S - 2) / 2)%nat) /\
      _board e = [] /\ _attrs e = None /\
      length (_border e) = N /\
      forall g r c, (g < N)%nat -> (r < S)%nat -> (c < S)%nat ->
        get3 (_border e) g r c
        = if interior S r c then value_board else value_border
  end.
Proof.
  unfold __init__. destruct (Nat.ltb_spec S 2) as [H | H]; [split; [reflexivity | lia]|].
  cbn [_board_size _n_frames _n_games _max_time_limit _start_length _board
       _attrs _border _rewards].
  assert (Hdiv : (2 * ((S - 2) / 2) <= S - 2)%nat)
    by (apply Nat.Div0.mul_div_le).
  assert (Hlt : (S - 2 < 2 * ((S - 2) / 2 + 1))%nat).
  { pose proof (Nat.div_mod_eq (S - 2) 2) as E.
    pose proof (Nat.mod_upper_bound (S - 2) 2 ltac:(lia)). lia. }
  repeat split; try lia.
  - apply length_tab.
  - intros g r c Hg Hr Hc. unfold get3. rewrite nth_tab by exact Hg.
    rewrite get2_pad1 by lia. reflexivity.
Qed.

(** ** The action table *)

(** X4: [_action_map] knows exactly the keys -1..4 (any other key is a
    KeyError); it keeps the codes 0..3, sends 4 and -1 to -1, maps its own
    values to themselves, and a mapped action always resolves to a
    direction code 0..3 when the current direction is one. *)
Theorem X4_action_map (action : Z) :
  match _action_map action with
  | None => action < -1 \/ 4 < action
  | Some b =>
      -1 <= action <= 4 /\ -1 <= b <= 3 /\
      (0 <= action <= 3 -> b = action) /\
      (action = 4 \/ action = -1 -> b = -1) /\
      _action_map b = Some b /\
      forall c, 0 <= c < 4 -> 0 <= new_direction1 b c < 4
  end.
Proof.
  unfold _action_map, _actions. cbn [dict_get].
  repeat match goal with
         | |- context [?x =? ?y] =>
             destruct (Z.eqb_spec x y);
               [subst; cbn; repeat split; try lia;
                match goal with
                | H : 0 <= ?c < 4 |- context [new_direction1 ?b ?c] =>
                    pose proof (new_direction1_range b c ltac:(lia) H); lia
                end |]
         end.
  lia.
Qed.

(** ** Directions, further *)

Lemma new_direction1_idem (a c : Z) :
  new_direction1 a (new_direction1 a c) = new_direction1 a c.
Proof.
  unfold new_direction1.
  destruct (negb (Z.abs (a - c) =? 2) && negb (a =? -1)) eqn:E.
  - destruct (negb (Z.abs (a - wrap8 a) =? 2) && negb (a =? -1)); reflexivity.
  - rewrite E. reflexivity.
Qed.

(** X5: the direction resolved for a lane is the lane's current direction
    or the action itself, and for an action code in -1..255 it never
    differs from the current direction by exactly 2: no lane turns by 180
    degrees. *)
Theorem X5_direction_never_reverses (action cur nd : list Z) (i : nat) :
  _get_new_direction action cur = Ok nd ->
  (i < length cur)%nat ->
  -1 <= get1 action i < 256 ->
  (get1 nd i = get1 cur i \/ get1 nd i = get1 action i) /\
  Z.abs (get1 nd i - get1 cur i) <> 2.
Proof.
  intros Hd Hi Ha.
  destruct (get_new_direction_inv _ _ _ Hd) as [_ [[Hlen ->] | [_ ->]]];
    [| split; [now left | rewrite Z.sub_diag; cbn; lia]].
  rewrite get1_new_direction by assumption.
  unfold new_direction1, wrap8.
  destruct (Z.eqb_spec (Z.abs (get1 action i - get1 cur i)) 2) as [E | E];
    cbn [negb andb]; [split; [now left | lia]|].
  destruct (Z.eqb_spec (get1 action i) (-1)) as [E1 | E1];
    cbn [negb]; [split; [now left | lia]|].
  rewrite Z.mod_small by lia. split; [now right | exact E].
Qed.

Lemma X5_direction_never_reverses_witness :
  (get1 [0; 3] 1 = get1 [2; 0] 1 \/ get1 [0; 3] 1 = get1 [0; 3] 1) /\
  Z.abs (get1 [2; 3] 0 - get1 [2; 0] 0) <> 2.
Proof.
  split.
  - apply (X5_direction_never_reverses [0; 3] [2; 0] [2; 3] 1);
      [reflexivity | cbn; lia | cbn; lia].
  - apply (X5_direction_never_reverses [0; 3] [2; 0] [2; 3] 0);
      [reflexivity | cbn; lia | cbn; lia].
Defined.

(** X6: resolving the same action vector again changes nothing: the
    directions [_get_new_direction] returns are a fixed point of that
    action vector. *)
Theorem X6_direction_idempotent (action cur nd : list Z) :
  _get_new_direction action cur = Ok nd ->
  _get_new_direction action nd = Ok nd.
Proof.
  intros Hd.
  destruct (get_new_direction_inv _ _ _ Hd) as [_ [[Hlen ->] | [_ ->]]];
    [| exact Hd].
  rewrite get_new_direction_ok
    by (rewrite length_map, length_combine; lia).
  f_equal. clear Hd. revert cur Hlen.
  induction action as [| x action IH]; intros [| c cur] Hlen;
    try reflexivity; try discriminate.
  cbn [combine map fst snd]. f_equal.
  - apply new_direction1_idem.
  - apply IH. now injection Hlen.
Qed.

Lemma X6_direction_idempotent_witness :
  _get_new_direction [1; 0; 7; -1] [3; 1; 0; 2] = Ok [3; 0; 7; 2] /\
  _get_new_direction [1; 0; 7; -1] [3; 0; 7; 2] = Ok [3; 0; 7; 2].
Proof.
  split; [reflexivity|].
  apply (X6_direction_idempotent [1; 0; 7; -1] [3; 1; 0; 2]). reflexivity.
Defined.

(** X7: an action vector that has not one entry per stored direction.
    With the lengths 0 and 1 [_get_new_direction] returns the stored
    directions untouched.  With any other pair of different lengths it
    raises, and [_get_new_head] and [step] raise the same exception:
    IndexError when one of the two lengths is 1, ValueError otherwise. *)
Theorem X7_wrong_length_action_raises
    (s : Snake) (a : Attrs) (action shuffled : list Z) :
  _attrs s = Some a ->
  length action <> length (_snake_direction a) ->
  ((length action + length (_snake_direction a) = 1)%nat ->
   _get_new_direction action (_snake_direction a) = Ok (_snake_direction a)) /\
  ((length action + length (_snake_direction a) <> 1)%nat ->
   exists e,
     e = (if ((length action =? 1) || (length (_snake_direction a) =? 1))%nat
          then IndexError else ValueError) /\
     _get_new_direction action (_snake_direction a) = Raise e /\
     _get_new_head s action (_snake_direction a) = Raise e /\
     step s action shuffled = Raise e).
Proof.
  intros Ha Hlen. split.
  - intros H1. unfold _get_new_direction.
    destruct (Nat.eqb_spec (length action) (length (_snake_direction a)));
      [contradiction|].
    now rewrite H1.
  - intros H1. eexists. split; [reflexivity|].
    assert (Hd : _get_new_direction action (_snake_direction a)
                 = Raise (if ((length action =? 1)
                              || (length (_snake_direction a) =? 1))%nat
                          then IndexError else ValueError)).
    { unfold _get_new_direction.
      destruct (Nat.eqb_spec (length action) (length (_snake_direction a)));
        [contradiction|].
      destruct (Nat.eqb_spec (length action + length (_snake_direction a)) 1);
        [contradiction|].
      destruct (_ || _); reflexivity. }
    assert (Hh : _get_new_head s action (_snake_direction a)
                 = Raise (if ((length action =? 1)
                              || (length (_snake_direction a) =? 1))%nat
                          then IndexError else ValueError)).
    { unfold _get_new_head. rewrite Hd. reflexivity. }
    split; [exact Hd|]. split; [exact Hh|].
    unfold step, _check_if_done, attrs. rewrite Ha. cbn [bind].
    rewrite Hh. reflexivity.
Qed.

Lemma X7_wrong_length_action_raises_witness :
  _get_new_direction [] [2] = Ok [2] /\
  _get_new_direction [0] [2; 0] = Raise IndexError /\
  step one_full [0] [] = Raise IndexError /\
  step one_full [0; 1; 2] [] = Raise ValueError.
Proof.
  destruct (X7_wrong_length_action_raises full_with_history
              (get_ok no_attrs (attrs full_with_history)) [] [])
    as [H0 _]; [reflexivity | cbn; lia |].
  destruct (X7_wrong_length_action_raises one_full
              (get_ok no_attrs (attrs one_full)) [0] [])
    as [_ H]; [reflexivity | cbn; lia |].
  destruct H as (e & -> & H1 & _ & H3); [cbn; lia|].
  destruct (X7_wrong_length_action_raises one_full
              (get_ok no_attrs (attrs one_full)) [0; 1; 2] [])
    as [_ H']; [reflexivity | cbn; lia |].
  destruct H' as (e & -> & _ & _ & H3'); [cbn; lia|].
  split; [apply H0; reflexivity|].
  split; [exact H1|]. split; [exact H3 | exact H3'].
Defined.

Lemma forallb_false_in {A : Type} (f : A -> bool) (l : list A) (x : A) :
  In x l -> f x = false -> forallb f l = false.
Proof.
  intros Hin Hx. destruct (forallb f l) eqn:E; [|reflexivity].
  rewrite forallb_forall in E. rewrite (E x Hin) in Hx. discriminate.
Qed.

(** X8: an action code in 4..255 that is not 2 away from the lane's
    current direction is taken as the new direction and then indexes the
    one-hot array of size 4: [_get_new_head], and with it [step], raises
    IndexError. *)
Theorem X8_out_of_range_action_raises
    (s : Snake) (a : Attrs) (action shuffled : list Z) (i : nat) :
  _attrs s = Some a ->
  length action = length (_snake_direction a) ->
  length (_snake_direction a) = _n_games s ->
  (i < _n_games s)%nat ->
  4 <= get1 action i < 256 ->
  Z.abs (get1 action i - get1 (_snake_direction a) i) <> 2 ->
  _get_new_head s action (_snake_direction a) = Raise IndexError /\
  step s action shuffled = Raise IndexError.
Proof.
  intros Ha Hlen HN Hi Hact Hrev.
  assert (Hh : _get_new_head s action (_snake_direction a) = Raise IndexError).
  { unfold _get_new_head. rewrite get_new_direction_ok by assumption.
    cbn [bind].
    set (dirs := map (fun ac => new_direction1 (fst ac) (snd ac))
                     (combine action (_snake_direction a))).
    assert (Hd : length dirs = _n_games s).
    { subst dirs. rewrite length_map, length_combine. lia. }
    rewrite (one_hot_index_lanes _ _ Hd). cbn [bind].
    rewrite length_combine, length_seq, Hd, Nat.min_id.
    destruct (Nat.eqb_spec (_n_games s) 0); [lia|]. cbn [negb andb].
    rewrite (forallb_false_in _ _
               (new_direction1 (get1 action i) (get1 (_snake_direction a) i))).
    - reflexivity.
    - subst dirs. rewrite <- get1_new_direction by lia. apply nth_In.
      rewrite length_map, length_combine. lia.
    - unfold new_direction1, wrap8.
      destruct (Z.eqb_spec (Z.abs (get1 action i - get1 (_snake_direction a) i)) 2);
        [contradiction|].
      destruct (Z.eqb_spec (get1 action i) (-1)); [lia|]. cbn [negb andb].
      rewrite Z.mod_small by lia. apply Z.ltb_ge. cbn. lia. }
  split; [exact Hh|].
  unfold step, _check_if_done, attrs. rewrite Ha. cbn [bind].
  rewrite Hh. reflexivity.
Qed.

Lemma X8_out_of_range_action_raises_witness :
  _get_new_head one_full [3; 4] [2; 0] = Raise IndexError /\
  step one_full [3; 4] [] = Raise IndexError.
Proof.
  apply (X8_out_of_range_action_raises one_full
           (get_ok no_attrs (attrs one_full)) [3; 4] [] 1);
    try reflexivity; cbn; lia.
Defined.

(** ** The candidate-head mask, further *)

Lemma get_new_head_inv_full (s : Snake) (action cur : list Z) (nh : batch) :
  _get_new_head s action cur = Ok nh ->
  exists a dirs idx,
    _attrs s = Some a /\
    _get_new_direction action cur = Ok dirs /\
    one_hot_index (_n_games s) dirs = Ok idx /\ (2 <= _board_size s)%nat /\
    nh = tab (_n_games s) (fun g => pad1 (_board_size s - 2) 0 (fun i j =>
           zsum (tab _n_actions (fun k =>
             tensordot (_head a) g i j k * one_hot_action idx g k)))).
Proof.
  unfold _get_new_head.
  destruct (_get_new_direction action cur) as [dirs | e]; cbn [bind]; [|discriminate].
  destruct (one_hot_index (_n_games s) dirs) as [idx | e] eqn:Hidx; cbn [bind];
    [|discriminate].
  destruct (_ && _); [discriminate|].
  unfold attrs. destruct (_attrs s) as [a |]; cbn [bind]; [|discriminate].
  destruct (Nat.ltb_spec (_board_size s) 2); [discriminate|].
  intros Hok. injection Hok as <-. exists a, dirs, idx. repeat split; auto.
Qed.

(** X9: whatever the head array holds, a mask returned by [_get_new_head]
    has the shape (N,S,S) of the board and is 0 on every cell of the border
    ring: a candidate head is never marked on the wall. *)
Theorem X9_mask_shape_and_ring
    (s : Snake) (action cur : list Z) (nh : batch) :
  _get_new_head s action cur = Ok nh ->
  length nh = _n_games s /\
  forall g, (g < _n_games s)%nat ->
    length (nth g nh []) = _board_size s /\
    forall r, (r < _board_size s)%nat ->
      length (nth r (nth g nh []) []) = _board_size s /\
      forall c, (c < _board_size s)%nat ->
        interior (_board_size s) r c = false -> get3 nh g r c = 0.
Proof.
  intros H.
  destruct (get_new_head_inv_full _ _ _ _ H) as (a & dirs & idx & _ & _ & _ & HS & ->).
  split; [apply length_tab|].
  intros g Hg. rewrite nth_tab by exact Hg.
  assert (E : (_board_size s - 2 + 2)%nat = _board_size s) by lia.
  split; [unfold pad1; now rewrite length_tab|].
  intros r Hr. split.
  - unfold pad1. rewrite nth_tab by lia. now rewrite length_tab.
  - intros c Hc Hring. unfold get3. rewrite nth_tab by exact Hg.
    rewrite get2_pad1 by lia. unfold interior in Hring. now rewrite Hring.
Qed.

Lemma X9_mask_shape_and_ring_witness :
  exists nh,
    _get_new_head chasing_tail [3] [2] = Ok nh /\
    length nh = 1%nat /\ get3 nh 0 0 1 = 0 /\ get3 nh 0 2 4 = 0.
Proof.
  destruct (_get_new_head chasing_tail [3] [2]) as [nh | e] eqn:H;
    [| vm_compute in H; discriminate].
  exists nh. split; [reflexivity|].
  destruct (X9_mask_shape_and_ring chasing_tail [3] [2] nh H) as [H1 H2].
  split; [exact H1|].
  destruct (H2 0%nat ltac:(cbn; lia)) as [_ H3].
  split.
  - destruct (H3 0%nat ltac:(cbn; lia)) as [_ H4].
    apply (H4 1%nat); [cbn; lia | reflexivity].
  - destruct (H3 2%nat ltac:(cbn; lia)) as [_ H4].
    apply (H4 4%nat); [cbn; lia | reflexivity].
Defined.

(** The unit step of each direction code. *)
Lemma target_unit (d : Z) (hr hc : nat) :
  (1 <= hr)%nat -> (1 <= hc)%nat -> 0 <= d < 4 ->
  target d hr hc
  = if d =? 0 then (hr, S hc)
    else if d =? 1 then (hr - 1, hc)%nat
    else if d =? 2 then (hr, hc - 1)%nat
    else (S hr, hc).
Proof.
  intros Hr Hc Hd. unfold target.
  direction_cases d; subst d; cbn [kernel_pos fst snd]; cbv [Z.eqb Pos.eqb];
    f_equal; lia.
Qed.

(** X10: on a well-formed state, for a lane whose single head cell lies
    inside the ring and whose resolved direction (a code 0..3 in every
    lane) keeps it inside, [_get_new_head] marks exactly one cell of that
    lane: the head cell shifted by one column to the right (code 0), one
    row up (1), one column to the left (2) or one row down (3). *)
Theorem X10_move_inside_marks_neighbour
    (s : Snake) (a : Attrs) (action dirs : list Z) (i hr hc : nat) :
  well_formed s = true ->
  _attrs s = Some a ->
  _get_new_direction action (_snake_direction a) = Ok dirs ->
  Forall (fun d => 0 <= d < 4) dirs ->
  (i < _n_games s)%nat ->
  (forall r c, (r < _board_size s)%nat -> (c < _board_size s)%nat ->
     get3 (_head a) i r c = if ((r =? hr) && (c =? hc))%nat then 1 else 0) ->
  interior (_board_size s) hr hc = true ->
  interior (_board_size s) (fst (target (get1 dirs i) hr hc))
                           (snd (target (get1 dirs i) hr hc)) = true ->
  exists new_head,
    _get_new_head s action (_snake_direction a) = Ok new_head /\
    target (get1 dirs i) hr hc
    = (if get1 dirs i =? 0 then (hr, S hc)
       else if get1 dirs i =? 1 then (hr - 1, hc)%nat
       else if get1 dirs i =? 2 then (hr, hc - 1)%nat
       else (S hr, hc)) /\
    forall r c, (r < _board_size s)%nat -> (c < _board_size s)%nat ->
      get3 new_head i r c
      = if ((r =? fst (target (get1 dirs i) hr hc))
            && (c =? snd (target (get1 dirs i) hr hc)))%nat then 1 else 0.
Proof.
  intros Hwf Ha Hdirs Hall Hi Hhead Hin Htgt.
  destruct (well_formed_inv s a Ha Hwf) as (_ & _ & _ & _ & _ & _ & Hcur & _).
  destruct (get_new_direction_inv _ _ _ Hdirs) as [Hlen _].
  assert (HS : (3 <= _board_size s)%nat).
  { unfold interior in Hin. rewrite !andb_true_iff, !Nat.leb_le in Hin. lia. }
  assert (HN : length dirs = _n_games s) by lia.
  assert (Hd : 0 <= get1 dirs i < 4).
  { rewrite Forall_forall in Hall. apply Hall. apply nth_In. lia. }
  eexists. split; [|split].
  - apply (get_new_head_dirs s a action _ dirs); auto. lia.
  - apply target_unit; [| | exact Hd];
      unfold interior in Hin; rewrite !andb_true_iff, !Nat.leb_le in Hin; lia.
  - intros r c Hr Hc. unfold get3.
    rewrite nth_tab by exact Hi.
    apply (new_head_marks_target (_board_size s) (_head a) dirs i hr hc r c);
      assumption.
Qed.

Lemma X10_move_inside_marks_neighbour_witness :
  exists new_head,
    _get_new_head timed_out [1] [0] = Ok new_head /\
    target 1 3 2 = (2, 2)%nat /\
    get3 new_head 0 2 2 = 1 /\ get3 new_head 0 3 2 = 0 /\ get3 new_head 0 3 3 = 0.
Proof.
  destruct (X10_move_inside_marks_neighbour timed_out
              (get_ok no_attrs (attrs timed_out)) [1] [1] 0 3 2)
    as (nh & H1 & H2 & H3).
  - vm_compute. reflexivity.
  - reflexivity.
  - reflexivity.
  - repeat constructor; lia.
  - cbn. lia.
  - intros r c Hr Hc. cbn in Hr, Hc.
    destruct r as [| [| [| [| [| [| r]]]]]]; try lia;
      destruct c as [| [| [| [| [| [| c]]]]]]; try lia; reflexivity.
  - reflexivity.
  - reflexivity.
  - exists nh. split; [exact H1|]. split; [exact H2|].
    split; [| split].
    + apply (H3 2%nat 2%nat); cbn; lia.
    + apply (H3 3%nat 2%nat); cbn; lia.
    + apply (H3 3%nat 3%nat); cbn; lia.
Defined.

(** ** Food placement, further *)

Lemma fold_left_max_ge (l : list Z) (x : Z) :
  x <= fold_left Z.max l x /\ forall y, In y l -> y <= fold_left Z.max l x.
Proof.
  revert x. induction l as [| z l IH]; intros x; cbn.
  - split; [lia | contradiction].
  - destruct (IH (Z.max x z)) as [H1 H2]. split; [lia|].
    intros y [<- | Hy]; [lia | now apply H2].
Qed.

Lemma fold_left_max_in (l : list Z) (x : Z) :
  fold_left Z.max l x = x \/ In (fold_left Z.max l x) l.
Proof.
  revert x. induction l as [| z l IH]; intros x; cbn; [now left|].
  destruct (IH (Z.max x z)) as [H | H]; [|now right; right].
  rewrite H. destruct (Z.max_spec x z) as [[_ E] | [_ E]]; rewrite E; auto.
Qed.

Lemma in_lane_cells (S : nat) (f : nat -> nat -> Z) (y : Z) :
  In y (concat (tab S (fun r => tab S (fun c => f r c)))) <->
  exists r c, (r < S)%nat /\ (c < S)%nat /\ y = f r c.
Proof.
  rewrite in_concat. split.
  - intros (l & Hl & Hy). unfold tab in Hl. apply in_map_iff in Hl.
    destruct Hl as (r & <- & Hr). apply in_map_iff in Hy.
    destruct Hy as (c & <- & Hc). apply in_seq in Hr, Hc.
    exists r, c. repeat split; lia.
  - intros (r & c & Hr & Hc & ->). exists (tab S (fun c => f r c)). split.
    + unfold tab. apply in_map_iff. exists r. split; [reflexivity|].
      apply in_seq. lia.
    + unfold tab. apply in_map_iff. exists c. split; [reflexivity|].
      apply in_seq. lia.
Qed.

Lemma lane_max_ge (S : nat) (f : nat -> nat -> Z) (r c : nat) :
  (r < S)%nat -> (c < S)%nat -> f r c <= lane_max S f.
Proof.
  intros Hr Hc.
  assert (Hin : In (f r c) (concat (tab S (fun r => tab S (fun c => f r c)))))
    by (apply in_lane_cells; eauto).
  unfold lane_max. destruct (concat _) as [| x tl]; [contradiction|].
  destruct (fold_left_max_ge tl x) as [H1 H2].
  destruct Hin as [<- | Hin]; [exact H1 | now apply H2].
Qed.

Lemma lane_max_attained (S : nat) (f : nat -> nat -> Z) :
  (1 <= S)%nat ->
  exists r c, (r < S)%nat /\ (c < S)%nat /\ lane_max S f = f r c.
Proof.
  intros HS.
  assert (Hin : In (f 0%nat 0%nat) (concat (tab S (fun r => tab S (fun c => f r c)))))
    by (apply in_lane_cells; exists 0%nat, 0%nat; repeat split; lia).
  unfold lane_max.
  destruct (concat (tab S (fun r => tab S (fun c => f r c)))) as [| x tl] eqn:E;
    [contradiction|].
  assert (Hm : In (fold_left Z.max tl x) (x :: tl)).
  { destruct (fold_left_max_in tl x) as [H | H]; [rewrite H; now left | now right]. }
  rewrite <- E in Hm. apply in_lane_cells in Hm.
  destruct Hm as (r & c & Hr & Hc & Hm). eauto.
Qed.

Lemma get_food_ok (s : Snake) (a : Attrs) (b0 : batch) (tl : list batch)
    (shuffled : list Z) :
  _attrs s = Some a -> _board s = b0 :: tl -> (1 <= _board_size s)%nat ->
  _get_food s shuffled
  = Ok (set_board (set_attrs s (set_food a (new_food s a b0 shuffled)))
          (board_of s (set_food a (new_food s a b0 shuffled)) :: tl)).
Proof.
  intros Ha Hb HS. unfold _get_food, attrs. rewrite Ha, Hb.
  cbn [bind deque_first].
  destruct (Nat.eqb_spec (_board_size s) 0); [lia|]. cbn [andb].
  unfold _set_first_frame, _calculate_board, attrs.
  cbn [set_attrs _attrs bind _board]. rewrite Hb. reflexivity.
Qed.

Lemma new_food_cell_no_food (s : Snake) (a : Attrs) (b0 : batch)
    (shuffled : list Z) (g r c : nat) :
  (g < _n_games s)%nat -> (r < _board_size s)%nat -> (c < _board_size s)%nat ->
  lane_without_food (_board_size s) (_food a) g ->
  get3 (new_food s a b0 shuffled) g r c
  = food_pos1 (_board_size s) b0 shuffled g r c.
Proof.
  intros Hg Hr Hc Hno. unfold new_food. rewrite get3_tab by assumption.
  rewrite lane_max_zero by exact Hno. rewrite (Hno r c Hr Hc).
  unfold food_pos1. destruct (_ && _); reflexivity.
Qed.

Lemma lane_max_bit (S : nat) (f : nat -> nat -> Z) :
  (1 <= S)%nat ->
  (forall r c, f r c = 0 \/ f r c = 1) ->
  lane_max S f = 0 \/ lane_max S f = 1.
Proof.
  intros HS Hbit.
  destruct (lane_max_attained S f HS) as (r & c & _ & _ & ->). apply Hbit.
Qed.

Lemma new_food_mask (s : Snake) (a : Attrs) (b0 : batch) (shuffled : list Z) :
  (1 <= _board_size s)%nat ->
  maskb (_food a) = true ->
  maskb (new_food s a b0 shuffled) = true.
Proof.
  intros HS Hm. apply maskb_intro. intros g r c Hin.
  apply (in_frame_shaped _ _ _ g r c (new_food_shaped s a b0 shuffled)) in Hin.
  destruct Hin as (Hg & Hr & Hc).
  unfold new_food. rewrite get3_tab by assumption.
  destruct (lane_max_bit (_board_size s) (get3 (_food a) g) HS
              (fun r c => maskb_elim (_food a) g r c Hm)) as [E | E]; rewrite E.
  - change (wrap8 (1 - 0)) with 1. rewrite Z.mul_0_r, Z.mul_1_r.
    destruct (food_pos1_bit (_board_size s) b0 shuffled g r c) as [F | F];
      rewrite F; [left | right]; reflexivity.
  - change (wrap8 (1 - 1)) with 0. rewrite Z.mul_0_r, Z.mul_1_r.
    destruct (maskb_elim (_food a) g r c Hm) as [F | F];
      rewrite F; [left | right]; reflexivity.
Qed.

(** [_get_food] keeps the invariant. *)
Lemma get_food_well_formed (s : Snake) (a : Attrs) (b0 : batch) (tl : list batch)
    (shuffled : list Z) :
  well_formed s = true ->
  _attrs s = Some a -> _board s = b0 :: tl -> (1 <= _board_size s)%nat ->
  well_formed (set_board (set_attrs s (set_food a (new_food s a b0 shuffled)))
                 (board_of s (set_food a (new_food s a b0 shuffled)) :: tl)) = true.
Proof.
  intros Hwf Ha Hb HS.
  destruct (well_formed_inv s a Ha Hwf)
    as (H1 & H2 & H3 & H4 & H5 & H6 & H7 & H8 & H9 & H10).
  destruct (well_formed_first_frame s a b0 tl Ha Hb Hwf) as [_ Htl].
  apply (well_formed_intro _ (set_food a (new_food s a b0 shuffled)));
    cbn [set_board set_attrs set_food _attrs _border _body _food _head
         _snake_direction _time _board _n_games _board_size _n_frames];
    try assumption; try reflexivity.
  - apply new_food_shaped.
  - now apply new_food_mask.
  - rewrite <- H9, Hb. reflexivity.
  - cbn [forallb]. rewrite Htl, andb_true_r.
    apply (board_of_shaped s (set_food a (new_food s a b0 shuffled))).
Qed.

(** X11: on a well-formed state [_get_food] returns a well-formed state;
    it changes only the food mask and the newest frame, which it renders
    anew from the attributes, and the older frames stay.  In a lane that
    held no food, a cell marked in the new mask was Empty (0) in the newest
    frame. *)
Theorem X11_food_only_on_empty_cells
    (s : Snake) (a : Attrs) (b0 : batch) (tl : list batch) (shuffled : list Z) :
  well_formed s = true ->
  _attrs s = Some a -> _board s = b0 :: tl -> (1 <= _board_size s)%nat ->
  exists s' a',
    _get_food s shuffled = Ok s' /\
    well_formed s' = true /\
    _attrs s' = Some a' /\
    _board s' = board_of s a' :: tl /\
    _body a' = _body a /\ _head a' = _head a /\
    _snake_direction a' = _snake_direction a /\ _time a' = _time a /\
    _count_food a' = _count_food a /\
    forall g, (g < _n_games s)%nat ->
      lane_without_food (_board_size s) (_food a) g ->
      forall r c, (r < _board_size s)%nat -> (c < _board_size s)%nat ->
        get3 (_food a') g r c = 1 -> get3 b0 g r c = value_board.
Proof.
  intros Hwf Ha Hb HS.
  exists (set_board (set_attrs s (set_food a (new_food s a b0 shuffled)))
            (board_of s (set_food a (new_food s a b0 shuffled)) :: tl)),
         (set_food a (new_food s a b0 shuffled)).
  split; [apply (get_food_ok s a b0 tl shuffled Ha Hb HS)|].
  split; [now apply get_food_well_formed|].
  split; [reflexivity|].
  do 6 (split; [reflexivity|]).
  intros g Hg Hno r c Hr Hc. cbn [set_food _food].
  rewrite new_food_cell_no_food by assumption.
  unfold food_pos1, food_pos0.
  destruct (Z.eqb_spec (get3 b0 g r c) value_board) as [E | E]; [auto|].
  cbn [b2z]. rewrite Z.mul_0_l.
  rewrite andb_false_r. discriminate.
Qed.

Lemma X11_food_only_on_empty_cells_witness :
  exists s' a',
    _get_food one_cell_left (arange 16) = Ok s' /\
    well_formed s' = true /\
    _attrs s' = Some a' /\
    get3 (_food a') 0 2 1 = 1 /\
    get3 (nth 0 (_board one_cell_left) []) 0 2 1 = value_board.
Proof.
  destruct (X11_food_only_on_empty_cells one_cell_left
              (get_ok no_attrs (attrs one_cell_left))
              (board_of (new_snake 4 1 1 5 298) (get_ok no_attrs (attrs one_cell_left)))
              [] (arange 16))
    as (s' & a' & H1 & H0 & H2 & _ & _ & _ & _ & _ & _ & H3).
  - vm_compute. reflexivity.
  - reflexivity.
  - reflexivity.
  - cbn. lia.
  - exists s', a'. split; [exact H1|]. split; [exact H0|]. split; [exact H2|].
    assert (E : get3 (_food a') 0 2 1 = 1).
    { vm_compute in H1. injection H1 as <-. injection H2 as <-. reflexivity. }
    split; [exact E|].
    apply (H3 0%nat ltac:(cbn; lia)).
    + intros r c Hr Hc. cbn in Hr, Hc.
      destruct r as [| [| [| [| r]]]]; try lia;
        destruct c as [| [| [| [| c]]]]; try lia; reflexivity.
    + cbn. lia.
    + cbn. lia.
    + exact E.
Defined.

(** X12: on a well-formed state, a lane that already holds food keeps its
    food mask cell for cell through [_get_food], whatever the shuffle and
    whatever the other lanes get. *)
Theorem X12_lane_with_food_keeps_it
    (s : Snake) (a : Attrs) (b0 : batch) (tl : list batch) (shuffled : list Z)
    (g : nat) :
  well_formed s = true ->
  _attrs s = Some a -> _board s = b0 :: tl ->
  (g < _n_games s)%nat ->
  (exists r c, (r < _board_size s)%nat /\ (c < _board_size s)%nat /\
     get3 (_food a) g r c = 1) ->
  exists s' a',
    _get_food s shuffled = Ok s' /\
    _attrs s' = Some a' /\
    forall r c, (r < _board_size s)%nat -> (c < _board_size s)%nat ->
      get3 (_food a') g r c = get3 (_food a) g r c.
Proof.
  intros Hwf Ha Hb Hg (r1 & c1 & Hr1 & Hc1 & H1).
  destruct (well_formed_inv s a Ha Hwf) as (_ & _ & _ & Hmask & _).
  assert (HS : (1 <= _board_size s)%nat) by lia.
  exists (set_board (set_attrs s (set_food a (new_food s a b0 shuffled)))
            (board_of s (set_food a (new_food s a b0 shuffled)) :: tl)),
         (set_food a (new_food s a b0 shuffled)).
  split; [apply (get_food_ok s a b0 tl shuffled Ha Hb HS)|].
  split; [reflexivity|].
  intros r c Hr Hc. cbn [set_food _food]. unfold new_food.
  rewrite get3_tab by assumption.
  assert (Hm : lane_max (_board_size s) (get3 (_food a) g) = 1).
  { pose proof (lane_max_ge (_board_size s) (get3 (_food a) g) r1 c1 Hr1 Hc1) as Hge.
    destruct (lane_max_bit (_board_size s) (get3 (_food a) g) HS
                (fun r c => maskb_elim (_food a) g r c Hmask)); lia. }
  rewrite Hm. change (wrap8 (1 - 1)) with 0. rewrite Z.mul_0_r, Z.mul_1_r.
  destruct (maskb_elim (_food a) g r c Hmask) as [E | E]; rewrite E; reflexivity.
Qed.

Lemma X12_lane_with_food_keeps_it_witness :
  exists s' a',
    _get_food one_full (arange 32) = Ok s' /\
    _attrs s' = Some a' /\
    get3 (_food a') 1 2 2 = 1 /\ get3 (_food a') 1 1 1 = 0.
Proof.
  destruct (X12_lane_with_food_keeps_it one_full
              (get_ok no_attrs (attrs one_full))
              (board_of (new_snake 4 1 2 5 298) (get_ok no_attrs (attrs one_full)))
              [] (arange 32) 1)
    as (s' & a' & H1 & H2 & H3).
  - vm_compute. reflexivity.
  - reflexivity.
  - reflexivity.
  - cbn. lia.
  - exists 2%nat, 2%nat. repeat split; cbn; lia.
  - exists s', a'. split; [exact H1|]. split; [exact H2|]. split.
    + rewrite (H3 2%nat 2%nat); [reflexivity | cbn; lia | cbn; lia].
    + rewrite (H3 1%nat 1%nat); [reflexivity | cbn; lia | cbn; lia].
Defined.

(** Facts about a shuffled [arange]. *)
Lemma is_shuffle_facts (n : nat) (shuffled : list Z) :
  is_shuffle n shuffled ->
  length shuffled = n /\ NoDup shuffled /\ Forall (fun x => 0 <= x) shuffled.
Proof.
  intros H. unfold is_shuffle, arange in H. repeat split.
  - rewrite (Permutation_length H), length_map, length_seq. reflexivity.
  - apply (Permutation_NoDup (Permutation_sym H)).
    apply Finite.Injective_map_NoDup; [| apply seq_NoDup].
    intros x y E. now apply Nat2Z.inj.
  - apply (Permutation_Forall (Permutation_sym H)).
    apply Forall_forall. intros x Hx. apply in_map_iff in Hx.
    destruct Hx as (k & <- & _). lia.
Qed.

Lemma cell_index_lt (N S g r c : nat) :
  (g < N)%nat -> (r < S)%nat -> (c < S)%nat ->
  (g * S * S + r * S + c < N * S * S)%nat.
Proof.
  intros Hg Hr Hc.
  assert (r * S + c < S * S)%nat by nia.
  assert ((g + 1) * (S * S) <= N * (S * S))%nat by (apply Nat.mul_le_mono_r; lia).
  nia.
Qed.

Lemma cell_index_inj (S g r c r' c' : nat) :
  (c < S)%nat -> (c' < S)%nat ->
  (g * S * S + r * S + c = g * S * S + r' * S + c')%nat ->
  r = r' /\ c = c'.
Proof.
  intros Hc Hc' E.
  assert (r = r').
  { destruct (Nat.lt_trichotomy r r') as [H | [H | H]]; [nia | exact H | nia]. }
  subst r'. split; [reflexivity | lia].
Qed.

(** With two empty cells in the lane, exactly one cell carries the bit
    [food_pos1]: the empty cell with the largest label. *)
Lemma food_pos1_unique (N S : nat) (board : batch) (shuffled : list Z)
    (g r1 c1 r2 c2 : nat) :
  is_shuffle (N * S * S) shuffled ->
  (g < N)%nat ->
  (r1 < S)%nat -> (c1 < S)%nat -> (r2 < S)%nat -> (c2 < S)%nat ->
  (r1, c1) <> (r2, c2) ->
  get3 board g r1 c1 = value_board -> get3 board g r2 c2 = value_board ->
  exists r0 c0, (r0 < S)%nat /\ (c0 < S)%nat /\
    get3 board g r0 c0 = value_board /\
    forall r c, (r < S)%nat -> (c < S)%nat ->
      food_pos1 S board shuffled g r c
      = if ((r =? r0) && (c =? c0))%nat then 1 else 0.
Proof.
  intros Hsh Hg Hr1 Hc1 Hr2 Hc2 Hne E1 E2.
  destruct (is_shuffle_facts _ _ Hsh) as (Hlen & Hnd & Hpos).
  assert (Hlab : forall r c, (r < S)%nat -> (c < S)%nat ->
                   0 <= reshape3 S shuffled g r c).
  { intros r c Hr Hc. unfold reshape3. rewrite Forall_forall in Hpos.
    apply Hpos, nth_In. rewrite Hlen. now apply cell_index_lt. }
  assert (Hinj : forall r c r' c', (r < S)%nat -> (c < S)%nat ->
                   (r' < S)%nat -> (c' < S)%nat ->
                   reshape3 S shuffled g r c = reshape3 S shuffled g r' c' ->
                   r = r' /\ c = c').
  { intros r c r' c' Hr Hc Hr' Hc' E. unfold reshape3 in E.
    apply (cell_index_inj S g); try assumption.
    apply (proj1 (NoDup_nth shuffled 0) Hnd);
      try (rewrite Hlen; now apply cell_index_lt).
    exact E. }
  set (P := food_pos0 S board shuffled g).
  assert (HP1 : P r1 c1 = reshape3 S shuffled g r1 c1).
  { unfold P, food_pos0. rewrite E1, Z.eqb_refl. cbn [b2z]. apply Z.mul_1_l. }
  assert (HP2 : P r2 c2 = reshape3 S shuffled g r2 c2).
  { unfold P, food_pos0. rewrite E2, Z.eqb_refl. cbn [b2z]. apply Z.mul_1_l. }
  assert (Hm : 1 <= lane_max S P).
  { pose proof (lane_max_ge S P r1 c1 Hr1 Hc1).
    pose proof (lane_max_ge S P r2 c2 Hr2 Hc2).
    pose proof (Hlab r1 c1 Hr1 Hc1). pose proof (Hlab r2 c2 Hr2 Hc2).
    assert (reshape3 S shuffled g r1 c1 <> reshape3 S shuffled g r2 c2).
    { intros E. apply Hne. destruct (Hinj _ _ _ _ Hr1 Hc1 Hr2 Hc2 E). now subst. }
    lia. }
  destruct (lane_max_attained S P ltac:(lia)) as (r0 & c0 & Hr0 & Hc0 & Hat).
  assert (Hempty : forall r c, 1 <= P r c ->
            get3 board g r c = value_board /\ P r c = reshape3 S shuffled g r c).
  { intros r c H. unfold P, food_pos0 in *.
    destruct (Z.eqb_spec (get3 board g r c) value_board) as [E | E].
    - split; [exact E|]. cbn [b2z]. apply Z.mul_1_l.
    - cbn [b2z] in H. lia. }
  destruct (Hempty r0 c0 ltac:(lia)) as [E0 L0].
  exists r0, c0. repeat split; try assumption.
  intros r c Hr Hc. unfold food_pos1. fold P.
  destruct (Nat.eqb_spec r r0) as [-> | Nr]; [destruct (Nat.eqb_spec c c0) as [-> | Nc]|];
    cbn [andb].
  - rewrite <- Hat, Z.eqb_refl.
    destruct (Z.gtb_spec (lane_max S P) value_board) as [G | G]; [reflexivity|].
    unfold value_board in G. lia.
  - destruct (Z.eqb_spec (P r0 c) (lane_max S P)) as [E | E]; [|reflexivity].
    exfalso. destruct (Hempty r0 c ltac:(lia)) as [_ L].
    destruct (Hinj r0 c r0 c0 Hr Hc Hr0 Hc0); [congruence | contradiction].
  - destruct (Z.eqb_spec (P r c) (lane_max S P)) as [E | E]; [|reflexivity].
    exfalso. destruct (Hempty r c ltac:(lia)) as [_ L].
    destruct (Hinj r c r0 c0 Hr Hc Hr0 Hc0); [congruence | contradiction].
Qed.

(** X13: on a well-formed state, when the shuffled labels are a
    rearrangement of 0 .. N*S*S-1 and a lane holds no food but at least two
    Empty cells, [_get_food] marks exactly one cell of that lane as food, and
    that cell was Empty in the newest frame. *)
Theorem X13_food_placed_on_one_cell
    (s : Snake) (a : Attrs) (b0 : batch) (tl : list batch) (shuffled : list Z)
    (g r1 c1 r2 c2 : nat) :
  well_formed s = true ->
  _attrs s = Some a -> _board s = b0 :: tl ->
  is_shuffle (_n_games s * _board_size s * _board_size s) shuffled ->
  (g < _n_games s)%nat ->
  lane_without_food (_board_size s) (_food a) g ->
  (r1 < _board_size s)%nat -> (c1 < _board_size s)%nat ->
  (r2 < _board_size s)%nat -> (c2 < _board_size s)%nat ->
  (r1, c1) <> (r2, c2) ->
  get3 b0 g r1 c1 = value_board -> get3 b0 g r2 c2 = value_board ->
  exists s' a' r0 c0,
    _get_food s shuffled = Ok s' /\
    _attrs s' = Some a' /\
    (r0 < _board_size s)%nat /\ (c0 < _board_size s)%nat /\
    get3 b0 g r0 c0 = value_board /\
    forall r c, (r < _board_size s)%nat -> (c < _board_size s)%nat ->
      get3 (_food a') g r c = if ((r =? r0) && (c =? c0))%nat then 1 else 0.
Proof.
  intros _ Ha Hb Hsh Hg Hno Hr1 Hc1 Hr2 Hc2 Hne E1 E2.
  destruct (food_pos1_unique _ _ b0 shuffled g r1 c1 r2 c2 Hsh Hg Hr1 Hc1 Hr2 Hc2
              Hne E1 E2) as (r0 & c0 & Hr0 & Hc0 & E0 & Hone).
  exists (set_board (set_attrs s (set_food a (new_food s a b0 shuffled)))
            (board_of s (set_food a (new_food s a b0 shuffled)) :: tl)),
         (set_food a (new_food s a b0 shuffled)), r0, c0.
  split; [apply (get_food_ok s a b0 tl shuffled Ha Hb); lia|].
  split; [reflexivity|]. repeat split; try assumption.
  intros r c Hr Hc. cbn [set_food _food].
  rewrite new_food_cell_no_food by assumption. now apply Hone.
Qed.

Lemma X13_food_placed_on_one_cell_witness :
  exists s' a' r0 c0,
    _get_food chasing_tail_hungry (arange 25) = Ok s' /\
    _attrs s' = Some a' /\
    (r0 < 5)%nat /\ (c0 < 5)%nat /\
    get3 (nth 0 (_board chasing_tail_hungry) []) 0 r0 c0 = value_board /\
    forall r c, (r < 5)%nat -> (c < 5)%nat ->
      get3 (_food a') 0 r c = if ((r =? r0) && (c =? c0))%nat then 1 else 0.
Proof.
  apply (X13_food_placed_on_one_cell chasing_tail_hungry
           (get_ok no_attrs (attrs chasing_tail_hungry))
           (board_of (new_snake 5 1 1 5 298)
              (get_ok no_attrs (attrs chasing_tail_hungry)))
           [] (arange 25) 0 1 3 3 3).
  - vm_compute. reflexivity.
  - reflexivity.
  - reflexivity.
  - apply Permutation_refl.
  - cbn. lia.
  - intros r c Hr Hc. cbn in Hr, Hc.
    destruct r as [| [| [| [| [| r]]]]]; try lia;
      destruct c as [| [| [| [| [| c]]]]]; try lia; reflexivity.
  - cbn. lia.
  - cbn. lia.
  - cbn. lia.
  - cbn. lia.
  - discriminate.
  - reflexivity.
  - reflexivity.
Defined.

(** ** The board after [reset] *)

Section FreshBoard.
Variable s : Snake.
Hypothesis Hv : valid_config s.

(** Every cell of the fresh grid: ring, body segment and head. *)
Lemma fresh_board_cell (g r c : nat) :
  (g < _n_games s)%nat -> (r < _board_size s)%nat -> (c < _board_size s)%nat ->
  get3 (fresh_board s) g r c
  = (if interior (_board_size s) r c then value_board else value_border)
    + (if ((r =? _board_size s / 2) && (1 <=? c) && (c <? _start_length s))%nat
       then value_snake else 0)
    + (if ((r =? _board_size s / 2) && (c =? _start_length s))%nat
       then value_head else 0).
Proof.
  intros Hg Hr Hc. destruct Hv as [HS HF HN HL Hb].
  unfold fresh_board, board_of. rewrite get3_tab by assumption.
  rewrite Hb. unfold get3 at 1. rewrite nth_tab by assumption.
  rewrite get2_pad1 by lia. fold (interior (_board_size s) r c).
  unfold reset_attrs. cbn [_body _head _food]. rewrite !get3_tab by assumption.
  destruct ((r =? _board_size s / 2) && (1 <=? c) && (c <? _start_length s))%nat
    eqn:Eb.
  - rewrite !andb_true_iff in Eb. destruct Eb as [[_ _] Hlt].
    apply Nat.ltb_lt in Hlt.
    destruct (Z.gtb_spec (Z.of_nat (_start_length s - c)) 0) as [G | G]; [|lia].
    destruct ((r =? _board_size s / 2) && (c =? _start_length s))%nat;
      unfold value_snake, value_head, value_food; cbn [b2z];
      try change (wrap8 (1 * 2)) with 2; try change (wrap8 (0 * 2)) with 0;
      change (wrap8 (0 * 3)) with 0; lia.
  - destruct ((r =? _board_size s / 2) && (c =? _start_length s))%nat;
      unfold value_snake, value_head, value_food;
      try change (wrap8 (1 * 2)) with 2; try change (wrap8 (0 * 2)) with 0;
      change (wrap8 (0 * 3)) with 0; cbn; lia.
Qed.

Lemma snake_row_inside :
  (1 <= _board_size s / 2 <= _board_size s - 2)%nat.
Proof.
  destruct Hv as [HS _ _ _ _]. split.
  - apply Nat.div_le_lower_bound; lia.
  - destruct (Nat.eq_dec (_board_size s) 3) as [E | E].
    + rewrite E. cbn. lia.
    + apply Nat.Div0.div_le_upper_bound. lia.
Qed.

(** The newest frame after [reset]: the fresh grid, plus 3 on the cell
    that got the food, which was empty. *)
Lemma reset_frame_cell (shuffled : list Z) (g r c : nat) :
  (g < _n_games s)%nat -> (r < _board_size s)%nat -> (c < _board_size s)%nat ->
  let food := get3 (_food (reset_food s shuffled)) g r c in
  get3 (board_of s (reset_food s shuffled)) g r c
  = get3 (fresh_board s) g r c + food * value_food /\
  (food = 0 \/ food = 1) /\
  (food = 1 -> get3 (fresh_board s) g r c = value_board).
Proof.
  intros Hg Hr Hc food. subst food.
  split; [now apply reset_first_frame_cell|].
  rewrite reset_food_cell by assumption.
  split; [apply food_pos1_bit|].
  unfold food_pos1, food_pos0.
  destruct (Z.eqb_spec (get3 (fresh_board s) g r c) value_board) as [E | E]; [auto|].
  cbn [b2z]. rewrite Z.mul_0_l, andb_false_r. discriminate.
Qed.

End FreshBoard.

(** X14: for a valid configuration with board side at least 4 and a
    shuffle that rearranges 0 .. N*S*S-1, [reset] leaves exactly one food
    cell in every lane, on a cell that is Empty in the fresh grid. *)
Theorem X14_reset_places_one_food_per_lane
    (s s' : Snake) (obs : observation) (shuffled : list Z) (g : nat) :
  valid_config s ->
  (4 <= _board_size s)%nat ->
  is_shuffle (_n_games s * _board_size s * _board_size s) shuffled ->
  reset s shuffled = Ok (s', obs) ->
  (g < _n_games s)%nat ->
  exists a' r0 c0,
    _attrs s' = Some a' /\
    (r0 < _board_size s)%nat /\ (c0 < _board_size s)%nat /\
    get3 (fresh_board s) g r0 c0 = value_board /\
    forall r c, (r < _board_size s)%nat -> (c < _board_size s)%nat ->
      get3 (_food a') g r c = if ((r =? r0) && (c =? c0))%nat then 1 else 0.
Proof.
  intros Hv HS4 Hsh Hr Hg.
  rewrite (reset_gives_reset_state s Hv s' obs shuffled Hr).
  pose proof (valid_start_length s Hv) as HL.
  pose proof (snake_row_inside s Hv) as Hrow.
  assert (Hhalf : (2 <= _board_size s / 2)%nat)
    by (apply Nat.div_le_lower_bound; lia).
  assert (E1 : get3 (fresh_board s) g 1 1 = value_board).
  { rewrite (fresh_board_cell s Hv) by lia. unfold interior.
    destruct (Nat.leb_spec 1 (_board_size s - 2)); [|lia]. cbn [Nat.leb andb].
    destruct (Nat.eqb_spec 1 (_board_size s / 2)); [lia|]. reflexivity. }
  assert (E2 : get3 (fresh_board s) g (_board_size s / 2) (_board_size s - 2)
               = value_board).
  { rewrite (fresh_board_cell s Hv) by lia. unfold interior.
    destruct (Nat.leb_spec 1 (_board_size s / 2)); [|lia].
    destruct (Nat.leb_spec (_board_size s / 2) (_board_size s - 2)); [|lia].
    destruct (Nat.leb_spec 1 (_board_size s - 2)); [|lia].
    rewrite Nat.leb_refl, Nat.eqb_refl. cbn [andb].
    destruct (Nat.ltb_spec (_board_size s - 2) (_start_length s)); [lia|].
    destruct (Nat.eqb_spec (_board_size s - 2) (_start_length s)); [lia|].
    reflexivity. }
  destruct (food_pos1_unique _ _ (fresh_board s) shuffled g
              1 1 (_board_size s / 2) (_board_size s - 2) Hsh Hg)
    as (r0 & c0 & Hr0 & Hc0 & E0 & Hone); try lia; try assumption.
  { intros E. assert (E' : 1%nat = (_board_size s / 2)%nat) by congruence.
    rewrite <- E' in Hhalf. lia. }
  exists (reset_food s shuffled), r0, c0.
  split; [reflexivity|]. repeat split; try assumption.
  intros r c Hr' Hc'. rewrite reset_food_cell by assumption. now apply Hone.
Qed.

Lemma X14_reset_places_one_food_per_lane_witness :
  exists a' r0 c0,
    _attrs (reset_state (new_snake 6 2 1 2 298) (arange 36)) = Some a' /\
    (r0 < 6)%nat /\ (c0 < 6)%nat /\
    get3 (fresh_board (new_snake 6 2 1 2 298)) 0 r0 c0 = value_board /\
    forall r c, (r < 6)%nat -> (c < 6)%nat ->
      get3 (_food a') 0 r c = if ((r =? r0) && (c =? c0))%nat then 1 else 0.
Proof.
  destruct (new_snake_valid 6 2 1 2 298) as [_ Hv]; try lia.
  destruct (reset_ok (new_snake 6 2 1 2 298) (arange 36)) as (obs & _ & Hr);
    [cbn; lia | cbn; lia |].
  apply (X14_reset_places_one_food_per_lane (new_snake 6 2 1 2 298)
           (reset_state (new_snake 6 2 1 2 298) (arange 36)) obs (arange 36) 0 Hv).
  - cbn. lia.
  - apply Permutation_refl.
  - exact Hr.
  - cbn. lia.
Defined.

Ltac reflect_cells :=
  repeat match goal with
         | H : interior _ _ _ = true |- _ =>
             unfold interior in H; rewrite !andb_true_iff, !Nat.leb_le in H
         | H : interior _ _ _ = false |- _ =>
             unfold interior in H; rewrite !andb_false_iff, !Nat.leb_gt in H
         end.

(** X15: for a valid configuration whose clamped start length is at least
    1, the newest frame after [reset] shows in every lane the border code 4
    exactly on the ring, the head code 2 exactly at row S/2, column L, the
    body code 1 exactly on the cells to the left of the head back to column
    1, the food code 3 exactly where the food mask is set, and 0 elsewhere. *)
Theorem X15_reset_renders_the_five_codes
    (s s' : Snake) (obs : observation) (shuffled : list Z) (g r c : nat) :
  valid_config s ->
  (1 <= _start_length s)%nat ->
  reset s shuffled = Ok (s', obs) ->
  (g < _n_games s)%nat -> (r < _board_size s)%nat -> (c < _board_size s)%nat ->
  exists b0 tl a',
    _board s' = b0 :: tl /\ _attrs s' = Some a' /\
    (get3 b0 g r c = value_border <-> interior (_board_size s) r c = false) /\
    (get3 b0 g r c = value_head <->
       r = (_board_size s / 2)%nat /\ c = _start_length s) /\
    (get3 b0 g r c = value_snake <->
       r = (_board_size s / 2)%nat /\ (1 <= c < _start_length s)%nat) /\
    (get3 b0 g r c = value_food <-> get3 (_food a') g r c = 1) /\
    (get3 b0 g r c = value_board \/ get3 b0 g r c = value_snake \/
     get3 b0 g r c = value_head \/ get3 b0 g r c = value_food \/
     get3 b0 g r c = value_border).
Proof.
  intros Hv HL1 Hr Hg Hrr Hc.
  rewrite (reset_gives_reset_state s Hv s' obs shuffled Hr).
  exists (board_of s (reset_food s shuffled)),
         (repeat (fresh_board s) (_n_frames s - 1)), (reset_food s shuffled).
  split; [reflexivity|]. split; [reflexivity|].
  destruct (reset_frame_cell s shuffled g r c Hg Hrr Hc) as (Hx & Hbit & Hemp).
  cbv zeta in Hx, Hbit, Hemp. rewrite Hx.
  rewrite (fresh_board_cell s Hv g r c Hg Hrr Hc) in *.
  pose proof (valid_start_length s Hv) as HL.
  pose proof (snake_row_inside s Hv) as Hrow.
  unfold value_board, value_border, value_snake, value_head, value_food in *.
  destruct (interior (_board_size s) r c) eqn:Hi; reflect_cells;
    destruct (Nat.eqb_spec r (_board_size s / 2));
    destruct (Nat.leb_spec 1 c);
    destruct (Nat.ltb_spec c (_start_length s));
    destruct (Nat.eqb_spec c (_start_length s));
    cbn [andb] in *;
    destruct Hbit as [Hb | Hb]; rewrite Hb in *;
    try (specialize (Hemp eq_refl));
    repeat split; intros; try discriminate; try reflexivity; try lia.
Qed.

Lemma X15_reset_renders_the_five_codes_witness :
  exists b0 tl a',
    _board (reset_state (new_snake 6 2 1 2 298) (arange 36)) = b0 :: tl /\
    _attrs (reset_state (new_snake 6 2 1 2 298) (arange 36)) = Some a' /\
    (get3 b0 0 3 2 = value_border <-> interior 6 3 2 = false) /\
    (get3 b0 0 3 2 = value_head <-> 3%nat = (6 / 2)%nat /\ 2%nat = 2%nat) /\
    (get3 b0 0 3 2 = value_snake <-> 3%nat = (6 / 2)%nat /\ (1 <= 2 < 2)%nat) /\
    (get3 b0 0 3 2 = value_food <-> get3 (_food a') 0 3 2 = 1) /\
    (get3 b0 0 3 2 = value_board \/ get3 b0 0 3 2 = value_snake \/
     get3 b0 0 3 2 = value_head \/ get3 b0 0 3 2 = value_food \/
     get3 b0 0 3 2 = value_border).
Proof.
  destruct (new_snake_valid 6 2 1 2 298) as [_ Hv]; try lia.
  destruct (reset_ok (new_snake 6 2 1 2 298) (arange 36)) as (obs & _ & Hr);
    [cbn; lia | cbn; lia |].
  apply (X15_reset_renders_the_five_codes (new_snake 6 2 1 2 298)
           (reset_state (new_snake 6 2 1 2 298) (arange 36)) obs (arange 36)
           0 3 2 Hv).
  - cbn. lia.
  - exact Hr.
  - cbn. lia.
  - cbn. lia.
  - cbn. lia.
Defined.

(** X16: when the clamped start length is 0 (every board of side 3, or
    start_length = 0), [reset] writes the head on column 0, that is on the
    left wall: the cell at row S/2, column 0 of the newest frame reads 6
    (border plus head), and no cell of the lane reads the head code 2. *)
Theorem X16_start_length_zero_puts_head_on_wall
    (s s' : Snake) (obs : observation) (shuffled : list Z) (g : nat) :
  valid_config s ->
  _start_length s = 0%nat ->
  reset s shuffled = Ok (s', obs) ->
  (g < _n_games s)%nat ->
  exists b0 tl,
    _board s' = b0 :: tl /\
    get3 b0 g (_board_size s / 2) 0 = value_border + value_head /\
    forall r c, (r < _board_size s)%nat -> (c < _board_size s)%nat ->
      get3 b0 g r c <> value_head.
Proof.
  intros Hv HL0 Hr Hg.
  rewrite (reset_gives_reset_state s Hv s' obs shuffled Hr).
  exists (board_of s (reset_food s shuffled)),
         (repeat (fresh_board s) (_n_frames s - 1)).
  split; [reflexivity|].
  pose proof (snake_row_inside s Hv) as Hrow.
  pose proof (vc_size s Hv) as HS.
  assert (Hcell : forall r c, (r < _board_size s)%nat -> (c < _board_size s)%nat ->
    (get3 (board_of s (reset_food s shuffled)) g r c = 6
     /\ r = (_board_size s / 2)%nat /\ c = 0%nat)
    \/ (get3 (board_of s (reset_food s shuffled)) g r c <> 2
        /\ get3 (board_of s (reset_food s shuffled)) g r c <> 6
        /\ (r <> (_board_size s / 2)%nat \/ c <> 0%nat))).
  { intros r c Hrr Hc.
    destruct (reset_frame_cell s shuffled g r c Hg Hrr Hc) as (Hx & Hbit & Hemp).
    cbv zeta in Hx, Hbit, Hemp. rewrite Hx.
    rewrite (fresh_board_cell s Hv g r c Hg Hrr Hc) in *.
    rewrite HL0 in *.
    unfold value_board, value_border, value_snake, value_head, value_food in *.
    destruct (interior (_board_size s) r c) eqn:Hi; reflect_cells;
      destruct (Nat.eqb_spec r (_board_size s / 2));
      destruct (Nat.leb_spec 1 c);
      destruct (Nat.ltb_spec c 0);
      destruct (Nat.eqb_spec c 0);
      cbn [andb] in *;
      destruct Hbit as [Hb | Hb]; rewrite Hb in *;
      try (specialize (Hemp eq_refl)); try lia. }
  split.
  - destruct (Hcell (_board_size s / 2)%nat 0%nat) as [(H & _) | (_ & _ & H)];
      [lia | lia | exact H | lia].
  - intros r c Hrr Hc. unfold value_head.
    destruct (Hcell r c Hrr Hc) as [(H & _) | (H & _)]; lia.
Qed.

Lemma X16_start_length_zero_puts_head_on_wall_witness :
  exists b0 tl,
    _board (reset_state (new_snake 3 1 2 5 298) (arange 18)) = b0 :: tl /\
    get3 b0 1 (3 / 2) 0 = value_border + value_head /\
    forall r c, (r < 3)%nat -> (c < 3)%nat -> get3 b0 1 r c <> value_head.
Proof.
  destruct (new_snake_valid 3 1 2 5 298) as [_ Hv]; try lia.
  destruct (reset_ok (new_snake 3 1 2 5 298) (arange 18)) as (obs & _ & Hr);
    [cbn; lia | cbn; lia |].
  apply (X16_start_length_zero_puts_head_on_wall (new_snake 3 1 2 5 298)
           (reset_state (new_snake 3 1 2 5 298) (arange 18)) obs (arange 18) 1 Hv).
  - reflexivity.
  - exact Hr.
  - cbn. lia.
Defined.

(** ** [reset] and the state before it *)

Lemma reset_state_same_config (s1 s2 : Snake) (shuffled : list Z) :
  same_config s1 s2 ->
  reset_state s1 shuffled = reset_state s2 shuffled /\
  reset_frames s1 shuffled = reset_frames s2 shuffled.
Proof.
  destruct s1, s2. unfold same_config. cbn.
  intros (-> & -> & -> & -> & -> & -> & ->). split; reflexivity.
Qed.

(** X17: [reset] takes nothing from the state it finds: two validly
    configured objects built with the same constructor arguments get the
    same state and the same observation from the same shuffle, whatever
    their attributes and frame histories were before. *)
Theorem X17_reset_forgets_prior_state (s1 s2 : Snake) (shuffled : list Z) :
  valid_config s1 ->
  same_config s1 s2 ->
  exists s' obs,
    reset s1 shuffled = Ok (s', obs) /\ reset s2 shuffled = Ok (s', obs).
Proof.
  intros Hv Hc.
  pose proof (valid_start_length s1 Hv) as HL.
  pose proof (vc_frames s1 Hv) as HF.
  destruct (reset_state_same_config s1 s2 shuffled Hc) as [Es Ef].
  destruct Hc as (ES & EF & _ & _ & EL & _).
  destruct (reset_ok s1 shuffled) as (obs1 & Ho1 & Hr1); [lia | lia |].
  destruct (reset_ok s2 shuffled) as (obs2 & Ho2 & Hr2); [lia | lia |].
  exists (reset_state s1 shuffled), obs1. split; [exact Hr1|].
  rewrite Hr2, <- Es. rewrite Ef, Ho2 in Ho1. now injection Ho1 as <-.
Qed.

Lemma X17_reset_forgets_prior_state_witness :
  exists s' obs,
    reset (new_snake 4 2 1 5 298) (arange 16) = Ok (s', obs) /\
    reset full_with_history (arange 16) = Ok (s', obs).
Proof.
  apply (X17_reset_forgets_prior_state (new_snake 4 2 1 5 298) full_with_history).
  - apply new_snake_valid; lia.
  - repeat split.
Defined.

(** X18: the constructor accepts frames = 0, but [reset] then fails: the
    deque of maximal length 0 stays empty and [_get_food] reads its first
    element, an IndexError. *)
Theorem X18_zero_frames_reset_raises (S N L0 : nat) (T : Z) (shuffled : list Z) :
  match __init__ S 0 N L0 T with
  | Ok e => reset e shuffled = Raise IndexError
  | Raise err => err = ValueError /\ (S < 2)%nat
  end.
Proof.
  unfold __init__. destruct (Nat.ltb_spec S 2) as [H | H]; [split; [reflexivity | lia]|].
  unfold reset. cbn [_board_size _start_length _n_frames _board set_attrs].
  assert (HL : (Nat.min L0 ((S - 2) / 2) < S)%nat).
  { assert ((S - 2) / 2 <= S - 2)%nat by (apply Nat.Div0.div_le_upper_bound; lia).
    lia. }
  destruct (Nat.leb_spec S (Nat.min L0 ((S - 2) / 2))); [lia|].
  reflexivity.
Qed.

Lemma get_food_same_config (s s' : Snake) (shuffled : list Z) :
  _get_food s shuffled = Ok s' -> same_config s s'.
Proof.
  unfold _get_food, attrs.
  destruct (_board s) as [| b0 tl] eqn:Hb; cbn [deque_first bind]; [discriminate|].
  destruct ((_board_size s =? 0) && negb (_n_games s =? 0))%nat; [discriminate|].
  destruct (_attrs s) as [a |]; cbn [bind]; [|discriminate].
  unfold _set_first_frame, _calculate_board, attrs.
  cbn [set_attrs _attrs bind _board]. rewrite Hb. cbn [deque_set_first bind].
  intros H. injection H as <-. repeat split.
Qed.

Lemma reset_same_config (s s' : Snake) (shuffled : list Z) (obs : observation) :
  reset s shuffled = Ok (s', obs) -> same_config s s'.
Proof.
  unfold reset.
  destruct (_board_size s <=? _start_length s)%nat; [discriminate|].
  unfold _calculate_board, attrs. cbn [set_attrs _attrs bind].
  destruct (_get_food _ shuffled) as [s3 | e] eqn:Hf; cbn [bind]; [|discriminate].
  destruct (_queue_to_board s3); cbn [bind]; [|discriminate].
  intros H. injection H as <- _.
  apply get_food_same_config in Hf. exact Hf.
Qed.

(** X19: no call of the interface that returns changes the configuration:
    board side, frame count, lane count, rewards, start length, time limit
    and border array are the same after [reset] and after [step], so the
    accessors keep answering what the constructor was given. *)
Theorem X19_calls_keep_configuration
    (s s' : Snake) (c : call) (o : option StepOut) :
  run s c = Ok (s', o) ->
  same_config s s' /\
  get_board_size s' = get_board_size s /\
  get_n_frames s' = get_n_frames s /\
  get_num_actions s' = get_num_actions s.
Proof.
  intros Hrun.
  assert (Hc : same_config s s').
  { destruct c as [shuffled | action shuffled]; cbn [run] in Hrun.
    - destruct (reset s shuffled) as [[s1 obs] | e] eqn:Hr; [|discriminate].
      cbn [bind] in Hrun. injection Hrun as <- _.
      now apply reset_same_config in Hr.
    - destruct (step s action shuffled) as [[s1 out] | e] eqn:Hs; [|discriminate].
      cbn [bind] in Hrun. injection Hrun as <- _.
      destruct (step_inv _ _ _ _ _ Hs) as (a & _ & _ & _ & _ & _ & -> & _).
      repeat split. }
  split; [exact Hc|].
  destruct Hc as (ES & EF & _). unfold get_board_size, get_n_frames, get_num_actions.
  auto.
Qed.

Lemma X19_calls_keep_configuration_witness :
  same_config full_with_history
    (tick full_with_history (get_ok no_attrs (attrs full_with_history))) /\
  get_board_size
    (tick full_with_history (get_ok no_attrs (attrs full_with_history))) = 4%nat.
Proof.
  destruct (X19_calls_keep_configuration full_with_history
              (tick full_with_history (get_ok no_attrs (attrs full_with_history)))
              (Step [3] [])
              (snd (get_ok (no_snake, None) (run full_with_history (Step [3] []))))
              ltac:(vm_compute; reflexivity)) as (H1 & H2 & _).
  split; [exact H1 | exact H2].
Defined.

(** X20: an object that was constructed but never reset cannot be
    stepped or rendered: [step] and [_calculate_board] raise AttributeError
    (the lane attributes do not exist yet) and [_queue_to_board] raises
    ValueError (there is no frame to stack). *)
Theorem X20_step_before_reset_raises
    (S F N L0 : nat) (T : Z) (action shuffled : list Z) :
  match __init__ S F N L0 T with
  | Ok e =>
      step e action shuffled = Raise AttributeError /\
      _calculate_board e = Raise AttributeError /\
      _queue_to_board e = Raise ValueError
  | Raise err => err = ValueError /\ (S < 2)%nat
  end.
Proof.
  unfold __init__. destruct (Nat.ltb_spec S 2) as [H | H]; [split; [reflexivity | lia]|].
  repeat split.
Qed.

(** ** The observation tensor *)

(** X21: [_queue_to_board] raises ValueError on an empty deque; on a deque
    of frames of shape (N,S,S) it returns a tensor of shape (N,S,S,F'), F'
    the number of frames held, whose last axis lists at every cell that
    cell's value in each frame, newest first:
    [obs[g][r][c][f] = frames[f][g][r][c]]. *)
Theorem X21_observation_is_the_frame_stack (s : Snake) (N S : nat) :
  forallb (shapedb N S) (_board s) = true ->
  match _board s with
  | [] => _queue_to_board s = Raise ValueError
  | fr0 :: tl =>
      exists obs,
        _queue_to_board s = Ok obs /\
        has_shape obs N S (length (_board s)) /\
        forall g r c, (g < N)%nat -> (r < S)%nat -> (c < S)%nat ->
          obs_cell obs g r c = map (fun fr => get3 fr g r c) (fr0 :: tl) /\
          forall f, (f < length (_board s))%nat ->
            nth f (obs_cell obs g r c) 0 = get3 (nth f (_board s) []) g r c
  end.
Proof.
  unfold _queue_to_board. destruct (_board s) as [| fr0 tl]; [reflexivity|].
  cbn [forallb]. rewrite andb_true_iff. intros [H0 _].
  destruct (shapedb_elim N S fr0 H0) as [HN Hsh].
  exists (tab N (fun g => tab S (fun r => tab S (fun c =>
            map (fun fr => get3 fr g r c) (fr0 :: tl))))).
  split.
  { unfold stack3. f_equal. rewrite HN. unfold tab.
    apply map_ext_in. intros g Hg. apply in_seq in Hg.
    destruct (Hsh g ltac:(lia)) as [HL HR]. rewrite HL.
    apply map_ext_in. intros r Hr. apply in_seq in Hr.
    rewrite (HR r ltac:(lia)). reflexivity. }
  split.
  { split; [apply length_tab|].
    apply Forall_tab. intros g Hg. split; [apply length_tab|].
    apply Forall_tab. intros r Hr. split; [apply length_tab|].
    apply Forall_tab. intros c Hc. now rewrite length_map. }
  intros g r c Hg Hr Hc.
  assert (E : obs_cell
                (tab N (fun g => tab S (fun r => tab S (fun c =>
                   map (fun fr => get3 fr g r c) (fr0 :: tl))))) g r c
              = map (fun fr => get3 fr g r c) (fr0 :: tl)).
  { unfold obs_cell. now rewrite !nth_tab by assumption. }
  split; [exact E|].
  intros f Hf. rewrite E.
  rewrite (nth_indep _ 0 (get3 [] g r c)) by now rewrite length_map.
  now rewrite (map_nth (fun fr => get3 fr g r c)).
Qed.

Lemma X21_observation_is_the_frame_stack_witness :
  exists obs,
    _queue_to_board full_with_history = Ok obs /\
    has_shape obs 1 4 2 /\
    obs_cell obs 0 1 1 = [2; 3].
Proof.
  pose proof (X21_observation_is_the_frame_stack full_with_history 1 4
                ltac:(vm_compute; reflexivity)) as H.
  destruct H as (obs & H1 & H2 & H3).
  exists obs. split; [exact H1|]. split; [exact H2|].
  destruct (H3 0%nat 1%nat 1%nat) as [E _]; try lia.
  rewrite E. reflexivity.
Defined.

(** ** The invariant along calls *)

Lemma same_config_sym (s1 s2 : Snake) : same_config s1 s2 -> same_config s2 s1.
Proof. unfold same_config. intuition congruence. Qed.

Lemma same_config_trans (s1 s2 s3 : Snake) :
  same_config s1 s2 -> same_config s2 s3 -> same_config s1 s3.
Proof. unfold same_config. intuition congruence. Qed.

Lemma valid_config_same_config (s1 s2 : Snake) :
  same_config s1 s2 -> valid_config s1 -> valid_config s2.
Proof.
  intros (ES & EF & EN & _ & EL & _ & EB) [H1 H2 H3 H4 H5].
  constructor; rewrite <- ?ES, <- ?EF, <- ?EN, <- ?EL, <- ?EB; assumption.
Qed.

Lemma shapedb_tab3 (N S : nat) (f : nat -> nat -> nat -> Z) :
  shapedb N S (tab N (fun g => tab S (fun r => tab S (fun c => f g r c)))) = true.
Proof.
  apply shapedb_tab. intros g Hg. split; [apply length_tab|].
  intros r Hr. rewrite nth_tab by exact Hr. apply length_tab.
Qed.

Lemma maskb_tab3 (N S : nat) (f : nat -> nat -> nat -> Z) :
  (forall g r c, (g < N)%nat -> (r < S)%nat -> (c < S)%nat ->
     f g r c = 0 \/ f g r c = 1) ->
  maskb (tab N (fun g => tab S (fun r => tab S (fun c => f g r c)))) = true.
Proof.
  intros H. apply maskb_intro. intros g r c Hin.
  apply (in_frame_shaped N S _ g r c (shapedb_tab3 N S f)) in Hin.
  destruct Hin as (Hg & Hr & Hc). rewrite get3_tab by assumption. now apply H.
Qed.

Lemma forallb_repeat {A : Type} (p : A -> bool) (x : A) (n : nat) :
  p x = true -> forallb p (repeat x n) = true.
Proof.
  intros H. apply forallb_forall. intros y Hy.
  now rewrite (repeat_spec _ _ _ Hy).
Qed.

(** [reset] establishes the invariant. *)
Lemma reset_state_well_formed (s : Snake) (shuffled : list Z) :
  valid_config s -> well_formed (reset_state s shuffled) = true.
Proof.
  intros [HS HF HN HL Hb].
  apply (well_formed_intro _ (reset_food s shuffled));
    cbn [reset_state reset_food reset_frames set_board set_attrs set_food
         _attrs _border _body _food _head _snake_direction _time _board
         _n_games _board_size _n_frames reset_attrs].
  - reflexivity.
  - rewrite Hb. apply shapedb_tab. intros g Hg. unfold pad1.
    split; [rewrite length_tab; lia|]. intros r Hr.
    rewrite nth_tab by lia. rewrite length_tab. lia.
  - apply shapedb_tab3.
  - apply new_food_shaped.
  - apply new_food_mask; [lia|]. cbn [reset_attrs _food].
    apply maskb_tab3. intros; now left.
  - apply shapedb_tab3.
  - apply maskb_tab3. intros g r c _ _ _. destruct (_ && _); auto.
  - apply repeat_length.
  - apply repeat_length.
  - unfold reset_frames. cbn [length]. rewrite repeat_length. lia.
  - unfold reset_frames. cbn [forallb]. apply andb_true_iff. split.
    + apply (board_of_shaped s (reset_food s shuffled)).
    + apply forallb_repeat. apply (board_of_shaped s (reset_attrs s)).
Qed.

(** A step that returns keeps the invariant: only the clocks move. *)
Lemma tick_well_formed (s : Snake) (a : Attrs) :
  _attrs s = Some a -> well_formed s = true -> well_formed (tick s a) = true.
Proof.
  intros Ha Hwf.
  destruct (well_formed_inv s a Ha Hwf)
    as (H1 & H2 & H3 & H4 & H5 & H6 & H7 & H8 & H9 & H10).
  apply (well_formed_intro _ (set_time a (map (fun x => x + 1) (_time a))));
    cbn [tick set_attrs set_time _attrs _border _body _food _head
         _snake_direction _time _board _n_games _board_size _n_frames];
    try assumption; try reflexivity.
  now rewrite length_map.
Qed.

(** X22: the state invariant is kept by the interface.  On a validly
    configured object that was never reset or is well formed, a call of
    [reset] or [step] that returns leaves a well-formed state with the same,
    valid configuration. *)
Theorem X22_calls_keep_the_state_well_formed
    (s s' : Snake) (c : call) (o : option StepOut) :
  valid_config s ->
  _attrs s = None \/ well_formed s = true ->
  run s c = Ok (s', o) ->
  well_formed s' = true /\ valid_config s' /\ same_config s s'.
Proof.
  intros Hv Hpre Hrun.
  assert (Hwf : well_formed s' = true /\ same_config s s').
  { destruct c as [shuffled | action shuffled]; cbn [run] in Hrun.
    - destruct (reset s shuffled) as [[s1 obs] | e] eqn:Hr; [|discriminate].
      cbn [bind] in Hrun. injection Hrun as <- _.
      split; [| now apply reset_same_config in Hr].
      rewrite (reset_gives_reset_state s Hv s1 obs shuffled Hr).
      now apply reset_state_well_formed.
    - destruct (step s action shuffled) as [[s1 out] | e] eqn:Hs; [|discriminate].
      cbn [bind] in Hrun. injection Hrun as <- _.
      destruct (step_inv _ _ _ _ _ Hs) as (a & b0 & tl & Ha & _ & _ & -> & _).
      split; [| repeat split].
      destruct Hpre as [Hn | Hwf]; [congruence|].
      now apply tick_well_formed. }
  destruct Hwf as [Hwf Hc]. split; [exact Hwf|]. split; [|exact Hc].
  now apply (valid_config_same_config s s').
Qed.

Lemma X22_calls_keep_the_state_well_formed_witness :
  well_formed (reset_state (new_snake 6 2 1 2 298) (arange 36)) = true /\
  well_formed (tick full_with_history (get_ok no_attrs (attrs full_with_history)))
  = true.
Proof.
  split.
  - destruct (new_snake_valid 6 2 1 2 298) as [_ Hv]; try lia.
    destruct (reset_ok (new_snake 6 2 1 2 298) (arange 36)) as (obs & _ & Hr);
      [cbn; lia | cbn; lia |].
    apply (X22_calls_keep_the_state_well_formed (new_snake 6 2 1 2 298)
             (reset_state (new_snake 6 2 1 2 298) (arange 36))
             (Reset (arange 36)) None Hv).
    + left. reflexivity.
    + cbn [run]. rewrite Hr. reflexivity.
  - assert (Hv : valid_config full_with_history).
    { apply (valid_config_same_config (new_snake 4 2 1 5 298)).
      - repeat split.
      - apply new_snake_valid; lia. }
    apply (X22_calls_keep_the_state_well_formed full_with_history
             (tick full_with_history (get_ok no_attrs (attrs full_with_history)))
             (Step [3] [])
             (snd (get_ok (no_snake, None) (run full_with_history (Step [3] []))))
             Hv).
    + right. vm_compute. reflexivity.
    + vm_compute. reflexivity.
Defined.

(** Along calls from a valid configuration no [step] is ever in a position
    to return. *)
Lemma run_all_resets (e : Snake) (cs : list call) :
  valid_config e ->
  forall s, same_config e s ->
    (forall action shuffled, exists err, step s action shuffled = Raise err) ->
    forall s', run_all s cs = Ok s' ->
      forallb is_reset cs = true /\
      (s' = s \/ exists shuffled, s' = reset_state e shuffled).
Proof.
  intros Hv. induction cs as [| c cs IH]; intros s Hc Hst s' Hrun.
  - cbn in Hrun. injection Hrun as <-. split; [reflexivity | now left].
  - cbn [run_all] in Hrun.
    pose proof (valid_config_same_config e s Hc Hv) as Hvs.
    destruct c as [shuffled | action shuffled]; cbn [run] in Hrun.
    + destruct (reset s shuffled) as [[s1 obs] | err] eqn:Hr; [|discriminate].
      cbn [bind] in Hrun.
      pose proof (reset_gives_reset_state s Hvs s1 obs shuffled Hr) as E1.
      destruct (reset_state_same_config e s shuffled Hc) as [Es _].
      destruct (IH s1) with (s' := s') as [Hall Hfin].
      * apply (same_config_trans e s s1 Hc). now apply reset_same_config in Hr.
      * intros action shuffled'.
        apply (step_after_reset_raises s Hvs s1 obs shuffled Hr).
      * exact Hrun.
      * split; [exact Hall|]. right.
        destruct Hfin as [-> | Hfin]; [|exact Hfin].
        exists shuffled. now rewrite Es.
    + destruct (Hst action shuffled) as [err E]. rewrite E in Hrun. discriminate.
Qed.

(** X23: on an object built with board side at least 3, at least one frame
    and at least one lane, no sequence of calls that contains a [step] runs
    through: a sequence that returns consists of [reset] calls only, and the
    state it leaves is the constructed object itself or the state [reset]
    builds from one shuffle. *)
Theorem X23_no_step_returns_on_a_constructed_object
    (S F N L0 : nat) (T : Z) (e s' : Snake) (cs : list call) :
  (3 <= S)%nat -> (1 <= F)%nat -> (1 <= N)%nat ->
  __init__ S F N L0 T = Ok e ->
  run_all e cs = Ok s' ->
  forallb is_reset cs = true /\
  (s' = e \/ exists shuffled, s' = reset_state e shuffled).
Proof.
  intros HS HF HN He Hrun.
  destruct (init_ok S F N L0 T HS HF HN) as (e' & He' & Hv & _ & _ & _ & _ & _ & _ & _ & Ha).
  rewrite He in He'. injection He' as <-.
  apply (run_all_resets e cs Hv e); [repeat split | | exact Hrun].
  intros action shuffled. exists AttributeError.
  unfold step, _check_if_done, attrs. rewrite Ha. reflexivity.
Qed.

Lemma X23_no_step_returns_on_a_constructed_object_witness :
  forallb is_reset [Reset (arange 36); Reset (arange 36)] = true /\
  (reset_state (new_snake 6 2 1 2 298) (arange 36) = new_snake 6 2 1 2 298 \/
   exists shuffled,
     reset_state (new_snake 6 2 1 2 298) (arange 36)
     = reset_state (new_snake 6 2 1 2 298) shuffled).
Proof.
  apply (X23_no_step_returns_on_a_constructed_object 6 2 1 2 298
           (new_snake 6 2 1 2 298)
           (reset_state (new_snake 6 2 1 2 298) (arange 36))
           [Reset (arange 36); Reset (arange 36)]); try lia.
  - reflexivity.
  - vm_compute. reflexivity.
Defined.
